(** * ProgramTrack: the CSV-backed program registry, member store and
      receipt generator of [app.py], embedded in Rocq.

    Modelling choices.
    - A Python [str] is a [string]: the bytes of its UTF-8 encoding; the
      Arabic literals of the source are their UTF-8 bytes.  [str.strip]
      removes the white space of Unicode, in its encoded form.
      [str.lower] is modelled on the characters whose lower case is in
      ASCII (the letters [A] to [Z] and the Kelvin sign, U+212A): the
      lower case of every other character lies outside ASCII, as the
      character does, and the program compares lowered strings with
      ASCII literals and with the key pattern only.
    - A CSV file holds the table of fields that a reader gets from it in
      text mode: a list of records, each a list of strings, the first one
      being the header.  The files are written with [newline=''] and read
      with universal newlines, so a carriage return written inside a
      field is a line feed in the table; the quoting and encoding layer
      of Python's [csv] and [io] modules is below the model.
      [csv.DictReader] and [csv.DictWriter] are modelled on such tables,
      with their defaults ([restkey = None], [restval = None] for the
      reader; [restval = ''], [extrasaction = 'raise'] for the writer).
    - A row produced by [DictReader] is a Python dict: a finite map from
      column names to values that are a [str] or [None], plus the entry
      stored under the key [None] when the record is longer than the
      header.
    - The file system is a set of directories and a finite map from paths
      to file contents.  Every function that touches it takes the state
      and returns the new state together with either a value or the
      exception that escaped.
    - [datetime.now()] is an input: each function receives the readings of
      the clock it makes, in order.
    - The third-party routines (Arabic reshaping, base64, PIL, the CSV
      tokenizer applied to an uploaded file, the byte decoders) are
      parameters of the sections that use them. *)

From Stdlib Require Import Ascii String ZArith Lia.
From stdpp Require Import base option list gmap strings fin_maps fin_sets.

Set Warnings "-clear-no-such-hyp".

Local Open Scope string_scope.
Local Open Scope list_scope.

(** ** Strings *)

Definition LF : ascii := "010"%char.
Definition CR : ascii := "013"%char.

Definition is_empty (s : string) : bool :=
  match s with "" => true | _ => false end.

(** The byte [n]. *)
Definition is_byte (n : nat) (c : ascii) : bool := (nat_of_ascii c =? n)%nat.

(** The white space of [str.isspace], by the length of its UTF-8
    encoding.  One byte: U+0009 to U+000D, U+001C to U+0020. *)
Definition is_space (c : ascii) : bool :=
  let n := nat_of_ascii c in
  ((9 <=? n)%nat && (n <=? 13)%nat) || ((28 <=? n)%nat && (n <=? 32)%nat).

(** Two bytes: U+0085 and U+00A0. *)
Definition is_space2 (a b : ascii) : bool :=
  is_byte 194 a && (is_byte 133 b || is_byte 160 b).

(** Three bytes: U+1680, U+2000 to U+200A, U+2028, U+2029, U+202F, U+205F
    and U+3000. *)
Definition is_space3 (a b c : ascii) : bool :=
  let n := nat_of_ascii c in
  is_byte 225 a && is_byte 154 b && is_byte 128 c
  || is_byte 226 a && is_byte 128 b
     && (((128 <=? n)%nat && (n <=? 138)%nat)
         || is_byte 168 c || is_byte 169 c || is_byte 175 c)
  || is_byte 226 a && is_byte 129 b && is_byte 159 c
  || is_byte 227 a && is_byte 128 b && is_byte 128 c.

(** [s.lstrip()] *)
Fixpoint lstrip (s : string) : string :=
  match s with
  | "" => ""
  | String a s1 =>
      if is_space a then lstrip s1
      else
        match s1 with
        | "" => s
        | String b s2 =>
            if is_space2 a b then lstrip s2
            else
              match s2 with
              | "" => s
              | String c s3 => if is_space3 a b c then lstrip s3 else s
              end
        end
  end.

(** [s.rstrip()]: what is left when the longest run of white space that
    ends the string is removed. *)
Fixpoint rstrip (s : string) : string :=
  match s with
  | "" => ""
  | String c s' => if is_empty (lstrip s) then "" else String c (rstrip s')
  end.

(** [s.strip()] *)
Definition strip (s : string) : string := rstrip (lstrip s).

Definition lower_char (c : ascii) : ascii :=
  let n := nat_of_ascii c in
  if (65 <=? n)%nat && (n <=? 90)%nat then ascii_of_nat (n + 32) else c.

(** The UTF-8 encoding of U+212A, the Kelvin sign: the one character
    outside ASCII whose lower case is an ASCII letter. *)
Definition is_kelvin_sign (a b c : ascii) : bool :=
  is_byte 226 a && is_byte 132 b && is_byte 170 c.

(** [s.lower()], on the characters whose lower case is in ASCII. *)
Fixpoint lower (s : string) : string :=
  match s with
  | "" => ""
  | String a s1 =>
      match s1 with
      | String b (String c s3) =>
          if is_kelvin_sign a b c then String "k" (lower s3)
          else String (lower_char a) (lower s1)
      | _ => String (lower_char a) (lower s1)
      end
  end.

(** The translation of line endings that a file opened in text mode
    applies when it is read: [CR LF] and a lone [CR] become [LF]. *)
Fixpoint universal_newlines (s : string) : string :=
  match s with
  | "" => ""
  | String c s' =>
      if Ascii.eqb c CR then
        match s' with
        | String c' _ =>
            if Ascii.eqb c' LF then universal_newlines s'
            else String LF (universal_newlines s')
        | "" => String LF ""
        end
      else String c (universal_newlines s')
  end.

(** [CR in s] *)
Fixpoint has_cr (s : string) : bool :=
  match s with
  | "" => false
  | String c s' => Ascii.eqb c CR || has_cr s'
  end.

(** [s.startswith(p)] *)
Definition startswith (p s : string) : bool := String.prefix p s.

Fixpoint split_go (sep : ascii) (cur : string) (s : string) : list string :=
  match s with
  | "" => [String.rev cur]
  | String c s' =>
      if Ascii.eqb c sep then String.rev cur :: split_go sep "" s'
      else split_go sep (String c cur) s'
  end.

(** [s.split(sep)] for a one-character separator. *)
Definition split (sep : ascii) (s : string) : list string := split_go sep "" s.

(** ** Exceptions and results *)

Inductive exn :=
| AttributeError     (* a [str] method called on [None] *)
| ValueError         (* DictWriter: dict contains fields not in fieldnames *)
| FileNotFoundError  (* open() on a missing file or in a missing directory *)
| IsADirectoryError  (* open() on a directory *)
| UnicodeDecodeError (* a file that is not text *)
| IndexError
| CsvError           (* csv.Error raised by the tokenizer *)
| ImageError.        (* binascii.Error, PIL and reportlab failures *)

Inductive result (A : Type) :=
| Ok (a : A)
| Raise (e : exn).
Arguments Ok {A} a.
Arguments Raise {A} e.

(** Sequencing: the first exception raised is the one that escapes.
    [x ← r; k] is stdpp's notation for it. *)
Global Instance result_ret : MRet result := fun A a => Ok a.
Global Instance result_bind : MBind result := fun A B k r =>
  match r with
  | Ok a => k a
  | Raise e => Raise e
  end.

(** ** Python values and DictReader rows *)

(** The value of a column: a [str], or [None]. *)
Abbreviation value := (option string).

Record pydict := {
  fields : gmap string value;        (* the entries with a [str] key *)
  restkey : option (list string)     (* the entry with key [None], if any *)
}.

(** [d.get(k)] *)
Definition get (d : pydict) (k : string) : value :=
  match fields d !! k with
  | Some v => v
  | None => None
  end.

(** [d.get(k, default)] *)
Definition get_default (d : pydict) (k : string) (default : string) : value :=
  match fields d !! k with
  | Some v => v
  | None => Some default
  end.

(** [d[k] = v] *)
Definition setitem (d : pydict) (k : string) (v : string) : pydict :=
  {| fields := <[k := Some v]> (fields d); restkey := restkey d |}.

(** A dict literal with [str] keys and values. *)
Definition dict_literal (kvs : list (string * string)) : pydict :=
  {| fields := foldl (fun m kv => <[kv.1 := Some kv.2]> m) ∅ kvs;
     restkey := None |}.

(** [v.strip()] and [v.lower()] on a value that may be [None]. *)
Definition strip_value (v : value) : result string :=
  match v with
  | Some s => Ok (strip s)
  | None => Raise AttributeError
  end.

Definition lower_value (v : value) : result string :=
  match v with
  | Some s => Ok (lower s)
  | None => Raise AttributeError
  end.

(** Truthiness of a value: [None] and [''] are false. *)
Definition truthy (v : value) : bool :=
  match v with
  | Some s => negb (is_empty s)
  | None => false
  end.

(** [a or b] on values. *)
Definition or_value (a b : value) : value := if truthy a then a else b.

(** ** csv.DictReader and csv.DictWriter on tables *)

Definition record := list string.
Definition table := list record.

(** [dict(zip(fieldnames, row))]: a later duplicate of a column name wins. *)
Fixpoint dict_zip (fieldnames : list string) (row : record)
    (m : gmap string value) : gmap string value :=
  match fieldnames, row with
  | k :: ks, v :: vs => dict_zip ks vs (<[k := Some v]> m)
  | _, _ => m
  end.

(** [for key in keys: d[key] = None] *)
Definition fill_none (keys : list string) (m : gmap string value)
    : gmap string value :=
  foldl (fun m k => <[k := None]> m) m keys.

(** One step of [DictReader.__next__] on a non-blank record. *)
Definition row_dict (fieldnames : list string) (row : record) : pydict :=
  let d := dict_zip fieldnames row ∅ in
  let lf := length fieldnames in
  let lr := length row in
  if (lf <? lr)%nat then {| fields := d; restkey := Some (drop lf row) |}
  else if (lr <? lf)%nat then
    {| fields := fill_none (drop lr fieldnames) d; restkey := None |}
  else {| fields := d; restkey := None |}.

Definition is_blank (r : record) : bool :=
  match r with [] => true | _ => false end.

(** [list(csv.DictReader(f))]: the first record is the header, blank
    records are skipped. *)
Definition DictReader (t : table) : list pydict :=
  match t with
  | [] => []
  | fieldnames :: rows =>
      map (row_dict fieldnames) (List.filter (fun r => negb (is_blank r)) rows)
  end.

(** [DictWriter._dict_to_list]: the record written for a dict, or
    [ValueError] when the dict has a key that is not a field name. *)
Definition dict_to_list (fieldnames : list string) (d : pydict)
    : result record :=
  if bool_decide (dom (fields d) ⊆ list_to_set fieldnames)
     && bool_decide (restkey d = None)
  then Ok (map (fun k => default "" (get_default d k "")) fieldnames)
  else Raise ValueError.

(** [writer.writerows(rows)]: the records that reach the file, and the
    exception that stopped the writer, if any. *)
Fixpoint writerows (fieldnames : list string) (rows : list pydict)
    : table * option exn :=
  match rows with
  | [] => ([], None)
  | d :: rest =>
      match dict_to_list fieldnames d with
      | Ok r => let '(t, e) := writerows fieldnames rest in (r :: t, e)
      | Raise e => ([], Some e)
      end
  end.

(** ** The file system *)

(** Drawing operations of a reportlab canvas, in the order they are
    issued.  Coordinates are in points; the page is US letter. *)
Inductive draw_op :=
| SetFont (name : string) (size : Z)
| DrawCentredString (x y : Z) (text : string)
| DrawRightString (x y : Z) (text : string)
| Line (x1 y1 x2 y2 : Z)
| DrawImage (image : string) (x y width height : Z).

Definition document := list draw_op.

(** A file: a CSV file, given by the table a reader in text mode gets
    from it, or a receipt. *)
Inductive file :=
| CsvFile (t : table)
| PdfFile (doc : document).

Record fs := {
  dirs : gset string;
  files : gmap string file
}.

(** [os.path.join(a, b)] for a relative component [b]. *)
Definition path_join (a b : string) : string := a +:+ "/" +:+ b.

(** [os.path.exists(path)] *)
Definition path_exists (path : string) (st : fs) : bool :=
  bool_decide (path ∈ dirs st) || bool_decide (is_Some (files st !! path)).

(** [os.makedirs(path)] *)
Definition makedirs (path : string) (st : fs) : fs :=
  {| dirs := {[path]} ∪ dirs st; files := files st |}.

(** [with open(path, 'r') as f: list(csv.DictReader(f))] *)
Definition read_csv (path : string) (st : fs) : result (list pydict) :=
  match files st !! path with
  | Some (CsvFile t) => Ok (DictReader t)
  | Some (PdfFile _) => Raise UnicodeDecodeError
  | None =>
      if bool_decide (path ∈ dirs st) then Raise IsADirectoryError
      else Raise FileNotFoundError
  end.

(** The table a reader gets from the text a writer has produced: the
    writer, on a file opened with [newline=''], puts the fields down as
    they are, and the reader, on a file opened in text mode, sees the
    line endings inside a field translated. *)
Definition as_read (t : table) : table := map (map universal_newlines) t.

(** [with open(join(dir, name), 'w', newline='') as f:] followed by
    [DictWriter(f, fieldnames)], [writeheader()] and [writerows(rows)].
    Opening truncates the file; when a row is refused the records written
    so far stay in the file and the exception escapes. *)
Definition write_csv (dir name : string) (fieldnames : list string)
    (rows : list pydict) (st : fs) : result unit * fs :=
  if bool_decide (dir ∈ dirs st) then
    let '(t, e) := writerows fieldnames rows in
    (match e with None => Ok () | Some e => Raise e end,
     {| dirs := dirs st;
        files := <[path_join dir name := CsvFile (as_read (fieldnames :: t))]>
                   (files st) |})
  else (Raise FileNotFoundError, st).

(** ** The program registry *)

Definition PROGRAMS_DIR : string := "programs".
Definition SYSTEM_CSV : string := path_join PROGRAMS_DIR "system-programs.csv".

Definition PROGRAM_FIELDS : list string :=
  ["EnglishName"; "ArabicName"; "ShowInList"].

Definition ensure_system_csv (st : fs) : result unit * fs :=
  let st1 := if path_exists PROGRAMS_DIR st then st
             else makedirs PROGRAMS_DIR st in
  if path_exists SYSTEM_CSV st1 then (Ok (), st1)
  else write_csv PROGRAMS_DIR "system-programs.csv" PROGRAM_FIELDS [] st1.

Definition get_all_programs (st : fs) : result (list pydict) * fs :=
  match ensure_system_csv st with
  | (Ok _, st1) => (read_csv SYSTEM_CSV st1, st1)
  | (Raise e, st1) => (Raise e, st1)
  end.

(** [p.get('ShowInList', '').lower() == 'true'] *)
Definition shown_in_list (p : pydict) : result bool :=
  s ← lower_value (get_default p "ShowInList" "");
  mret (String.eqb s "true").

(** The list comprehension of [get_visible_programs]. *)
Fixpoint visible_of (programs : list pydict) : result (list pydict) :=
  match programs with
  | [] => Ok []
  | p :: rest =>
      b ← shown_in_list p;
      rest' ← visible_of rest;
      mret (if (b : bool) then p :: rest' else rest')
  end.

Definition get_visible_programs (st : fs) : result (list pydict) * fs :=
  let '(r, st1) := get_all_programs st in
  (r ≫= visible_of, st1).

(** The loop of [get_program_info]. *)
Fixpoint program_info_of (programs : list pydict) (english_name : string)
    : result (option pydict) :=
  match programs with
  | [] => Ok None
  | p :: rest =>
      s ← strip_value (get_default p "EnglishName" "");
      if String.eqb s (strip english_name) then Ok (Some p)
      else program_info_of rest english_name
  end.

Definition get_program_info (english_name : string) (st : fs)
    : result (option pydict) * fs :=
  let '(r, st1) := get_all_programs st in
  (r ≫= (fun programs => program_info_of programs english_name), st1).

Definition save_programs (programs : list pydict) (st : fs)
    : result unit * fs :=
  write_csv PROGRAMS_DIR "system-programs.csv" PROGRAM_FIELDS programs st.

(** [p.get('EnglishName') == english_name]: [None] equals no string. *)
Definition value_eqb (v : value) (s : string) : bool :=
  match v with
  | Some s' => String.eqb s' s
  | None => false
  end.

(** The loop of [toggle_program]: the first program with that key has its
    flag rewritten, then the loop breaks. *)
Fixpoint toggle_loop (programs : list pydict) (english_name : string)
    : result (list pydict) :=
  match programs with
  | [] => Ok []
  | p :: rest =>
      if value_eqb (get p "EnglishName") english_name then
        s ← lower_value (get_default p "ShowInList" "true");
        let current := String.eqb s "true" in
        mret (setitem p "ShowInList" (if current then "false" else "true")
                :: rest)
      else
        rest' ← toggle_loop rest english_name;
        mret (p :: rest')
  end.

(** What a route answers: the message it flashes and where it redirects. *)
Inductive flash_message :=
| ProgramStatusUpdated.   (* 'تم تحديث حالة البرنامج' *)

Inductive response :=
| RedirectManagePrograms (flashed : flash_message).

Definition toggle_program (english_name : string) (st : fs)
    : result response * fs :=
  let '(r, st1) := get_all_programs st in
  match r ≫= (fun programs => toggle_loop programs english_name) with
  | Raise e => (Raise e, st1)
  | Ok programs' =>
      let '(w, st2) := save_programs programs' st1 in
      (w ≫= (fun _ => mret (RedirectManagePrograms ProgramStatusUpdated)), st2)
  end.

(** The class [[a-zA-Z]]. *)
Definition is_letter (c : ascii) : bool :=
  let n := nat_of_ascii c in
  ((65 <=? n)%nat && (n <=? 90)%nat) || ((97 <=? n)%nat && (n <=? 122)%nat).

(** The class [[a-zA-Z0-9_-]]. *)
Definition is_name_char (c : ascii) : bool :=
  let n := nat_of_ascii c in
  is_letter c || ((48 <=? n)%nat && (n <=? 57)%nat)
  || (n =? 95)%nat || (n =? 45)%nat.

(** What is left of [s] after the longest run of class characters. *)
Fixpoint skip_name_chars (s : string) : string :=
  match s with
  | String c s' => if is_name_char c then skip_name_chars s' else s
  | "" => ""
  end.

(** The anchor [$] of Python's [re] without [re.MULTILINE]. *)
Definition at_dollar (s : string) : bool :=
  match s with
  | "" => true
  | String c "" => Ascii.eqb c LF
  | _ => false
  end.

(** [bool(re.match(r'^[a-zA-Z][a-zA-Z0-9_-]*$', name))].  The star is
    greedy and the class excludes the newline, so the match succeeds
    exactly when [$] holds after the longest run of class characters: a
    shorter run leaves a class character in front of [$]. *)
Definition validate_english_name (name : string) : bool :=
  match name with
  | String c rest => is_letter c && at_dollar (skip_name_chars rest)
  | "" => false
  end.

(** ** The member store *)

Definition USER_FIELDS : list string :=
  ["NationalID"; "FullName"; "HasReceived"; "DateReceived"].

Definition program_dir (program_name : string) : string :=
  path_join PROGRAMS_DIR program_name.

Definition users_csv_name (program_name : string) : string :=
  program_name +:+ "-users.csv".

Definition get_csv_path (program_name : string) : string :=
  path_join (program_dir program_name) (users_csv_name program_name).

Definition read_users (program_name : string) (st : fs)
    : result (list pydict) :=
  let csv_path := get_csv_path program_name in
  if path_exists csv_path st then read_csv csv_path st else Ok [].

(** [user.get('NationalID', '').strip() == national_id.strip()] *)
Definition id_matches (user : pydict) (national_id : string) : result bool :=
  s ← strip_value (get_default user "NationalID" "");
  mret (String.eqb s (strip national_id)).

(** The loop of [find_user]. *)
Fixpoint find_in (users : list pydict) (national_id : string)
    : result (option pydict) :=
  match users with
  | [] => Ok None
  | user :: rest =>
      b ← id_matches user national_id;
      if (b : bool) then Ok (Some user) else find_in rest national_id
  end.

Definition find_user (program_name national_id : string) (st : fs)
    : result (option pydict) :=
  users ← read_users program_name st;
  find_in users national_id.

(** *** Dates *)

Record datetime := {
  year : Z; month : Z; day : Z;
  hour : Z; minute : Z; second : Z
}.

(** The character of the last decimal digit of [n]. *)
Definition digit (n : Z) : ascii := ascii_of_N (Z.to_N (48 + n mod 10)).

(** [%m], [%d], [%H], [%M], [%S]: two digits, zero-padded. *)
Definition pad2 (n : Z) : string :=
  String (digit (n / 10)) (String (digit n) "").

(** [%Y] for a year of four digits. *)
Definition pad4 (n : Z) : string :=
  String (digit (n / 1000)) (String (digit (n / 100)) (pad2 n)).

(** [strftime('%Y-%m-%d')] *)
Definition strftime_date (t : datetime) : string :=
  pad4 (year t) +:+ "-" +:+ pad2 (month t) +:+ "-" +:+ pad2 (day t).

(** [strftime('%H:%M:%S')] *)
Definition strftime_time (t : datetime) : string :=
  pad2 (hour t) +:+ ":" +:+ pad2 (minute t) +:+ ":" +:+ pad2 (second t).

(** [strftime('%Y-%m-%d %H:%M:%S')] *)
Definition strftime (t : datetime) : string :=
  strftime_date t +:+ " " +:+ strftime_time t.

(** *** update_user_received *)

(** The loop of [update_user_received]: the first match is stamped, then
    the loop breaks. *)
Fixpoint mark_loop (users : list pydict) (national_id : string)
    (now : datetime) : result (list pydict) :=
  match users with
  | [] => Ok []
  | user :: rest =>
      b ← id_matches user national_id;
      if (b : bool) then
        mret (setitem (setitem user "HasReceived" "true")
                      "DateReceived" (strftime now) :: rest)
      else
        rest' ← mark_loop rest national_id now;
        mret (user :: rest')
  end.

Definition write_users (program_name : string) (users : list pydict)
    (st : fs) : result unit * fs :=
  write_csv (program_dir program_name) (users_csv_name program_name)
            USER_FIELDS users st.

Definition update_user_received (program_name national_id : string)
    (now : datetime) (st : fs) : result unit * fs :=
  match users ← read_users program_name st;
        mark_loop users national_id now with
  | Raise e => (Raise e, st)
  | Ok users' => write_users program_name users' st
  end.

(** *** add_user_to_program *)

Inductive message :=
| NationalIdExists     (* 'رقم الهوية موجود مسبقاً' *)
| UserAdded            (* 'تم إضافة المستخدم بنجاح' *)
| UsersImported (imported_count skipped_count : nat)
    (* f'تم استيراد {imported_count} مستخدم. تم تخطي {skipped_count} (موجودين مسبقاً)' *)
| ImportFailed (e : exn).
    (* f'خطأ في استيراد الملف: {str(e)}' *)

(** The duplicate check of [add_user_to_program]. *)
Fixpoint already_exists (users : list pydict) (national_id : string)
    : result bool :=
  match users with
  | [] => Ok false
  | user :: rest =>
      b ← id_matches user national_id;
      if (b : bool) then Ok true else already_exists rest national_id
  end.

Definition new_user (national_id full_name : string) : pydict :=
  dict_literal [("NationalID", national_id); ("FullName", full_name);
                ("HasReceived", "false"); ("DateReceived", "")].

Definition add_user_to_program (program_name national_id full_name : string)
    (st : fs) : result (bool * message) * fs :=
  match read_users program_name st with
  | Raise e => (Raise e, st)
  | Ok users =>
      match already_exists users national_id with
      | Raise e => (Raise e, st)
      | Ok true => (Ok (false, NationalIdExists), st)
      | Ok false =>
          let '(w, st') :=
            write_users program_name
              (users ++ [new_user national_id full_name]) st in
          (w ≫= (fun _ => mret (true, UserAdded)), st')
      end
  end.

(** *** import_users_from_csv *)

Definition ID_ALIASES : list string :=
  ["NationalID"; "nationalid"; "National ID"; "رقم الهوية"; "رقم_الهوية"].

Definition NAME_ALIASES : list string :=
  ["FullName"; "fullname"; "Full Name"; "الاسم"; "الاسم الكامل";
   "الاسم_الكامل"].

(** [row.get(a1) or row.get(a2) or ... or ''] *)
Definition probe (row : pydict) (aliases : list string) : value :=
  foldr (fun a rest => or_value (get row a) rest) (Some "") aliases.

(** [str(v)] *)
Definition str_of_value (v : value) : string :=
  match v with
  | Some s => s
  | None => "None"
  end.

(** The variables the import loop updates. *)
Record import_state := {
  existing_users : list pydict;
  existing_ids : gset string;
  imported_count : nat;
  skipped_count : nat
}.

(** The body of the import loop, for one row of the uploaded file. *)
Definition import_row (acc : import_state) (row : pydict) : import_state :=
  let national_id := strip (str_of_value (probe row ID_ALIASES)) in
  let full_name := strip (str_of_value (probe row NAME_ALIASES)) in
  if negb (is_empty national_id) && negb (is_empty full_name) then
    if bool_decide (national_id ∉ existing_ids acc) then
      {| existing_users :=
           existing_users acc ++ [new_user national_id full_name];
         existing_ids := {[national_id]} ∪ existing_ids acc;
         imported_count := S (imported_count acc);
         skipped_count := skipped_count acc |}
    else
      {| existing_users := existing_users acc;
         existing_ids := existing_ids acc;
         imported_count := imported_count acc;
         skipped_count := S (skipped_count acc) |}
  else acc.

(** [{user.get('NationalID', '').strip() for user in existing_users}] *)
Fixpoint ids_of (users : list pydict) : result (gset string) :=
  match users with
  | [] => Ok ∅
  | user :: rest =>
      s ← strip_value (get_default user "NationalID" "");
      ids ← ids_of rest;
      mret ({[s]} ∪ ids)
  end.

Section Upload.
(** The decoders of [bytes.decode]; Latin-1 decodes every byte string. *)
Variable bytes : Type.
Variable decode_utf8_sig : bytes → option string.
Variable decode_utf8 : bytes → option string.
Variable decode_latin1 : bytes → string.

(** The tokenizer [csv.reader] on a list of lines: the records it yields
    and the [csv.Error] that ends the iteration, if any. *)
Variable csv_reader : list string → table * option exn.

Definition decode (file_content : bytes) : string :=
  match decode_utf8_sig file_content with
  | Some content => content
  | None =>
      match decode_utf8 file_content with
      | Some content => content
      | None => decode_latin1 file_content
      end
  end.

(** [content.strip().split('\n')] on the decoded upload. *)
Definition upload_lines (file_content : bytes) : list string :=
  let content := decode file_content in
  split LF (strip content).

Definition import_users_from_csv (program_name : string)
    (file_content : bytes) (st : fs) : result (bool * message) * fs :=
  match users ← read_users program_name st;
        ids ← ids_of users; mret (users, ids) with
  | Raise e => (Raise e, st)
  | Ok (users, ids) =>
      let lines := upload_lines file_content in
      let '(t, err) := csv_reader lines in
      let acc := foldl import_row
                   {| existing_users := users; existing_ids := ids;
                      imported_count := 0; skipped_count := 0 |}
                   (DictReader t) in
      match err with
      | Some e => (Ok (false, ImportFailed e), st)
      | None =>
          let '(w, st') :=
            write_users program_name (existing_users acc) st in
          match w with
          | Ok _ =>
              (Ok (true, UsersImported (imported_count acc)
                                      (skipped_count acc)), st')
          | Raise e => (Ok (false, ImportFailed e), st')
          end
      end
  end.
End Upload.

(** ** The receipt generator *)

Definition width : Z := 612.
Definition height : Z := 792.

(** [bool(d)] for a dict. *)
Definition dict_truthy (d : pydict) : bool :=
  negb (bool_decide (fields d = ∅) && bool_decide (restkey d = None)).

Definition SIGNATURE_PLACEHOLDER : string := "[التوقيع محفوظ]".

Section Receipt.
(** [ARABIC_FONT], fixed when the module is loaded. *)
Variable ARABIC_FONT : string.

(** [get_display(arabic_reshaper.reshape(text))], or [None] when either
    raises. *)
Variable reshape_display : string → option string.

(** [base64.b64decode]; and the image pipeline from [Image.open] to
    [ImageReader]: the flattened PNG, or [None] when a step raises. *)
Variable b64decode : string → option string.
Variable flatten_png : string → option string.

Definition arabic_text (text : string) : string :=
  match reshape_display text with
  | Some shaped => shaped
  | None => text
  end.

(** The body of the [try] block. *)
Definition signature_image (signature_data : string) : result draw_op :=
  match split "," signature_data !! 1%nat with
  | None => Raise IndexError
  | Some img_data =>
      match b64decode img_data with
      | None => Raise ImageError
      | Some img_bytes =>
          match flatten_png img_bytes with
          | None => Raise ImageError
          | Some png =>
              Ok (DrawImage png (width - 300) (height - 550) 250 120)
          end
      end
  end.

(** The operations drawn between the signature label and the footer. *)
Definition signature_ops (signature_data : string) : list draw_op :=
  if negb (is_empty signature_data)
     && startswith "data:image" signature_data
  then
    match signature_image signature_data with
    | Ok op => [op]
    | Raise _ =>
        [DrawRightString (width - 50) (height - 420)
           (arabic_text SIGNATURE_PLACEHOLDER)]
    end
  else [].

(** Everything drawn before the signature image. *)
Definition receipt_header (arabic_program_name national_id full_name : string)
    (now1 : datetime) : document :=
  [ SetFont ARABIC_FONT 24;
    DrawCentredString (width / 2) (height - 80) (arabic_text "إيصال استلام");
    SetFont ARABIC_FONT 16;
    DrawCentredString (width / 2) (height - 120)
      (arabic_text ("البرنامج: " +:+ arabic_program_name));
    Line 50 (height - 140) (width - 50) (height - 140);
    SetFont ARABIC_FONT 14;
    DrawRightString (width - 50) (height - 180)
      (arabic_text ("رقم الهوية: " +:+ national_id));
    DrawRightString (width - 50) (height - 210)
      (arabic_text ("الاسم الكامل: " +:+ full_name));
    DrawRightString (width - 50) (height - 240)
      (arabic_text ("تاريخ الاستلام: " +:+ strftime now1));
    SetFont ARABIC_FONT 12;
    DrawRightString (width - 50) (height - 290)
      (arabic_text "إقرار بالاستلام:");
    SetFont ARABIC_FONT 11;
    DrawRightString (width - 50) (height - 315)
      (arabic_text ("أقر أنا، " +:+ full_name
                    +:+ "، بأنني قد استلمت المواد/الأغراض"));
    DrawRightString (width - 50) (height - 335)
      (arabic_text ("من " +:+ arabic_program_name +:+ "."));
    SetFont ARABIC_FONT 12;
    DrawRightString (width - 50) (height - 390) (arabic_text "التوقيع:") ].

(** The footer. *)
Definition receipt_footer (now2 now3 : datetime) : document :=
  [ Line 50 80 (width - 50) 80;
    SetFont ARABIC_FONT 10;
    DrawCentredString (width / 2) 60 (arabic_text "هذا إيصال رسمي");
    DrawCentredString (width / 2) 45
      (arabic_text ("تم الإنشاء بتاريخ " +:+ strftime_date now2
                    +:+ " الساعة " +:+ strftime_time now3)) ].

(** The operations of the canvas when [c.save()] is reached. *)
Definition receipt_ops (arabic_program_name national_id full_name
    signature_data : string) (now1 now2 now3 : datetime) : document :=
  receipt_header arabic_program_name national_id full_name now1
  ++ signature_ops signature_data
  ++ receipt_footer now2 now3.

(** [c.save()]: the document is written at [pdf_path], for a file name
    that is one path component: the directory the file lands in is the
    one given. *)
Definition canvas_save (dir name : string) (doc : document) (st : fs)
    : result string * fs :=
  if bool_decide (dir ∈ dirs st) then
    (Ok (path_join dir name),
     {| dirs := dirs st;
        files := <[path_join dir name := PdfFile doc]> (files st) |})
  else (Raise FileNotFoundError, st).

Definition generate_pdf (program_name national_id full_name
    signature_data : string) (now1 now2 now3 : datetime) (st : fs)
    : result string * fs :=
  match get_program_info program_name st with
  | (Raise e, st1) => (Raise e, st1)
  | (Ok program_info, st1) =>
      let arabic_program_name :=
        match program_info with
        | Some info =>
            if dict_truthy info
            then str_of_value (get_default info "ArabicName" program_name)
            else program_name
        | None => program_name
        end in
      canvas_save (program_dir program_name) (national_id +:+ ".pdf")
        (receipt_ops arabic_program_name national_id full_name
           signature_data now1 now2 now3) st1
  end.
End Receipt.

(** ** Views used by the statements *)

(** A record as a reader in text mode yields it: no field holds a
    carriage return, since text mode turns every carriage return of the
    file into a line feed. *)
Definition no_cr (r : record) : bool := forallb (fun f => negb (has_cr f)) r.

(** The records of a table that has the given header and as many fields
    in every record as the header has columns, a table being what a
    reader in text mode yields. *)
Definition checked_rows (fieldnames : list string) (t : table)
    : option (list record) :=
  match t with
  | h :: rows =>
      if bool_decide (h = fieldnames)
         && forallb (fun r => (length r =? length fieldnames)%nat) rows
         && forallb no_cr rows
      then Some rows else None
  | [] => None
  end.

(** The member records of a program whose directory and member file exist,
    the file having the four columns of the member store. *)
Definition store_rows (program_name : string) (st : fs)
    : option (list record) :=
  match files st !! get_csv_path program_name with
  | Some (CsvFile t) =>
      if bool_decide (program_dir program_name ∈ dirs st)
      then checked_rows USER_FIELDS t else None
  | _ => None
  end.

(** The program records of a registry file with the three registry
    columns. *)
Definition registry_rows (st : fs) : option (list record) :=
  match files st !! SYSTEM_CSV with
  | Some (CsvFile t) =>
      if bool_decide (PROGRAMS_DIR ∈ dirs st)
      then checked_rows PROGRAM_FIELDS t else None
  | _ => None
  end.

(** The program records of a registry file that has no visibility
    column: its header is [EnglishName,ArabicName]. *)
Definition FLAGLESS_FIELDS : list string := ["EnglishName"; "ArabicName"].

Definition flagless_rows (st : fs) : option (list record) :=
  match files st !! SYSTEM_CSV with
  | Some (CsvFile t) =>
      if bool_decide (PROGRAMS_DIR ∈ dirs st)
      then checked_rows FLAGLESS_FIELDS t else None
  | _ => None
  end.

(** The first field of a record: the key column of both tables. *)
Definition key_of (r : record) : string := hd "" r.

(** A national ID is in the store when it equals a stored one after
    trimming both. *)
Definition id_present (rows : list record) (national_id : string) : bool :=
  existsb (fun r => String.eqb (strip (key_of r)) (strip national_id)) rows.

(** A program key is in the registry (the comparison of [toggle_program]
    does not trim). *)
Definition key_present (rows : list record) (english_name : string) : bool :=
  existsb (fun r => String.eqb (key_of r) english_name) rows.

(** Visibility of a program record, as [get_visible_programs] reads it. *)
Definition record_visible (r : record) : result bool :=
  shown_in_list (row_dict PROGRAM_FIELDS r).

(** The shape [YYYY-MM-DD HH:MM:SS]. *)
Definition is_digit (c : ascii) : bool :=
  let n := nat_of_ascii c in (48 <=? n)%nat && (n <=? 57)%nat.

Definition is_timestamp (s : string) : bool :=
  match list_ascii_of_string s with
  | [y1; y2; y3; y4; a; m1; m2; b; d1; d2; c; h1; h2; d; n1; n2; e; s1; s2] =>
      forallb is_digit [y1; y2; y3; y4; m1; m2; d1; d2; h1; h2; n1; n2; s1; s2]
      && Ascii.eqb a "-" && Ascii.eqb b "-" && Ascii.eqb c " "
      && Ascii.eqb d ":" && Ascii.eqb e ":"
  | _ => false
  end.

(** The readings [datetime.now()] can return. *)
Definition valid_datetime (t : datetime) : bool :=
  ((1000 <=? year t) && (year t <=? 9999)
   && (1 <=? month t) && (month t <=? 12)
   && (1 <=? day t) && (day t <=? 31)
   && (0 <=? hour t) && (hour t <=? 23)
   && (0 <=? minute t) && (minute t <=? 59)
   && (0 <=? second t) && (second t <=? 59))%Z.

(** Order of two readings, at the resolution of one second. *)
Definition stamp (t : datetime) : Z :=
  (((((year t * 100 + month t) * 100 + day t) * 100 + hour t) * 100
    + minute t) * 100 + second t)%Z.

Definition earlier (t1 t2 : datetime) : bool := (stamp t1 <? stamp t2)%Z.



(** The identity and name an uploaded row resolves to. *)
Definition resolved (row : pydict) : string * string :=
  (strip (str_of_value (probe row ID_ALIASES)),
   strip (str_of_value (probe row NAME_ALIASES))).

(** A resolved row is usable when neither component is empty. *)
Definition usable (p : string * string) : bool :=
  negb (is_empty p.1) && negb (is_empty p.2).

(** The usable rows of an uploaded table, resolved. *)
Definition usable_rows (t : table) : list (string * string) :=
  List.filter usable (map resolved (DictReader t)).

(** The trimmed identities of the stored members. *)
Definition stored_ids (rows : list record) : gset string :=
  list_to_set (map (fun r => strip (key_of r)) rows).

Definition is_new (ids : gset string) (p : string * string) : bool :=
  bool_decide (p.1 ∉ ids).

Definition is_known (ids : gset string) (p : string * string) : bool :=
  bool_decide (p.1 ∈ ids).

(** The counts the specification names: usable rows whose identity is not
    in the store before the import, and usable rows whose identity is. *)
Definition rows_new (rows : list record) (t : table) : nat :=
  length (List.filter (is_new (stored_ids rows)) (usable_rows t)).

Definition rows_colliding (rows : list record) (t : table) : nat :=
  length (List.filter (is_known (stored_ids rows)) (usable_rows t)).

(** The number of distinct identities among the new usable rows. *)
Definition distinct_new (rows : list record) (t : table) : nat :=
  size (list_to_set (C := gset string) (map fst (usable_rows t))
        ∖ stored_ids rows).

(** The record appended for a usable row. *)
Definition added_record (p : string * string) : record :=
  [p.1; p.2; "false"; ""].

(** Renaming the two canonical columns of a header. *)
Definition relabel_column (id_alias name_alias c : string) : string :=
  if String.eqb c "NationalID" then id_alias
  else if String.eqb c "FullName" then name_alias else c.

Definition relabel (id_alias name_alias : string) (h : list string)
    : list string :=
  map (relabel_column id_alias name_alias) h.

(** A header whose only identity and name columns are the canonical ones. *)
Definition canonical_header (h : list string) : bool :=
  forallb (fun c =>
    (negb (bool_decide (c ∈ ID_ALIASES)) || String.eqb c "NationalID")
    && (negb (bool_decide (c ∈ NAME_ALIASES)) || String.eqb c "FullName")) h.

(** Tables whose records have the four member fields, or the three
    program fields; and tables without carriage return. *)
Abbreviation users_wf := (Forall (fun r : record => length r = 4%nat)).
Abbreviation programs_wf := (Forall (fun r : record => length r = 3%nat)).
Abbreviation rows_clean := (Forall (fun r : record => no_cr r = true)).

(** The dict [DictReader] yields for a member record and for a program
    record. *)
Definition user_of (r : record) : pydict := row_dict USER_FIELDS r.
Definition program_of (r : record) : pydict := row_dict PROGRAM_FIELDS r.

(** The first stored record with the given identity. *)
Definition find_record (rows : list record) (national_id : string)
    : option record :=
  List.find (fun r => String.eqb (strip (key_of r)) (strip national_id)) rows.

(** The effect of [update_user_received] on the records. *)
Definition mark_record (ts : string) (r : record) : record :=
  match r with
  | [a; b; _; _] => [a; b; "true"; ts]
  | _ => r
  end.

Fixpoint mark_rows (rows : list record) (national_id ts : string)
    : list record :=
  match rows with
  | [] => []
  | r :: rest =>
      if String.eqb (strip (key_of r)) (strip national_id)
      then mark_record ts r :: rest
      else r :: mark_rows rest national_id ts
  end.

(** The effect of [toggle_program] on the records. *)
Definition toggle_record (r : record) : record :=
  match r with
  | [a; b; c] =>
      [a; b; if String.eqb (lower c) "true" then "false" else "true"]
  | _ => r
  end.

Fixpoint toggle_rows (rows : list record) (english_name : string)
    : list record :=
  match rows with
  | [] => []
  | r :: rest =>
      if String.eqb (key_of r) english_name then toggle_record r :: rest
      else r :: toggle_rows rest english_name
  end.

(** The first program record with the given key. *)
Definition first_with_key (rows : list record) (english_name : string)
    : option record :=
  List.find (fun r => String.eqb (key_of r) english_name) rows.

(** The effect of [toggle_program] on the records of a registry without
    visibility column: the first program with the key gets the flag
    ['false'], and every other program the empty string that
    [DictWriter] puts in a column the dict does not have. *)
Definition with_flag (flag : string) (r : record) : record := r ++ [flag].

Fixpoint toggle_flagless (rows : list record) (english_name : string)
    : list record :=
  match rows with
  | [] => []
  | r :: rest =>
      if String.eqb (key_of r) english_name
      then with_flag "false" r :: map (with_flag "") rest
      else with_flag "" r :: toggle_flagless rest english_name
  end.

(** The visibility of the first program with the given key. *)
Definition visibility (rows : list record) (english_name : string)
    : option bool :=
  match List.find (fun r => String.eqb (key_of r) english_name) rows with
  | Some r =>
      match record_visible r with
      | Ok b => Some b
      | Raise _ => None
      end
  | None => None
  end.

(** The state after the member file of a program, or the registry, is
    rewritten with the given records. *)
Definition with_users (program_name : string) (rows : list record) (st : fs)
    : fs :=
  {| dirs := dirs st;
     files := <[get_csv_path program_name := CsvFile (USER_FIELDS :: rows)]>
                (files st) |}.

Definition with_programs (rows : list record) (st : fs) : fs :=
  {| dirs := dirs st;
     files := <[SYSTEM_CSV := CsvFile (PROGRAM_FIELDS :: rows)]> (files st) |}.



(** ** Provisioning and counting *)

(** [create_program_folder].  [os.makedirs] creates the missing ancestors
    of the directory as well; the only one is [PROGRAMS_DIR]. *)
Definition create_program_folder (english_name : string) (st : fs)
    : result unit * fs :=
  let st1 := if path_exists (program_dir english_name) st then st
             else makedirs (program_dir english_name)
                    (makedirs PROGRAMS_DIR st) in
  if path_exists (get_csv_path english_name) st1 then (Ok (), st1)
  else write_csv (program_dir english_name) (users_csv_name english_name)
         USER_FIELDS [] st1.

(** [u.get('HasReceived', '').lower() == 'true'] *)
Definition has_received (u : pydict) : result bool :=
  s ← lower_value (get_default u "HasReceived" "");
  mret (String.eqb s "true").

(** [sum(1 for u in users if ...)] *)
Fixpoint received_count (users : list pydict) : result nat :=
  match users with
  | [] => Ok 0%nat
  | u :: rest =>
      b ← has_received u;
      n ← received_count rest;
      mret (if (b : bool) then S n else n)
  end.

Definition get_program_users_count (program_name : string) (st : fs)
    : result (nat * nat) :=
  users ← read_users program_name st;
  received ← received_count users;
  mret (length users, received).

(** The visibility flag of a program record, compared as
    [get_visible_programs] compares it. *)
Definition flag_shown (r : record) : bool :=
  String.eqb (lower (nth 2 r "")) "true".

(** The received flag of a member record, compared as
    [get_program_users_count] compares it. *)
Definition flag_received (r : record) : bool :=
  String.eqb (lower (nth 2 r "")) "true".

(** The keys of the records of a table, trimmed: the identities
    [find_user] and [get_program_info] compare. *)
Definition trimmed_keys (rows : list record) : list string :=
  map (fun r => strip (key_of r)) rows.

(** The usable rows of an upload that the import loop appends, given the
    identities known so far: the first row of each unknown identity. *)
Fixpoint fresh_pairs (ids : gset string) (pairs : list (string * string))
    : list (string * string) :=
  match pairs with
  | [] => []
  | p :: rest =>
      if bool_decide (p.1 ∉ ids)
      then p :: fresh_pairs ({[p.1]} ∪ ids) rest
      else fresh_pairs ids rest
  end.

(** The records an import appends to the stored ones. *)
Definition imported_records (rows : list record) (t : table) : list record :=
  map added_record (fresh_pairs (stored_ids rows) (usable_rows t)).

(** An upload whose identities hold no carriage return. *)
Definition upload_ids_clean (t : table) : Prop :=
  Forall (fun p : string * string => has_cr p.1 = false) (usable_rows t).




(** The program name [generate_pdf] prints: the Arabic name of the
    registered program, or the key when the program is not registered. *)
Definition printed_name (rows : list record) (program_name : string)
    : string :=
  match find_record rows program_name with
  | Some r => nth 1 r program_name
  | None => program_name
  end.

(** ** Requests and replies *)

(** Functions that read and write the file system, in sequence: the state
    is threaded and the first exception escapes with the state reached. *)
Definition io (A : Type) : Type := fs → result A * fs.

Definition io_ret {A} (a : A) : io A := fun st => (Ok a, st).

Definition io_bind {A B} (m : io A) (k : A → io B) : io B := fun st =>
  match m st with
  | (Ok a, st1) => k a st1
  | (Raise e, st1) => (Raise e, st1)
  end.

(** A function that only reads the file system. *)
Definition io_read {A} (f : fs → result A) : io A := fun st => (f st, st).

Notation "x ⇐ m ; k" := (io_bind m (fun x => k))
  (at level 20, m at level 100, k at level 200, only parsing).

Inductive http_method := GET | POST.

(** [request]: the method, [request.form], and [request.files] as a map
    from field names to the file name and content of the upload. *)
Record request (bytes : Type) := {
  method : http_method;
  form : gmap string string;
  uploads : gmap string (string * bytes)
}.
Arguments method {bytes} _.
Arguments form {bytes} _.
Arguments uploads {bytes} _.

(** [request.form.get(k, default)] *)
Definition form_get {bytes} (req : request bytes) (k default : string)
    : string :=
  match form req !! k with
  | Some v => v
  | None => default
  end.

(** What is flashed: a literal text, or the message of a store operation. *)
Inductive notice :=
| Text (s : string)
| Outcome (m : message).

Inductive answer :=
| RedirectTo (endpoint : string) (args : list string)
    (* redirect(url_for(endpoint, ...)) *)
| Page (template : string)
    (* render_template(template, ...) *)
| MessagePage (text message_type : string)
    (* render_template('message.html', message=..., message_type=...) *)
| EditPage (program : pydict) (total_users received_users : nat)
    (csv_path : string)
    (* render_template('edit_program.html', ...) *)
| SendFile (path : string) (content : file).
    (* send_file(path, mimetype='application/pdf') *)

(** The reply of a route: the messages flashed, with their category, and
    the answer returned. *)
Record reply := {
  flashed : list (notice * string);
  body : answer
}.

Definition flash_and (text : string) (category : string) (a : answer)
    : reply :=
  {| flashed := [(Text text, category)]; body := a |}.

Definition no_flash (a : answer) : reply := {| flashed := []; body := a |}.

(** [not d] for the result of a lookup: [None] and the empty dict. *)
Definition lookup_failed (o : option pydict) : bool :=
  match o with
  | Some d => negb (dict_truthy d)
  | None => true
  end.

Definition DQUOTE : ascii := "034"%char.
Definition BACKSLASH : ascii := "092"%char.

(** [c in s] for a character. *)
Fixpoint contains_char (c : ascii) (s : string) : bool :=
  match s with
  | "" => false
  | String c' s' => Ascii.eqb c' c || contains_char c s'
  end.

(** The last character of a string, if any. *)
Fixpoint last_char (s : string) : option ascii :=
  match s with
  | "" => None
  | String c "" => Some c
  | String _ s' => last_char s'
  end.

(** [s.endswith(suffix)]: some tail of [s] is the suffix. *)
Fixpoint endswith (suffix s : string) : bool :=
  String.eqb s suffix
  || match s with
     | "" => false
     | String _ s' => endswith suffix s'
     end.

(** ** The routes *)

(** [add_program] *)
Definition add_program {bytes} (req : request bytes) : io reply :=
  match method req with
  | POST =>
      let english_name := lower (strip (form_get req "english_name" "")) in
      let arabic_name := strip (form_get req "arabic_name" "") in
      if is_empty english_name || is_empty arabic_name then
        io_ret (flash_and "الرجاء إدخال جميع الحقول" "error"
                  (RedirectTo "add_program" []))
      else if negb (validate_english_name english_name) then
        io_ret (flash_and
                  "الاسم الإنجليزي غير صالح. استخدم أحرف إنجليزية وأرقام وشرطات فقط، ويجب أن يبدأ بحرف"
                  "error" (RedirectTo "add_program" []))
      else
        info ⇐ get_program_info english_name;
        if negb (lookup_failed info) then
          io_ret (flash_and "هذا البرنامج موجود مسبقاً" "error"
                    (RedirectTo "add_program" []))
        else
          programs ⇐ get_all_programs;
          _ ⇐ save_programs
                (programs
                 ++ [dict_literal [("EnglishName", english_name);
                                   ("ArabicName", arabic_name);
                                   ("ShowInList", "true")]]);
          _ ⇐ create_program_folder english_name;
          io_ret (flash_and
                    ("تم إنشاء البرنامج " +:+ String DQUOTE arabic_name
                     +:+ String DQUOTE " بنجاح")
                    "success" (RedirectTo "manage_programs" []))
  | GET => io_ret (no_flash (Page "add_program.html"))
  end.

(** The loop of the [update_name] action. *)
Fixpoint rename_loop (programs : list pydict) (english_name arabic_name : string)
    : list pydict :=
  match programs with
  | [] => []
  | p :: rest =>
      if value_eqb (get p "EnglishName") english_name
      then setitem p "ArabicName" arabic_name :: rest
      else p :: rename_loop rest english_name arabic_name
  end.

(** [verify] *)
Definition verify {bytes} (program_name : string) (req : request bytes)
    : io reply :=
  program_info ⇐ get_program_info program_name;
  if lookup_failed program_info then
    io_ret (flash_and "البرنامج غير موجود" "error" (RedirectTo "index" []))
  else
    match method req with
    | POST =>
        let national_id := strip (form_get req "national_id" "") in
        if is_empty national_id then
          io_ret (flash_and "الرجاء إدخال رقم الهوية" "error"
                    (RedirectTo "verify" [program_name]))
        else
          found ⇐ io_read (find_user program_name national_id);
          match found with
          | Some user =>
              if negb (dict_truthy user) then
                io_ret (no_flash (MessagePage
                  ("المستخدم غير موجود. الرجاء إضافة رقم الهوية يدوياً في ملف "
                   +:+ program_name +:+ "-users.csv") "error"))
              else
                received ⇐ io_read (fun _ => has_received user);
                if (received : bool) then
                  io_ret (no_flash (MessagePage
                    ("المستخدم "
                     +:+ str_of_value (get_default user "FullName" "غير معروف")
                     +:+ " قد استلم المواد مسبقاً بتاريخ "
                     +:+ str_of_value
                           (get_default user "DateReceived" "غير محدد")
                     +:+ ".") "warning"))
                else
                  io_ret (no_flash (RedirectTo "acknowledgment"
                                  [program_name; national_id]))
          | None =>
              io_ret (no_flash (MessagePage
                ("المستخدم غير موجود. الرجاء إضافة رقم الهوية يدوياً في ملف "
                 +:+ program_name +:+ "-users.csv") "error"))
          end
    | GET => io_ret (no_flash (Page "verify.html"))
    end.

(** [download_pdf] *)
Definition download_pdf (english_name filename : string) : io reply :=
  program_info ⇐ get_program_info english_name;
  if lookup_failed program_info then
    io_ret (flash_and "البرنامج غير موجود" "error"
              (RedirectTo "manage_programs" []))
  else if negb (endswith ".pdf" filename)
          || contains_char "/" filename
          || contains_char BACKSLASH filename then
    io_ret (flash_and "ملف غير صالح" "error"
              (RedirectTo "view_pdfs" [english_name]))
  else
    let file_path := path_join (path_join PROGRAMS_DIR english_name) filename in
    fun st =>
      if negb (path_exists file_path st) then
        (Ok (flash_and "الملف غير موجود" "error"
               (RedirectTo "view_pdfs" [english_name])), st)
      else
        match files st !! file_path with
        | Some content => (Ok (no_flash (SendFile file_path content)), st)
        | None => (Raise IsADirectoryError, st)
        end.

Section Routes.
Variable bytes : Type.
Variable decode_utf8_sig : bytes → option string.
Variable decode_utf8 : bytes → option string.
Variable decode_latin1 : bytes → string.
Variable csv_reader : list string → table * option exn.
Variable ARABIC_FONT : string.
Variable reshape_display : string → option string.
Variable b64decode : string → option string.
Variable flatten_png : string → option string.

(** The category of the flash after a store operation:
    ['success' if success else 'error']. *)
Definition category_of (success : bool) : string :=
  if success then "success" else "error".

(** [edit_program] *)
Definition edit_program (english_name : string) (req : request bytes)
    : io reply :=
  program ⇐ get_program_info english_name;
  match program with
  | Some program_row =>
    if negb (dict_truthy program_row) then
      io_ret (flash_and "البرنامج غير موجود" "error"
                (RedirectTo "manage_programs" []))
    else
    match method req with
    | POST =>
        let action := form_get req "action" "update_name" in
        if String.eqb action "update_name" then
          let arabic_name := strip (form_get req "arabic_name" "") in
          if is_empty arabic_name then
            io_ret (flash_and "الرجاء إدخال الاسم العربي" "error"
                      (RedirectTo "edit_program" [english_name]))
          else
            programs ⇐ get_all_programs;
            _ ⇐ save_programs (rename_loop programs english_name arabic_name);
            io_ret (flash_and "تم تحديث البرنامج بنجاح" "success"
                      (RedirectTo "edit_program" [english_name]))
        else if String.eqb action "add_user" then
          let national_id := strip (form_get req "national_id" "") in
          let full_name := strip (form_get req "full_name" "") in
          if is_empty national_id || is_empty full_name then
            io_ret (flash_and "الرجاء إدخال رقم الهوية والاسم الكامل" "error"
                      (RedirectTo "edit_program" [english_name]))
          else
            r ⇐ add_user_to_program english_name national_id full_name;
            io_ret {| flashed := [(Outcome r.2, category_of r.1)];
                      body := RedirectTo "edit_program" [english_name] |}
        else if String.eqb action "import_csv" then
          match uploads req !! "csv_file" with
          | None =>
              io_ret (flash_and "الرجاء اختيار ملف CSV" "error"
                        (RedirectTo "edit_program" [english_name]))
          | Some (filename, content) =>
              if is_empty filename then
                io_ret (flash_and "الرجاء اختيار ملف CSV" "error"
                          (RedirectTo "edit_program" [english_name]))
              else if negb (endswith ".csv" filename) then
                io_ret (flash_and "الرجاء اختيار ملف بصيغة CSV" "error"
                          (RedirectTo "edit_program" [english_name]))
              else
                r ⇐ import_users_from_csv bytes decode_utf8_sig decode_utf8
                      decode_latin1 csv_reader english_name content;
                io_ret {| flashed := [(Outcome r.2, category_of r.1)];
                          body := RedirectTo "edit_program" [english_name] |}
          end
        else io_ret (no_flash (RedirectTo "edit_program" [english_name]))
    | GET =>
        counts ⇐ io_read (get_program_users_count english_name);
        io_ret (no_flash (EditPage program_row counts.1 counts.2
                        (get_csv_path english_name)))
    end
  | None =>
      io_ret (flash_and "البرنامج غير موجود" "error"
                (RedirectTo "manage_programs" []))
  end.

(** [acknowledgment].  The four readings of the clock are the one of
    [update_user_received] and the three of [generate_pdf]. *)
Definition acknowledgment (program_name national_id : string)
    (req : request bytes) (now0 now1 now2 now3 : datetime) : io reply :=
  program_info ⇐ get_program_info program_name;
  found ⇐ io_read (find_user program_name national_id);
  match found with
  | Some user =>
    if negb (dict_truthy user) then
      io_ret (flash_and "المستخدم غير موجود" "error"
                (RedirectTo "verify" [program_name]))
    else
    match method req with
    | POST =>
        let signature_data := form_get req "signature" "" in
        if is_empty signature_data then
          io_ret (flash_and "الرجاء إضافة توقيعك" "error"
                    (Page "acknowledgment.html"))
        else
          _ ⇐ update_user_received program_name national_id now0;
          _ ⇐ generate_pdf ARABIC_FONT reshape_display b64decode flatten_png
                program_name national_id
                (str_of_value (get_default user "FullName" ""))
                signature_data now1 now2 now3;
          io_ret (no_flash (MessagePage
            ("شكراً لك، " +:+ str_of_value (get user "FullName")
             +:+ "! تم تسجيل الاستلام وإنشاء الإيصال بنجاح.") "success"))
    | GET => io_ret (no_flash (Page "acknowledgment.html"))
    end
  | None =>
      io_ret (flash_and "المستخدم غير موجود" "error"
                (RedirectTo "verify" [program_name]))
  end.
End Routes.

(** ** Sample data *)

(** A tokenizer for uploads without quoted fields: a line is split at its
    commas, an empty line is a blank record, and a carriage return inside
    a line ends the iteration with [csv.Error]. *)
Fixpoint has_inner_cr (s : string) : bool :=
  match s with
  | "" => false
  | String c s' => (Ascii.eqb c CR && negb (is_empty s')) || has_inner_cr s'
  end.

Fixpoint plain_csv_reader (lines : list string) : table * option exn :=
  match lines with
  | [] => ([], None)
  | l :: rest =>
      if has_inner_cr l then ([], Some CsvError)
      else
        let '(t, e) := plain_csv_reader rest in
        ((if is_empty l then [] else split "," l) :: t, e)
  end.

(** Decoders for uploads that are valid UTF-8 without a byte-order mark. *)
Definition utf8_plain (b : string) : option string := Some b.
Definition latin1_plain (b : string) : string := b.

Definition sample_import :=
  import_users_from_csv string utf8_plain utf8_plain latin1_plain
    plain_csv_reader.

Definition lines (ls : list string) : string :=
  foldr (fun l rest => if is_empty rest then l else l +:+ String LF rest)
        "" ls.

Definition sample_fs : fs :=
  {| dirs := {[ PROGRAMS_DIR; program_dir "books" ]};
     files :=
       {[ SYSTEM_CSV := CsvFile [PROGRAM_FIELDS; ["books"; "الكتب"; "true"]];
          get_csv_path "books" :=
            CsvFile [USER_FIELDS; ["100200300"; "Sara Ali"; "false"; ""]] ]}
  |}.

(** A registry without visibility column. *)
Definition flagless_fs : fs :=
  {| dirs := {[ PROGRAMS_DIR ]};
     files :=
       {[ SYSTEM_CSV := CsvFile [FLAGLESS_FIELDS; ["books"; "الكتب"]] ]}
  |}.

(** A registry whose only program stops after the Arabic name. *)
Definition short_record_fs : fs :=
  {| dirs := {[ PROGRAMS_DIR ]};
     files :=
       {[ SYSTEM_CSV := CsvFile [PROGRAM_FIELDS; ["books"; "الكتب"]] ]}
  |}.

(** A registry whose only program has an empty visibility flag. *)
Definition empty_flag_fs : fs :=
  {| dirs := {[ PROGRAMS_DIR ]};
     files :=
       {[ SYSTEM_CSV := CsvFile [PROGRAM_FIELDS; ["books"; "الكتب"; ""]] ]}
  |}.

Definition sample_time : datetime :=
  {| year := 2024; month := 3; day := 9;
     hour := 14; minute := 5; second := 59 |}.

Definition sample_time_later : datetime :=
  {| year := 2024; month := 3; day := 9;
     hour := 14; minute := 6; second := 0 |}.

(** A receipt generator without the Arabic font, whose reshaper and image
    pipeline refuse every input. *)
Definition sample_generate_pdf :=
  generate_pdf "Helvetica" (fun _ => None) (fun _ => None) (fun _ => None).

(** Uploads. *)
Definition new_and_known_upload : string :=
  lines ["NationalID,FullName"; "100200300,Sara Ali"; "200300400,Omar Said";
         "300400500,Huda Nasser"; ",Nobody"].

Definition english_upload : string :=
  lines ["NationalID,FullName"; "200300400,Omar Said"].

Definition arabic_upload : string :=
  lines ["رقم الهوية,الاسم"; "200300400,Omar Said"].

Definition repeated_id_upload : string :=
  lines ["NationalID,FullName"; "200300400,Omar Said"; "200300400,Omar S."].

(** ** Further sample data *)

(** A file system before the first run. *)
Definition fresh_fs : fs := {| dirs := ∅; files := ∅ |}.


(** Requests that carry the fields of a form, and requests that carry an
    upload for the [import_csv] action. *)
Definition post_form (fields : list (string * string)) : request string :=
  {| method := POST; form := list_to_map fields; uploads := ∅ |}.


Definition get_page : request string :=
  {| method := GET; form := ∅; uploads := ∅ |}.

Definition sample_acknowledgment :=
  acknowledgment string "Helvetica" (fun _ => None) (fun _ => None)
    (fun _ => None).

Definition sample_edit_program :=
  edit_program string utf8_plain utf8_plain latin1_plain plain_csv_reader.

(** * Properties *)

(** ** Trimming *)

Lemma is_empty_true s : is_empty s = true → s = "".
Proof. by destruct s. Qed.

Lemma lstrip_length s : (String.length (lstrip s) <= String.length s)%nat.
Proof.
  remember (String.length s) as n eqn:Hn.
  revert s Hn. induction n as [n IH] using lt_wf_ind. intros s ->.
  assert (Hrec : ∀ t, (String.length t < String.length s)%nat →
    (String.length (lstrip t) <= String.length t)%nat).
  { intros t Ht. by apply (IH (String.length t)). }
  destruct s as [|a s1]; [done|].
  cbn [lstrip]. destruct (is_space a).
  { specialize (Hrec s1). cbn in *. lia. }
  destruct s1 as [|b s2]; [done|]. destruct (is_space2 a b).
  { specialize (Hrec s2). cbn in *. lia. }
  destruct s2 as [|c s3]; [done|]. destruct (is_space3 a b c); [|done].
  specialize (Hrec s3). cbn in *. lia.
Qed.

(** A string that [lstrip] leaves alone does not start with white
    space. *)
Definition starts_clean (s : string) : Prop :=
  match s with
  | "" => True
  | String a s1 =>
      is_space a = false ∧
      match s1 with
      | "" => True
      | String b s2 =>
          is_space2 a b = false ∧
          match s2 with
          | "" => True
          | String c _ => is_space3 a b c = false
          end
      end
  end.

Lemma starts_clean_lstrip s : starts_clean s → lstrip s = s.
Proof.
  destruct s as [|a [|b [|c s]]]; cbn [starts_clean lstrip].
  - done.
  - by intros [-> _].
  - by intros [-> [-> _]].
  - by intros [-> [-> ->]].
Qed.

Lemma lstrip_starts_clean s : starts_clean (lstrip s).
Proof.
  remember (String.length s) as n eqn:Hn.
  revert s Hn. induction n as [n IH] using lt_wf_ind. intros s ->.
  destruct s as [|a s1]; [exact I|].
  cbn [lstrip]. destruct (is_space a) eqn:Ea.
  { apply (IH (String.length s1)); [cbn; lia|done]. }
  destruct s1 as [|b s2]; [by cbn; rewrite Ea|].
  destruct (is_space2 a b) eqn:Eb.
  { apply (IH (String.length s2)); [cbn; lia|done]. }
  destruct s2 as [|c s3]; [by cbn; rewrite Ea, Eb|].
  destruct (is_space3 a b c) eqn:Ec.
  { apply (IH (String.length s3)); [cbn; lia|done]. }
  cbn. by rewrite Ea, Eb, Ec.
Qed.

Lemma lstrip_idempotent s : lstrip (lstrip s) = lstrip s.
Proof. apply starts_clean_lstrip, lstrip_starts_clean. Qed.

(** A prefix of a string that does not start with white space does not
    start with white space either. *)
Lemma starts_clean_prefix p q : starts_clean (p +:+ q) → starts_clean p.
Proof.
  destruct p as [|a [|b [|c p]]].
  - done.
  - change (String a "" +:+ q) with (String a q). cbn [starts_clean].
    by intros [-> _].
  - change (String a (String b "") +:+ q) with (String a (String b q)).
    cbn [starts_clean]. by intros [-> [-> _]].
  - change (String a (String b (String c p)) +:+ q)
      with (String a (String b (String c (p +:+ q)))).
    cbn [starts_clean]. by intros [-> [-> ->]].
Qed.

(** White space in front of a string is skipped. *)
Lemma lstrip_app_blank p q : lstrip p = "" → lstrip (p +:+ q) = lstrip q.
Proof.
  remember (String.length p) as n eqn:Hn.
  revert p Hn. induction n as [n IH] using lt_wf_ind. intros p -> Hp.
  assert (Hrec : ∀ t, (String.length t < String.length p)%nat →
    lstrip t = "" → lstrip (t +:+ q) = lstrip q).
  { intros t Ht. by apply (IH (String.length t)). }
  clear IH. destruct p as [|a [|b [|c p3]]].
  - reflexivity.
  - change (String a "" +:+ q) with (String a ("" +:+ q)).
    cbn [lstrip] in Hp |- *. destruct (is_space a); [|discriminate].
    apply Hrec; [cbn; lia|done].
  - change (String a (String b "") +:+ q)
      with (String a (String b ("" +:+ q))).
    cbn [lstrip] in Hp |- *. destruct (is_space a).
    { apply (Hrec (String b "")); [cbn; lia|done]. }
    destruct (is_space2 a b); [|discriminate].
    apply Hrec; [cbn; lia|done].
  - change (String a (String b (String c p3)) +:+ q)
      with (String a (String b (String c (p3 +:+ q)))).
    cbn [lstrip] in Hp |- *. destruct (is_space a).
    { apply (Hrec (String b (String c p3))); [cbn; lia|done]. }
    destruct (is_space2 a b).
    { apply (Hrec (String c p3)); [cbn; lia|done]. }
    destruct (is_space3 a b c); [|discriminate].
    apply Hrec; [cbn; lia|done].
Qed.

(** [rstrip] removes a run of white space. *)
Lemma rstrip_split s : ∃ q, s = rstrip s +:+ q ∧ lstrip q = "".
Proof.
  induction s as [|c s (q & Hq & Hb)]; [by exists ""|].
  cbn [rstrip]. destruct (is_empty (lstrip (String c s))) eqn:E.
  - exists (String c s). split; [reflexivity|by apply is_empty_true].
  - exists q. split; [|exact Hb].
    change (String c (rstrip s) +:+ q) with (String c (rstrip s +:+ q)).
    by rewrite <- Hq.
Qed.

(** What [rstrip] returns does not end with white space. *)
Lemma rstrip_no_blank_suffix s p q :
  rstrip s = p +:+ q → lstrip q = "" → q = "".
Proof.
  revert p. induction s as [|c s IH]; intros p.
  - cbn [rstrip]. destruct p, q; done.
  - cbn [rstrip]. destruct (is_empty (lstrip (String c s))) eqn:E.
    + destruct p, q; done.
    + destruct p as [|a p].
      * change ("" +:+ q) with q. intros <- Hb. exfalso.
        destruct (rstrip_split s) as (q' & Hq' & Hb').
        rewrite Hq' in E at 1.
        change (String c (rstrip s +:+ q')) with (String c (rstrip s) +:+ q')
          in E.
        rewrite lstrip_app_blank, Hb' in E by done. discriminate.
      * change (String a p +:+ q) with (String a (p +:+ q)).
        intros [= _ Hr]. by apply (IH p).
Qed.

Lemma rstrip_fixed s :
  (∀ p q, s = p +:+ q → lstrip q = "" → q = "") → rstrip s = s.
Proof.
  induction s as [|c s IH]; intros H; [reflexivity|].
  cbn [rstrip]. destruct (is_empty (lstrip (String c s))) eqn:E.
  - apply is_empty_true in E. by rewrite (H "" (String c s) eq_refl E).
  - f_equal. apply IH. intros p q -> Hq.
    by apply (H (String c p) q).
Qed.

Lemma rstrip_idempotent s : rstrip (rstrip s) = rstrip s.
Proof. apply rstrip_fixed. intros p q. apply rstrip_no_blank_suffix. Qed.

Lemma strip_starts_clean s : starts_clean (strip s).
Proof.
  unfold strip. destruct (rstrip_split (lstrip s)) as (q & Hq & _).
  apply (starts_clean_prefix _ q). rewrite <- Hq. apply lstrip_starts_clean.
Qed.

Lemma strip_idempotent s : strip (strip s) = strip s.
Proof.
  unfold strip at 1. rewrite (starts_clean_lstrip (strip s))
    by apply strip_starts_clean.
  unfold strip. apply rstrip_idempotent.
Qed.


Lemma strip_no_leading_space s c s' :
  strip s = String c s' → is_space c = false.
Proof.
  intros Hs. pose proof (strip_starts_clean s) as H. rewrite Hs in H.
  by destruct H.
Qed.

(** ** Lower case *)





(** ** Line endings *)

Lemma universal_newlines_clean s : has_cr s = false → universal_newlines s = s.
Proof.
  induction s as [|c s IH]; [reflexivity|].
  cbn [has_cr universal_newlines]. destruct (Ascii.eqb c CR); [discriminate|].
  cbn [orb]. intros H. by rewrite IH.
Qed.

Lemma universal_newlines_has_cr s : has_cr (universal_newlines s) = false.
Proof.
  induction s as [|c s IH]; [reflexivity|].
  cbn [universal_newlines]. destruct (Ascii.eqb c CR) eqn:E.
  - destruct s as [|c' s]; [reflexivity|].
    destruct (Ascii.eqb c' LF); [exact IH|].
    cbn [has_cr]. by rewrite IH.
  - cbn [has_cr]. by rewrite E, IH.
Qed.

Lemma universal_newlines_idempotent s :
  universal_newlines (universal_newlines s) = universal_newlines s.
Proof. apply universal_newlines_clean, universal_newlines_has_cr. Qed.

(** ** Timestamps *)

Lemma digit_cases (n : Z) :
  (n mod 10 = 0 ∨ n mod 10 = 1 ∨ n mod 10 = 2 ∨ n mod 10 = 3 ∨ n mod 10 = 4
   ∨ n mod 10 = 5 ∨ n mod 10 = 6 ∨ n mod 10 = 7 ∨ n mod 10 = 8
   ∨ n mod 10 = 9)%Z.
Proof. Z.div_mod_to_equations. lia. Qed.

Lemma is_digit_digit n : is_digit (digit n) = true.
Proof.
  unfold digit.
  destruct (digit_cases n) as [H|[H|[H|[H|[H|[H|[H|[H|[H|H]]]]]]]]];
    rewrite H; reflexivity.
Qed.

Lemma digit_compare a b :
  Ascii.compare (digit a) (digit b) = (a mod 10 ?= b mod 10)%Z.
Proof.
  unfold digit.
  destruct (digit_cases a) as [H|[H|[H|[H|[H|[H|[H|[H|[H|H]]]]]]]]];
    rewrite H;
    destruct (digit_cases b) as [G|[G|[G|[G|[G|[G|[G|[G|[G|G]]]]]]]]];
    rewrite G; reflexivity.
Qed.

Lemma compare_digit a b s1 s2 :
  String.compare (String (digit a) s1) (String (digit b) s2)
  = match (a mod 10 ?= b mod 10)%Z with
    | Eq => String.compare s1 s2
    | c => c
    end.
Proof. cbn [String.compare]. by rewrite digit_compare. Qed.

Lemma compare_pad2 a b s1 s2 :
  (0 ≤ a < 100)%Z → (0 ≤ b < 100)%Z →
  String.compare (pad2 a +:+ s1) (pad2 b +:+ s2)
  = match (a ?= b)%Z with
    | Eq => String.compare s1 s2
    | c => c
    end.
Proof.
  intros Ha Hb. cbv beta iota zeta delta [pad2 String.append].
  rewrite !compare_digit.
  destruct (Z.compare_spec (a / 10 mod 10) (b / 10 mod 10));
    destruct (Z.compare_spec (a mod 10) (b mod 10));
    destruct (Z.compare_spec a b); try reflexivity;
    Z.div_mod_to_equations; lia.
Qed.

Lemma compare_pad4 a b s1 s2 :
  (0 ≤ a < 10000)%Z → (0 ≤ b < 10000)%Z →
  String.compare (pad4 a +:+ s1) (pad4 b +:+ s2)
  = match (a ?= b)%Z with
    | Eq => String.compare s1 s2
    | c => c
    end.
Proof.
  intros Ha Hb. cbv beta iota zeta delta [pad4 pad2 String.append].
  rewrite !compare_digit.
  destruct (Z.compare_spec (a / 1000 mod 10) (b / 1000 mod 10));
    destruct (Z.compare_spec (a / 100 mod 10) (b / 100 mod 10));
    destruct (Z.compare_spec (a / 10 mod 10) (b / 10 mod 10));
    destruct (Z.compare_spec (a mod 10) (b mod 10));
    destruct (Z.compare_spec a b); try reflexivity;
    Z.div_mod_to_equations; lia.
Qed.

Lemma compare_separator c s1 s2 :
  String.compare (String c "" +:+ s1) (String c "" +:+ s2)
  = String.compare s1 s2.
Proof.
  cbv beta iota zeta delta [String.append]. cbn [String.compare].
  unfold Ascii.compare. by rewrite N.compare_refl.
Qed.

Lemma strftime_fields t :
  strftime t
  = pad4 (year t) +:+ "-" +:+ pad2 (month t) +:+ "-" +:+ pad2 (day t)
    +:+ " " +:+ pad2 (hour t) +:+ ":" +:+ pad2 (minute t) +:+ ":"
    +:+ pad2 (second t) +:+ "".
Proof. reflexivity. Qed.

Lemma valid_datetime_bounds t :
  valid_datetime t = true →
  (1000 ≤ year t ≤ 9999 ∧ 1 ≤ month t ≤ 12 ∧ 1 ≤ day t ≤ 31
   ∧ 0 ≤ hour t ≤ 23 ∧ 0 ≤ minute t ≤ 59 ∧ 0 ≤ second t ≤ 59)%Z.
Proof.
  unfold valid_datetime. rewrite !andb_true_iff, !Z.leb_le. lia.
Qed.

(** The string order of two stamps is the order of the readings. *)
Lemma strftime_compare t1 t2 :
  valid_datetime t1 = true → valid_datetime t2 = true →
  String.compare (strftime t1) (strftime t2) = (stamp t1 ?= stamp t2)%Z.
Proof.
  intros H1%valid_datetime_bounds H2%valid_datetime_bounds.
  rewrite !strftime_fields.
  rewrite compare_pad4 by lia. rewrite compare_separator.
  rewrite compare_pad2 by lia. rewrite compare_separator.
  rewrite compare_pad2 by lia. rewrite compare_separator.
  rewrite compare_pad2 by lia. rewrite compare_separator.
  rewrite compare_pad2 by lia. rewrite compare_separator.
  rewrite compare_pad2 by lia.
  change (String.compare "" "") with Eq. unfold stamp.
  destruct (Z.compare_spec (year t1) (year t2));
    [|symmetry; apply Z.compare_lt_iff; lia
     |symmetry; apply Z.compare_gt_iff; lia].
  destruct (Z.compare_spec (month t1) (month t2));
    [|symmetry; apply Z.compare_lt_iff; lia
     |symmetry; apply Z.compare_gt_iff; lia].
  destruct (Z.compare_spec (day t1) (day t2));
    [|symmetry; apply Z.compare_lt_iff; lia
     |symmetry; apply Z.compare_gt_iff; lia].
  destruct (Z.compare_spec (hour t1) (hour t2));
    [|symmetry; apply Z.compare_lt_iff; lia
     |symmetry; apply Z.compare_gt_iff; lia].
  destruct (Z.compare_spec (minute t1) (minute t2));
    [|symmetry; apply Z.compare_lt_iff; lia
     |symmetry; apply Z.compare_gt_iff; lia].
  destruct (Z.compare_spec (second t1) (second t2));
    [|symmetry; apply Z.compare_lt_iff; lia
     |symmetry; apply Z.compare_gt_iff; lia].
  symmetry; apply Z.compare_eq_iff; lia.
Qed.

Lemma strftime_ltb t1 t2 :
  valid_datetime t1 = true → valid_datetime t2 = true →
  (strftime t1 <? strftime t2)%string = earlier t1 t2.
Proof.
  intros H1 H2. unfold String.ltb, earlier. rewrite strftime_compare by done.
  unfold Z.ltb. by destruct (stamp t1 ?= stamp t2)%Z.
Qed.

Lemma strftime_is_timestamp t : is_timestamp (strftime t) = true.
Proof.
  unfold is_timestamp.
  cbv beta iota zeta delta [strftime strftime_date strftime_time pad4 pad2
       String.append list_ascii_of_string].
  cbn [forallb]. rewrite !is_digit_digit. reflexivity.
Qed.

Lemma digit_not_cr n : Ascii.eqb (digit n) CR = false.
Proof.
  unfold digit.
  destruct (digit_cases n) as [H|[H|[H|[H|[H|[H|[H|[H|[H|H]]]]]]]]];
    rewrite H; reflexivity.
Qed.

(** A stamp holds no carriage return: it is read back as it was
    written. *)
Lemma strftime_clean t : has_cr (strftime t) = false.
Proof.
  cbv beta iota zeta delta [strftime strftime_date strftime_time pad4 pad2
       String.append].
  cbn [has_cr]. rewrite !digit_not_cr. reflexivity.
Qed.

(** ** Tables with the expected columns *)

Lemma forallb_Forall {A} (f : A → bool) (l : list A) :
  forallb f l = true ↔ Forall (fun x => f x = true) l.
Proof.
  induction l as [|x l IH]; cbn [forallb].
  - split; [constructor|done].
  - rewrite andb_true_iff, IH. split.
    + intros [? ?]. by constructor.
    + by inversion 1.
Qed.

Lemma no_cr_fixed r : no_cr r = true → map universal_newlines r = r.
Proof.
  unfold no_cr. rewrite forallb_Forall.
  induction 1 as [|f r Hf _ IH]; [reflexivity|].
  cbn [map]. rewrite IH. f_equal. apply universal_newlines_clean.
  by destruct (has_cr f).
Qed.

Lemma no_cr_universal_newlines r : no_cr (map universal_newlines r) = true.
Proof.
  unfold no_cr. apply forallb_Forall, Forall_forall.
  intros f (f0 & -> & _)%list_elem_of_fmap.
  by rewrite universal_newlines_has_cr.
Qed.

(** What is written and read back holds no carriage return, and a table
    without carriage return is read back as it was written. *)
Lemma as_read_clean rows : rows_clean (as_read rows).
Proof.
  apply Forall_forall. intros r (r0 & -> & _)%list_elem_of_fmap.
  apply no_cr_universal_newlines.
Qed.

Lemma as_read_fixed rows : rows_clean rows → as_read rows = rows.
Proof.
  induction 1 as [|r rows Hr _ IH]; [reflexivity|].
  unfold as_read in *. cbn [map]. by rewrite IH, no_cr_fixed.
Qed.

Lemma as_read_length n rows :
  Forall (fun r : record => length r = n) rows →
  Forall (fun r : record => length r = n) (as_read rows).
Proof.
  intros H. apply Forall_forall. intros r (r0 & -> & Hr)%list_elem_of_fmap.
  rewrite length_map. rewrite Forall_forall in H. by apply H.
Qed.

Lemma as_read_app rows1 rows2 :
  as_read (rows1 ++ rows2) = as_read rows1 ++ as_read rows2.
Proof. apply map_app. Qed.

Lemma checked_rows_inv fieldnames t rows :
  checked_rows fieldnames t = Some rows →
  t = fieldnames :: rows ∧
  Forall (fun r => length r = length fieldnames) rows ∧
  rows_clean rows.
Proof.
  destruct t as [|h rows']; [discriminate|]. cbn [checked_rows].
  destruct (_ && _) eqn:E; [|discriminate].
  intros [= <-]. apply andb_prop in E as [[Hh Hall]%andb_prop Hclean].
  apply bool_decide_eq_true in Hh as ->.
  split; [reflexivity|]. split; [|by apply forallb_Forall].
  apply forallb_Forall in Hall.
  eapply Forall_impl; [exact Hall|]. intros r Hr. by apply Nat.eqb_eq.
Qed.

Lemma checked_rows_intro fieldnames rows :
  Forall (fun r => length r = length fieldnames) rows →
  rows_clean rows →
  checked_rows fieldnames (fieldnames :: rows) = Some rows.
Proof.
  intros Hall Hclean. cbn [checked_rows].
  rewrite bool_decide_eq_true_2 by reflexivity.
  apply forallb_Forall in Hclean as ->.
  replace (forallb _ rows) with true; [reflexivity|].
  symmetry. apply forallb_Forall.
  eapply Forall_impl; [exact Hall|]. intros r Hr. by apply Nat.eqb_eq.
Qed.

Lemma filter_not_blank n rows :
  Forall (fun r => length r = S n) rows →
  List.filter (fun r => negb (is_blank r)) rows = rows.
Proof.
  induction 1 as [|r rows Hr _ IH]; [reflexivity|].
  cbn. destruct r; [discriminate|]. cbn. by rewrite IH.
Qed.

Lemma user_record_shape (r : record) :
  length r = 4%nat → ∃ a b c d, r = [a; b; c; d].
Proof.
  destruct r as [|a [|b [|c [|d [|]]]]]; try discriminate. eauto.
Qed.

Lemma user_dict_to_list a b c d :
  dict_to_list USER_FIELDS (row_dict USER_FIELDS [a; b; c; d])
  = Ok [a; b; c; d].
Proof. reflexivity. Qed.

Lemma user_id_matches a b c d nid :
  id_matches (row_dict USER_FIELDS [a; b; c; d]) nid
  = Ok (String.eqb (strip a) (strip nid)).
Proof. reflexivity. Qed.

Lemma store_rows_inv program_name st rows :
  store_rows program_name st = Some rows →
  program_dir program_name ∈ dirs st ∧
  files st !! get_csv_path program_name = Some (CsvFile (USER_FIELDS :: rows)) ∧
  users_wf rows.
Proof.
  unfold store_rows.
  destruct (files st !! get_csv_path program_name) as [[t|]|]; try discriminate.
  case_bool_decide; [|discriminate].
  intros (-> & ? & _)%checked_rows_inv. auto.
Qed.

Lemma store_rows_clean program_name st rows :
  store_rows program_name st = Some rows → rows_clean rows.
Proof.
  unfold store_rows.
  destruct (files st !! get_csv_path program_name) as [[t|]|]; try discriminate.
  case_bool_decide; [|discriminate].
  by intros (_ & _ & ?)%checked_rows_inv.
Qed.

Lemma store_rows_intro program_name st rows :
  program_dir program_name ∈ dirs st →
  files st !! get_csv_path program_name = Some (CsvFile (USER_FIELDS :: rows)) →
  users_wf rows →
  rows_clean rows →
  store_rows program_name st = Some rows.
Proof.
  intros Hd Hf Hwf Hclean. unfold store_rows. rewrite Hf.
  rewrite bool_decide_eq_true_2 by done.
  by apply checked_rows_intro.
Qed.

Lemma read_users_store program_name st rows :
  store_rows program_name st = Some rows →
  read_users program_name st = Ok (map user_of rows).
Proof.
  intros (Hd & Hf & Hwf)%store_rows_inv.
  unfold read_users, path_exists, read_csv. rewrite Hf.
  rewrite (bool_decide_eq_true_2 (is_Some _)) by eauto.
  rewrite orb_true_r. cbn [DictReader].
  by rewrite (filter_not_blank 3).
Qed.

Lemma find_in_users rows national_id :
  users_wf rows →
  find_in (map user_of rows) national_id
  = Ok (user_of <$> find_record rows national_id).
Proof.
  induction 1 as [|r rows Hr _ IH]; [reflexivity|].
  apply user_record_shape in Hr as (a & b & c & d & ->).
  cbn [map find_in find_record List.find]. unfold user_of at 1.
  rewrite user_id_matches. cbn [mbind result_bind key_of hd].
  destruct (String.eqb (strip a) (strip national_id)); [reflexivity|].
  apply IH.
Qed.

Lemma already_exists_users rows national_id :
  users_wf rows →
  already_exists (map user_of rows) national_id
  = Ok (id_present rows national_id).
Proof.
  induction 1 as [|r rows Hr _ IH]; [reflexivity|].
  apply user_record_shape in Hr as (a & b & c & d & ->).
  cbn [map already_exists id_present existsb]. unfold user_of at 1.
  rewrite user_id_matches. cbn [mbind result_bind key_of hd].
  destruct (String.eqb (strip a) (strip national_id)); [reflexivity|].
  apply IH.
Qed.

Lemma writerows_users rows :
  users_wf rows →
  writerows USER_FIELDS (map user_of rows) = (rows, None).
Proof.
  induction 1 as [|r rows Hr _ IH]; [reflexivity|].
  apply user_record_shape in Hr as (a & b & c & d & ->).
  cbn [map writerows]. unfold user_of at 1.
  rewrite user_dict_to_list. fold user_of. by rewrite IH.
Qed.


Lemma mark_loop_users rows national_id now :
  users_wf rows →
  mark_loop (map user_of rows) national_id now
  = Ok (map user_of (mark_rows rows national_id (strftime now))).
Proof.
  induction 1 as [|r rows Hr _ IH]; [reflexivity|].
  apply user_record_shape in Hr as (a & b & c & d & ->).
  cbn [map mark_loop mark_rows]. unfold user_of at 1.
  rewrite user_id_matches. cbn [mbind result_bind key_of hd].
  destruct (String.eqb (strip a) (strip national_id)).
  - reflexivity.
  - rewrite IH. reflexivity.
Qed.

(** The member file holds the records as they are read back. *)
Lemma write_users_as_read program_name st rows :
  program_dir program_name ∈ dirs st →
  users_wf rows →
  write_users program_name (map user_of rows) st
  = (Ok (), with_users program_name (as_read rows) st).
Proof.
  intros Hd Hwf. unfold write_users, write_csv.
  rewrite bool_decide_eq_true_2 by done.
  by rewrite writerows_users.
Qed.

Lemma write_users_store program_name st rows :
  program_dir program_name ∈ dirs st →
  users_wf rows →
  rows_clean rows →
  write_users program_name (map user_of rows) st
  = (Ok (), with_users program_name rows st).
Proof.
  intros Hd Hwf Hclean. rewrite write_users_as_read by done.
  by rewrite as_read_fixed.
Qed.

Lemma store_rows_with_users program_name st rows :
  program_dir program_name ∈ dirs st →
  users_wf rows →
  rows_clean rows →
  store_rows program_name (with_users program_name rows st) = Some rows.
Proof.
  intros Hd Hwf Hclean. apply store_rows_intro; [done| |done|done].
  cbn. apply lookup_insert_eq.
Qed.


Lemma mark_rows_clean rows national_id ts :
  users_wf rows → rows_clean rows → has_cr ts = false →
  rows_clean (mark_rows rows national_id ts).
Proof.
  intros Hwf Hclean Hts. revert Hclean.
  induction Hwf as [|r rows Hr _ IH]; [done|].
  intros [Hc Hcs]%Forall_cons. cbn [mark_rows]. destruct (String.eqb _ _).
  - constructor; [|done].
    apply user_record_shape in Hr as (a & b & c & d & ->).
    cbn [mark_record]. unfold no_cr in *. cbn [forallb] in *.
    rewrite Hts. cbn [negb andb].
    apply andb_prop in Hc as [-> [-> _]%andb_prop]. reflexivity.
  - constructor; [done|]. by apply IH.
Qed.

Lemma with_users_same program_name st rows :
  files st !! get_csv_path program_name = Some (CsvFile (USER_FIELDS :: rows)) →
  with_users program_name rows st = st.
Proof.
  intros Hf. destruct st as [ds fl]. unfold with_users. cbn in *.
  f_equal. by apply insert_id.
Qed.

Lemma find_user_store program_name national_id st rows :
  store_rows program_name st = Some rows →
  find_user program_name national_id st
  = Ok (user_of <$> find_record rows national_id).
Proof.
  intros Hs. unfold find_user. rewrite (read_users_store _ _ _ Hs).
  apply store_rows_inv in Hs as (_ & _ & Hwf).
  cbn [mbind result_bind]. by apply find_in_users.
Qed.

Lemma find_record_absent rows national_id :
  id_present rows national_id = false →
  find_record rows national_id = None.
Proof.
  induction rows as [|r rows IH]; [reflexivity|].
  cbn [id_present existsb find_record List.find].
  destruct (String.eqb _ _); [discriminate|]. exact IH.
Qed.


Lemma mark_rows_absent rows national_id ts :
  id_present rows national_id = false →
  mark_rows rows national_id ts = rows.
Proof.
  induction rows as [|r rows IH]; [reflexivity|].
  cbn [id_present existsb mark_rows].
  destruct (String.eqb _ _); [discriminate|].
  intros H. by rewrite IH.
Qed.

Lemma mark_rows_wf rows national_id ts :
  users_wf rows → users_wf (mark_rows rows national_id ts).
Proof.
  induction 1 as [|r rows Hr Hall IH]; [constructor|].
  cbn [mark_rows]. destruct (String.eqb _ _).
  - constructor; [|done].
    apply user_record_shape in Hr as (a & b & c & d & ->). reflexivity.
  - by constructor.
Qed.

Lemma find_record_mark rows national_id ts :
  users_wf rows →
  id_present rows national_id = true →
  ∃ a b c d,
    find_record rows national_id = Some [a; b; c; d] ∧
    find_record (mark_rows rows national_id ts) national_id
    = Some [a; b; "true"; ts].
Proof.
  induction 1 as [|r rows Hr _ IH]; [discriminate|].
  cbn [id_present existsb find_record List.find mark_rows].
  destruct (String.eqb (strip (key_of r)) (strip national_id)) eqn:E.
  - intros _. apply user_record_shape in Hr as (a & b & c & d & ->).
    exists a, b, c, d. split; [reflexivity|].
    cbn [mark_record find_record List.find key_of hd] in *.
    by rewrite E.
  - cbn [orb]. intros (a & b & c & d & H1 & H2)%IH.
    exists a, b, c, d. split; [exact H1|].
    cbn [find_record List.find]. by rewrite E.
Qed.

Lemma id_present_mark rows national_id ts :
  users_wf rows →
  id_present (mark_rows rows national_id ts) national_id
  = id_present rows national_id.
Proof.
  induction 1 as [|r rows Hr _ IH]; [reflexivity|].
  cbn [mark_rows id_present existsb].
  destruct (String.eqb (strip (key_of r)) (strip national_id)) eqn:E.
  - apply user_record_shape in Hr as (a & b & c & d & ->).
    cbn [mark_record existsb key_of hd] in *. by rewrite E.
  - cbn [existsb]. rewrite E. cbn [orb]. exact IH.
Qed.

Lemma update_user_received_store program_name national_id now st rows :
  store_rows program_name st = Some rows →
  update_user_received program_name national_id now st
  = (Ok (),
     with_users program_name (mark_rows rows national_id (strftime now)) st).
Proof.
  intros Hs. unfold update_user_received.
  rewrite (read_users_store _ _ _ Hs).
  pose proof (store_rows_clean _ _ _ Hs) as Hclean.
  apply store_rows_inv in Hs as (Hd & _ & Hwf).
  cbn [mbind result_bind]. rewrite mark_loop_users by done.
  apply write_users_store; [done|by apply mark_rows_wf|].
  apply mark_rows_clean; [done|done|apply strftime_clean].
Qed.


Lemma update_user_received_rows program_name national_id now st rows :
  store_rows program_name st = Some rows →
  store_rows program_name
    (with_users program_name (mark_rows rows national_id (strftime now)) st)
  = Some (mark_rows rows national_id (strftime now)).
Proof.
  intros Hs.
  pose proof (store_rows_inv _ _ _ Hs) as (Hd & Hf & Hwf).
  pose proof (store_rows_clean _ _ _ Hs) as Hclean.
  apply store_rows_with_users; [done|by apply mark_rows_wf|].
  apply mark_rows_clean; [done|done|apply strftime_clean].
Qed.

(** C3.  When the national ID given to [add_user_to_program] equals,
    after trimming, the ID of a member already in the store of the
    program, the call answers [(False, 'national ID already exists')] and
    the file system it returns is the one it received: the member file
    has the same records as before. *)
Theorem add_existing_id_rejected program_name national_id full_name st rows :
  store_rows program_name st = Some rows →
  id_present rows national_id = true →
  add_user_to_program program_name national_id full_name st
  = (Ok (false, NationalIdExists), st).
Proof.
  intros Hs Hp. unfold add_user_to_program.
  rewrite (read_users_store _ _ _ Hs).
  apply store_rows_inv in Hs as (_ & _ & Hwf).
  rewrite already_exists_users by done. by rewrite Hp.
Qed.


(** ** Marking a member *)

(** C4, as amended.  For a member present in the store,
    [update_user_received] sets [HasReceived] to ['true'] and
    [DateReceived] to the clock reading in the shape
    [YYYY-MM-DD HH:MM:SS]; a second call overwrites [DateReceived] with
    the reading of the clock at that call, a timestamp greater in string
    order exactly when that reading is later by a second at least.  For
    a national ID that is not in the store the call returns the state
    unchanged. *)
Theorem mark_received_stamps program_name national_id now1 now2 st rows :
  store_rows program_name st = Some rows →
  valid_datetime now1 = true →
  valid_datetime now2 = true →
  if id_present rows national_id then
    ∃ st1 st2 user1 user2,
      update_user_received program_name national_id now1 st = (Ok (), st1) ∧
      find_user program_name national_id st1 = Ok (Some user1) ∧
      get user1 "HasReceived" = Some "true" ∧
      get user1 "DateReceived" = Some (strftime now1) ∧
      is_timestamp (strftime now1) = true ∧
      update_user_received program_name national_id now2 st1 = (Ok (), st2) ∧
      find_user program_name national_id st2 = Ok (Some user2) ∧
      get user2 "HasReceived" = Some "true" ∧
      get user2 "DateReceived" = Some (strftime now2) ∧
      is_timestamp (strftime now2) = true ∧
      (strftime now1 <? strftime now2)%string = earlier now1 now2
  else
    update_user_received program_name national_id now1 st = (Ok (), st).
Proof.
  intros Hs Hv1 Hv2.
  pose proof (store_rows_inv _ _ _ Hs) as (Hd & Hf & Hwf).
  pose proof (store_rows_clean _ _ _ Hs) as Hclean.
  destruct (id_present rows national_id) eqn:Hp.
  - set (ts1 := strftime now1). set (ts2 := strftime now2).
    set (rows1 := mark_rows rows national_id ts1).
    set (rows2 := mark_rows rows1 national_id ts2).
    assert (Hwf1 : users_wf rows1) by (by apply mark_rows_wf).
    assert (Hwf2 : users_wf rows2) by (by apply mark_rows_wf).
    assert (Hclean1 : rows_clean rows1)
      by (apply mark_rows_clean; [done|done|apply strftime_clean]).
    assert (Hclean2 : rows_clean rows2)
      by (apply mark_rows_clean; [done|done|apply strftime_clean]).
    assert (Hs1 : store_rows program_name (with_users program_name rows1 st)
                  = Some rows1) by (by apply store_rows_with_users).
    destruct (find_record_mark rows national_id ts1 Hwf Hp)
      as (a & b & c & d & _ & Hfind1).
    assert (Hp1 : id_present rows1 national_id = true)
      by (unfold rows1; by rewrite id_present_mark).
    destruct (find_record_mark rows1 national_id ts2 Hwf1 Hp1)
      as (a' & b' & c' & d' & _ & Hfind2).
    exists (with_users program_name rows1 st),
           (with_users program_name rows2 (with_users program_name rows1 st)),
           (user_of [a; b; "true"; ts1]), (user_of [a'; b'; "true"; ts2]).
    split; [by apply update_user_received_store|].
    split; [rewrite (find_user_store _ _ _ _ Hs1); unfold rows1;
            by rewrite Hfind1|].
    do 2 (split; [reflexivity|]).
    split; [apply strftime_is_timestamp|].
    split; [by apply update_user_received_store|].
    split.
    { rewrite (find_user_store _ _ _ rows2);
        [unfold rows2; by rewrite Hfind2|].
      by apply store_rows_with_users. }
    do 2 (split; [reflexivity|]).
    split; [apply strftime_is_timestamp|].
    by apply strftime_ltb.
  - rewrite (update_user_received_store _ _ _ _ _ Hs).
    rewrite mark_rows_absent by done.
    by rewrite with_users_same.
Qed.

(** ** The registry *)

Lemma program_record_shape (r : record) :
  length r = 3%nat → ∃ a b c, r = [a; b; c].
Proof.
  destruct r as [|a [|b [|c [|]]]]; try discriminate. eauto.
Qed.

Lemma registry_rows_inv st rows :
  registry_rows st = Some rows →
  PROGRAMS_DIR ∈ dirs st ∧
  files st !! SYSTEM_CSV = Some (CsvFile (PROGRAM_FIELDS :: rows)) ∧
  programs_wf rows.
Proof.
  unfold registry_rows.
  destruct (files st !! SYSTEM_CSV) as [[t|]|]; try discriminate.
  case_bool_decide; [|discriminate].
  intros (-> & ? & _)%checked_rows_inv. auto.
Qed.

Lemma registry_rows_clean st rows :
  registry_rows st = Some rows → rows_clean rows.
Proof.
  unfold registry_rows.
  destruct (files st !! SYSTEM_CSV) as [[t|]|]; try discriminate.
  case_bool_decide; [|discriminate].
  by intros (_ & _ & ?)%checked_rows_inv.
Qed.

Lemma registry_rows_with_programs st rows :
  PROGRAMS_DIR ∈ dirs st → programs_wf rows → rows_clean rows →
  registry_rows (with_programs rows st) = Some rows.
Proof.
  intros Hd Hwf Hclean. unfold registry_rows, with_programs. cbn [files dirs].
  rewrite lookup_insert_eq. rewrite bool_decide_eq_true_2 by done.
  by apply checked_rows_intro.
Qed.

Lemma with_programs_same st rows :
  files st !! SYSTEM_CSV = Some (CsvFile (PROGRAM_FIELDS :: rows)) →
  with_programs rows st = st.
Proof.
  intros Hf. destruct st as [ds fl]. unfold with_programs. cbn in *.
  f_equal. by apply insert_id.
Qed.

Lemma get_all_programs_registry st rows :
  registry_rows st = Some rows →
  get_all_programs st = (Ok (map program_of rows), st).
Proof.
  intros (Hd & Hf & Hwf)%registry_rows_inv.
  unfold get_all_programs, ensure_system_csv, path_exists.
  rewrite (bool_decide_eq_true_2 (PROGRAMS_DIR ∈ _)) by done.
  cbn [orb].
  rewrite (bool_decide_eq_true_2 (is_Some _)) by (rewrite Hf; eauto).
  rewrite orb_true_r. unfold read_csv. rewrite Hf. cbn [DictReader].
  by rewrite (filter_not_blank 2).
Qed.

Lemma toggle_loop_programs rows english_name :
  programs_wf rows →
  toggle_loop (map program_of rows) english_name
  = Ok (map program_of (toggle_rows rows english_name)).
Proof.
  induction 1 as [|r rows Hr _ IH]; [reflexivity|].
  apply program_record_shape in Hr as (a & b & c & ->).
  cbn [map toggle_loop toggle_rows key_of hd].
  change (value_eqb (get (program_of [a; b; c]) "EnglishName") english_name)
    with (String.eqb a english_name).
  destruct (String.eqb a english_name).
  - change (lower_value (get_default (program_of [a; b; c]) "ShowInList" "true"))
      with (Ok (lower c)).
    cbn [mbind result_bind mret result_ret toggle_record].
    destruct (String.eqb (lower c) "true"); reflexivity.
  - rewrite IH. reflexivity.
Qed.

Lemma writerows_programs rows :
  programs_wf rows →
  writerows PROGRAM_FIELDS (map program_of rows) = (rows, None).
Proof.
  induction 1 as [|r rows Hr _ IH]; [reflexivity|].
  apply program_record_shape in Hr as (a & b & c & ->).
  cbn [map writerows].
  change (dict_to_list PROGRAM_FIELDS (program_of [a; b; c]))
    with (Ok (A := record) [a; b; c]).
  by rewrite IH.
Qed.

Lemma toggle_rows_wf rows english_name :
  programs_wf rows → programs_wf (toggle_rows rows english_name).
Proof.
  induction 1 as [|r rows Hr Hall IH]; [constructor|].
  cbn [toggle_rows]. destruct (String.eqb _ _).
  - constructor; [|done].
    apply program_record_shape in Hr as (a & b & c & ->). reflexivity.
  - by constructor.
Qed.

Lemma toggle_rows_clean rows english_name :
  programs_wf rows → rows_clean rows →
  rows_clean (toggle_rows rows english_name).
Proof.
  intros Hwf Hclean. revert Hclean.
  induction Hwf as [|r rows Hr _ IH]; [done|].
  intros [Hc Hcs]%Forall_cons. cbn [toggle_rows]. destruct (String.eqb _ _).
  - constructor; [|done].
    apply program_record_shape in Hr as (a & b & c & ->).
    cbn [toggle_record]. unfold no_cr in *. cbn [forallb] in *.
    apply andb_prop in Hc as [-> [-> _]%andb_prop].
    by destruct (String.eqb (lower c) "true").
  - constructor; [done|]. by apply IH.
Qed.

(** The registry holds the records as they are read back. *)
Lemma save_programs_as_read st rows :
  PROGRAMS_DIR ∈ dirs st →
  programs_wf rows →
  save_programs (map program_of rows) st
  = (Ok (), with_programs (as_read rows) st).
Proof.
  intros Hd Hwf. unfold save_programs, write_csv.
  rewrite bool_decide_eq_true_2 by done.
  by rewrite writerows_programs.
Qed.

Lemma save_programs_registry st rows :
  PROGRAMS_DIR ∈ dirs st →
  programs_wf rows →
  rows_clean rows →
  save_programs (map program_of rows) st = (Ok (), with_programs rows st).
Proof.
  intros Hd Hwf Hclean. rewrite save_programs_as_read by done.
  by rewrite as_read_fixed.
Qed.

Lemma toggle_program_registry english_name st rows :
  registry_rows st = Some rows →
  toggle_program english_name st
  = (Ok (RedirectManagePrograms ProgramStatusUpdated),
     with_programs (toggle_rows rows english_name) st).
Proof.
  intros Hs. unfold toggle_program.
  rewrite (get_all_programs_registry _ _ Hs).
  pose proof (registry_rows_clean _ _ Hs) as Hclean.
  apply registry_rows_inv in Hs as (Hd & Hf & Hwf).
  cbn [mbind result_bind]. rewrite toggle_loop_programs by done.
  rewrite save_programs_registry;
    [reflexivity|done|by apply toggle_rows_wf|by apply toggle_rows_clean].
Qed.

Lemma toggle_rows_absent rows english_name :
  key_present rows english_name = false →
  toggle_rows rows english_name = rows.
Proof.
  induction rows as [|r rows IH]; [reflexivity|].
  cbn [key_present existsb toggle_rows].
  destruct (String.eqb _ _); [discriminate|].
  intros H. by rewrite IH.
Qed.

Lemma record_visible_shape a b c :
  record_visible [a; b; c] = Ok (String.eqb (lower c) "true").
Proof. reflexivity. Qed.

Lemma toggle_record_flips a b c :
  record_visible (toggle_record [a; b; c])
  = Ok (negb (String.eqb (lower c) "true")).
Proof.
  cbn [toggle_record]. rewrite record_visible_shape.
  destruct (String.eqb (lower c) "true"); reflexivity.
Qed.

Lemma toggle_rows_twice rows english_name :
  programs_wf rows →
  let rows2 := toggle_rows (toggle_rows rows english_name) english_name in
  map (take 2) rows2 = map (take 2) rows ∧
  map record_visible rows2 = map record_visible rows.
Proof.
  induction 1 as [|r rows Hr _ IH]; [done|].
  cbn zeta in *. cbn [toggle_rows].
  destruct (String.eqb (key_of r) english_name) eqn:E.
  - apply program_record_shape in Hr as (a & b & c & ->).
    cbn [toggle_record toggle_rows key_of hd] in *. rewrite E.
    cbn [toggle_record map]. split; [reflexivity|]. f_equal.
    rewrite !record_visible_shape.
    destruct (String.eqb (lower c) "true") eqn:Ec; cbn; by rewrite ?Ec.
  - cbn [toggle_rows]. rewrite E. cbn [map].
    destruct IH as [-> ->]. done.
Qed.

Lemma visibility_toggle rows english_name :
  programs_wf rows →
  visibility (toggle_rows rows english_name) english_name
  = negb <$> visibility rows english_name.
Proof.
  unfold visibility.
  induction 1 as [|r rows Hr _ IH]; [reflexivity|].
  cbn [toggle_rows List.find].
  destruct (String.eqb (key_of r) english_name) eqn:E.
  - apply program_record_shape in Hr as (a & b & c & ->).
    cbn [toggle_record List.find key_of hd] in *. rewrite E.
    rewrite !record_visible_shape.
    destruct (String.eqb (lower c) "true"); reflexivity.
  - cbn [List.find]. rewrite E. exact IH.
Qed.

(** C6.  For a program key present in the registry, one call of
    [toggle_program] negates the visibility of that program and a second
    call restores it: after two calls every program has the key, the
    Arabic name and the visibility it had.  For a key that is not in the
    registry the call returns the state unchanged. *)
Theorem toggle_twice_restores english_name st rows :
  registry_rows st = Some rows →
  if key_present rows english_name then
    ∃ st1 st2 rows1 rows2,
      toggle_program english_name st
      = (Ok (RedirectManagePrograms ProgramStatusUpdated), st1) ∧
      registry_rows st1 = Some rows1 ∧
      visibility rows1 english_name = negb <$> visibility rows english_name ∧
      toggle_program english_name st1
      = (Ok (RedirectManagePrograms ProgramStatusUpdated), st2) ∧
      registry_rows st2 = Some rows2 ∧
      visibility rows2 english_name = visibility rows english_name ∧
      map (take 2) rows2 = map (take 2) rows ∧
      map record_visible rows2 = map record_visible rows
  else
    toggle_program english_name st
    = (Ok (RedirectManagePrograms ProgramStatusUpdated), st).
Proof.
  intros Hs.
  pose proof (registry_rows_inv _ _ Hs) as (Hd & Hf & Hwf).
  pose proof (registry_rows_clean _ _ Hs) as Hclean.
  destruct (key_present rows english_name) eqn:Hp.
  - set (rows1 := toggle_rows rows english_name).
    set (rows2 := toggle_rows rows1 english_name).
    assert (Hwf1 : programs_wf rows1) by (by apply toggle_rows_wf).
    assert (Hwf2 : programs_wf rows2) by (by apply toggle_rows_wf).
    assert (Hclean1 : rows_clean rows1) by (by apply toggle_rows_clean).
    assert (Hclean2 : rows_clean rows2) by (by apply toggle_rows_clean).
    assert (Hs1 : registry_rows (with_programs rows1 st) = Some rows1)
      by (by apply registry_rows_with_programs).
    exists (with_programs rows1 st),
           (with_programs rows2 (with_programs rows1 st)), rows1, rows2.
    split; [by apply toggle_program_registry|].
    split; [done|].
    split; [by apply visibility_toggle|].
    split; [by apply toggle_program_registry|].
    split; [by apply registry_rows_with_programs|].
    split.
    { unfold rows2. rewrite visibility_toggle by done.
      unfold rows1. rewrite visibility_toggle by done.
      destruct (visibility rows english_name) as [[]|]; reflexivity. }
    by apply toggle_rows_twice.
  - rewrite (toggle_program_registry _ _ _ Hs).
    rewrite toggle_rows_absent by done.
    by rewrite with_programs_same.
Qed.

Lemma visible_of_programs rows :
  programs_wf rows →
  visible_of (map program_of rows)
  = Ok (map program_of (List.filter flag_shown rows)).
Proof.
  induction 1 as [|r rows Hr _ IH]; [reflexivity|].
  apply program_record_shape in Hr as (a & b & c & ->).
  cbn [map visible_of List.filter].
  change (shown_in_list (program_of [a; b; c]))
    with (Ok (String.eqb (lower c) "true")).
  change (flag_shown [a; b; c]) with (String.eqb (lower c) "true").
  cbn [mbind result_bind]. rewrite IH. cbn [mbind result_bind mret result_ret].
  by destruct (String.eqb (lower c) "true").
Qed.

Lemma get_visible_programs_rows st rows :
  registry_rows st = Some rows →
  get_visible_programs st
  = (Ok (map program_of (List.filter flag_shown rows)), st).
Proof.
  intros Hs. unfold get_visible_programs.
  rewrite (get_all_programs_registry _ _ Hs).
  apply registry_rows_inv in Hs as (_ & _ & Hwf).
  cbn [mbind result_bind]. by rewrite visible_of_programs.
Qed.

Lemma first_with_key_toggle rows english_name a b c :
  first_with_key rows english_name = Some [a; b; c] →
  first_with_key (toggle_rows rows english_name) english_name
  = Some (toggle_record [a; b; c]).
Proof.
  unfold first_with_key. induction rows as [|r rows IH]; [discriminate|].
  cbn [List.find toggle_rows].
  destruct (String.eqb (key_of r) english_name) eqn:E.
  - intros [= ->]. cbn [toggle_record List.find key_of hd] in *.
    by rewrite E.
  - intros H. cbn [List.find]. rewrite E. by apply IH.
Qed.

(** *** A registry without visibility column *)

Lemma flagless_record_shape (r : record) :
  length r = 2%nat → ∃ a b, r = [a; b].
Proof. destruct r as [|a [|b [|]]]; try discriminate. eauto. Qed.

Lemma flagless_rows_inv st rows :
  flagless_rows st = Some rows →
  PROGRAMS_DIR ∈ dirs st ∧
  files st !! SYSTEM_CSV = Some (CsvFile (FLAGLESS_FIELDS :: rows)) ∧
  Forall (fun r : record => length r = 2%nat) rows ∧
  rows_clean rows.
Proof.
  unfold flagless_rows.
  destruct (files st !! SYSTEM_CSV) as [[t|]|]; try discriminate.
  case_bool_decide; [|discriminate].
  intros (-> & ? & ?)%checked_rows_inv. auto.
Qed.

Lemma get_all_programs_flagless st rows :
  flagless_rows st = Some rows →
  get_all_programs st = (Ok (map (row_dict FLAGLESS_FIELDS) rows), st).
Proof.
  intros (Hd & Hf & Hwf & _)%flagless_rows_inv.
  unfold get_all_programs, ensure_system_csv, path_exists.
  rewrite (bool_decide_eq_true_2 (PROGRAMS_DIR ∈ _)) by done.
  cbn [orb].
  rewrite (bool_decide_eq_true_2 (is_Some _)) by (rewrite Hf; eauto).
  rewrite orb_true_r. unfold read_csv. rewrite Hf. cbn [DictReader].
  by rewrite (filter_not_blank 1).
Qed.

Lemma visible_of_flagless rows :
  Forall (fun r : record => length r = 2%nat) rows →
  visible_of (map (row_dict FLAGLESS_FIELDS) rows) = Ok [].
Proof.
  induction 1 as [|r rows Hr _ IH]; [reflexivity|].
  apply flagless_record_shape in Hr as (a & b & ->).
  cbn [map visible_of].
  change (shown_in_list (row_dict FLAGLESS_FIELDS [a; b])) with (Ok false).
  cbn [mbind result_bind]. rewrite IH. reflexivity.
Qed.

Lemma writerows_flagless rows :
  Forall (fun r : record => length r = 2%nat) rows →
  writerows PROGRAM_FIELDS (map (row_dict FLAGLESS_FIELDS) rows)
  = (map (with_flag "") rows, None).
Proof.
  induction 1 as [|r rows Hr _ IH]; [reflexivity|].
  apply flagless_record_shape in Hr as (a & b & ->).
  cbn [map writerows].
  change (dict_to_list PROGRAM_FIELDS (row_dict FLAGLESS_FIELDS [a; b]))
    with (Ok (A := record) [a; b; ""]).
  by rewrite IH.
Qed.

Lemma toggle_loop_flagless rows english_name :
  Forall (fun r : record => length r = 2%nat) rows →
  ∃ programs,
    toggle_loop (map (row_dict FLAGLESS_FIELDS) rows) english_name
    = Ok programs ∧
    writerows PROGRAM_FIELDS programs
    = (toggle_flagless rows english_name, None).
Proof.
  induction 1 as [|r rows Hr Hall (programs & IH & Hw)].
  { by exists []. }
  apply flagless_record_shape in Hr as (a & b & ->).
  cbn [map toggle_loop toggle_flagless key_of hd].
  change (value_eqb (get (row_dict FLAGLESS_FIELDS [a; b]) "EnglishName")
            english_name)
    with (String.eqb a english_name).
  destruct (String.eqb a english_name).
  - change (lower_value
              (get_default (row_dict FLAGLESS_FIELDS [a; b])
                 "ShowInList" "true"))
      with (Ok (lower "true")).
    change (lower "true") with "true".
    cbn [mbind result_bind mret result_ret String.eqb Ascii.eqb].
    eexists. split; [reflexivity|]. cbn [writerows].
    change (dict_to_list PROGRAM_FIELDS
              (setitem (row_dict FLAGLESS_FIELDS [a; b]) "ShowInList" "false"))
      with (Ok (A := record) [a; b; "false"]).
    by rewrite writerows_flagless.
  - rewrite IH. cbn [mbind result_bind mret result_ret].
    eexists. split; [reflexivity|]. cbn [writerows].
    change (dict_to_list PROGRAM_FIELDS (row_dict FLAGLESS_FIELDS [a; b]))
      with (Ok (A := record) [a; b; ""]).
    by rewrite Hw.
Qed.

Lemma toggle_flagless_wf rows english_name :
  Forall (fun r : record => length r = 2%nat) rows →
  programs_wf (toggle_flagless rows english_name).
Proof.
  induction 1 as [|r rows Hr Hall IH]; [constructor|].
  cbn [toggle_flagless]. destruct (String.eqb _ _).
  - constructor; [unfold with_flag; rewrite length_app, Hr; reflexivity|].
    apply Forall_forall. intros r' (r0 & -> & Hr0)%list_elem_of_fmap.
    rewrite Forall_forall in Hall. unfold with_flag.
    rewrite length_app, (Hall r0 Hr0). reflexivity.
  - constructor; [unfold with_flag; rewrite length_app, Hr; reflexivity|].
    exact IH.
Qed.

Lemma with_flag_clean flag (r : record) :
  has_cr flag = false → no_cr r = true → no_cr (with_flag flag r) = true.
Proof.
  intros Hf Hr. unfold no_cr, with_flag in *. rewrite forallb_app, Hr.
  cbn [forallb]. by rewrite Hf.
Qed.

Lemma toggle_flagless_clean rows english_name :
  rows_clean rows → rows_clean (toggle_flagless rows english_name).
Proof.
  induction 1 as [|r rows Hr Hall IH]; [constructor|].
  cbn [toggle_flagless]. destruct (String.eqb _ _).
  - constructor; [by apply with_flag_clean|].
    apply Forall_forall. intros r' (r0 & -> & Hr0)%list_elem_of_fmap.
    rewrite Forall_forall in Hall. apply with_flag_clean; [done|].
    by apply Hall.
  - constructor; [by apply with_flag_clean|exact IH].
Qed.

Lemma first_with_key_flagless rows english_name a b :
  first_with_key rows english_name = Some [a; b] →
  first_with_key (toggle_flagless rows english_name) english_name
  = Some [a; b; "false"].
Proof.
  unfold first_with_key. induction rows as [|r rows IH]; [discriminate|].
  cbn [List.find toggle_flagless].
  destruct (String.eqb (key_of r) english_name) eqn:E.
  - intros [= ->]. cbn [List.find with_flag app key_of hd] in *.
    by rewrite E.
  - intros H. cbn [List.find].
    destruct (String.eqb (key_of (with_flag "" r)) english_name) eqn:E';
      [|by apply IH].
    destruct r as [|k r]; cbn in E, E'; congruence.
Qed.

(** *** A record without visibility field *)

(** The programs read from a registry with the three columns in which a
    record of two fields follows records of three. *)
Lemma get_all_programs_short st before a b after :
  PROGRAMS_DIR ∈ dirs st →
  files st !! SYSTEM_CSV
  = Some (CsvFile (PROGRAM_FIELDS :: before ++ [a; b] :: after)) →
  programs_wf before →
  ∃ rest,
    get_all_programs st
    = (Ok (map program_of before ++ program_of [a; b] :: rest), st).
Proof.
  intros Hd Hf Hwf.
  unfold get_all_programs, ensure_system_csv, path_exists.
  rewrite (bool_decide_eq_true_2 (PROGRAMS_DIR ∈ _)) by done.
  cbn [orb].
  rewrite (bool_decide_eq_true_2 (is_Some _)) by (rewrite Hf; eauto).
  rewrite orb_true_r. unfold read_csv. rewrite Hf. cbn [DictReader].
  rewrite List.filter_app, (filter_not_blank 2) by done.
  cbn [List.filter is_blank negb]. rewrite map_app. cbn [map].
  by eexists.
Qed.

Lemma visible_of_short before a b rest :
  programs_wf before →
  visible_of (map program_of before ++ program_of [a; b] :: rest)
  = Raise AttributeError.
Proof.
  induction 1 as [|r before Hr _ IH].
  - cbn [map app visible_of].
    change (shown_in_list (program_of [a; b])) with (@Raise bool AttributeError).
    reflexivity.
  - apply program_record_shape in Hr as (a' & b' & c' & ->).
    cbn [map app visible_of].
    change (shown_in_list (program_of [a'; b'; c']))
      with (Ok (String.eqb (lower c') "true")).
    cbn [mbind result_bind]. rewrite IH. reflexivity.
Qed.

Lemma toggle_loop_short before a b rest :
  programs_wf before →
  key_present before a = false →
  toggle_loop (map program_of before ++ program_of [a; b] :: rest) a
  = Raise AttributeError.
Proof.
  induction 1 as [|r before Hr _ IH].
  - intros _. cbn [map app toggle_loop].
    change (value_eqb (get (program_of [a; b]) "EnglishName") a)
      with (String.eqb a a).
    rewrite String.eqb_refl.
    change (lower_value (get_default (program_of [a; b]) "ShowInList" "true"))
      with (@Raise string AttributeError).
    reflexivity.
  - apply program_record_shape in Hr as (a' & b' & c' & ->).
    cbn [key_present existsb key_of hd map app toggle_loop].
    change (value_eqb (get (program_of [a'; b'; c']) "EnglishName") a)
      with (String.eqb a' a).
    destruct (String.eqb a' a); [discriminate|].
    cbn [orb]. intros H. rewrite (IH H). reflexivity.
Qed.

(** C10, as amended.  The flag of a program can be missing in two ways
    and be empty.  On a registry file without [ShowInList] column (header
    [EnglishName,ArabicName]) [get_visible_programs] lists no program, and
    [toggle_program] rewrites the registry with the three columns: it
    treats the missing flag of the program it toggles as visible and
    writes ['false'] for it, and it writes the empty string for every
    other program.  On a registry with the three columns, a record of
    the program that stops after the Arabic name has the flag [None]:
    [get_visible_programs] and [toggle_program] both raise
    [AttributeError], and nothing is written.  For a program whose stored
    flag is the empty string the two agree: [get_visible_programs] leaves
    the program out, and [toggle_program] treats the flag as not visible
    and writes ['true']. *)
Theorem absent_and_empty_flag english_name st :
  (∀ rows,
     flagless_rows st = Some rows →
     get_visible_programs st = (Ok [], st) ∧
     ∃ st',
       toggle_program english_name st
       = (Ok (RedirectManagePrograms ProgramStatusUpdated), st') ∧
       registry_rows st' = Some (toggle_flagless rows english_name) ∧
       ∀ a b,
         first_with_key rows english_name = Some [a; b] →
         first_with_key (toggle_flagless rows english_name) english_name
         = Some [a; b; "false"]) ∧
  (∀ before b after,
     PROGRAMS_DIR ∈ dirs st →
     files st !! SYSTEM_CSV
     = Some (CsvFile (PROGRAM_FIELDS :: before ++ [english_name; b] :: after)) →
     programs_wf before →
     key_present before english_name = false →
     get_visible_programs st = (Raise AttributeError, st) ∧
     toggle_program english_name st = (Raise AttributeError, st)) ∧
  (∀ rows a b,
     registry_rows st = Some rows →
     first_with_key rows english_name = Some [a; b; ""] →
     ∃ visible st',
       get_visible_programs st = (Ok visible, st) ∧
       (program_of [a; b; ""] ∉ visible) ∧
       toggle_program english_name st
       = (Ok (RedirectManagePrograms ProgramStatusUpdated), st') ∧
       registry_rows st' = Some (toggle_rows rows english_name) ∧
       first_with_key (toggle_rows rows english_name) english_name
       = Some [a; b; "true"]).
Proof.
  split; [|split].
  - intros rows Hs.
    pose proof (flagless_rows_inv _ _ Hs) as (Hd & Hf & Hwf & Hclean).
    split.
    { unfold get_visible_programs.
      rewrite (get_all_programs_flagless _ _ Hs).
      cbn [mbind result_bind]. by rewrite visible_of_flagless. }
    exists (with_programs (toggle_flagless rows english_name) st).
    split; [|split].
    + unfold toggle_program. rewrite (get_all_programs_flagless _ _ Hs).
      cbn [mbind result_bind].
      destruct (toggle_loop_flagless rows english_name Hwf)
        as (programs & -> & Hw).
      unfold save_programs, write_csv.
      rewrite bool_decide_eq_true_2 by done. rewrite Hw.
      change (as_read (PROGRAM_FIELDS :: toggle_flagless rows english_name))
        with (PROGRAM_FIELDS :: as_read (toggle_flagless rows english_name)).
      rewrite as_read_fixed by (by apply toggle_flagless_clean).
      reflexivity.
    + apply registry_rows_with_programs;
        [done|by apply toggle_flagless_wf|by apply toggle_flagless_clean].
    + intros a b Hfirst. by apply first_with_key_flagless.
  - intros before b after Hd Hf Hwf Habsent.
    destruct (get_all_programs_short st before english_name b after Hd Hf Hwf)
      as [rest Hread].
    split.
    + unfold get_visible_programs. rewrite Hread.
      cbn [mbind result_bind]. by rewrite visible_of_short.
    + unfold toggle_program. rewrite Hread.
      cbn [mbind result_bind]. by rewrite toggle_loop_short.
  - intros rows a b Hs Hfirst.
    pose proof (registry_rows_inv _ _ Hs) as (Hd & Hf & Hwf).
    pose proof (registry_rows_clean _ _ Hs) as Hclean.
    exists (map program_of (List.filter flag_shown rows)),
           (with_programs (toggle_rows rows english_name) st).
    split; [by apply get_visible_programs_rows|]. split.
    { intros (r & Hr & Hin)%list_elem_of_fmap.
      apply list_elem_of_In, filter_In in Hin as [Hin Hshown].
      apply list_elem_of_In in Hin.
      rewrite Forall_forall in Hwf.
      destruct (program_record_shape r (Hwf r Hin)) as (a' & b' & c' & ->).
      assert (Hc : Some "" = Some c').
      { change (get (program_of [a; b; ""]) "ShowInList"
                = get (program_of [a'; b'; c']) "ShowInList").
        by rewrite Hr. }
      injection Hc as <-. cbv in Hshown. discriminate Hshown. }
    split; [by apply toggle_program_registry|].
    split.
    { apply registry_rows_with_programs;
        [done|by apply toggle_rows_wf|by apply toggle_rows_clean]. }
    by rewrite (first_with_key_toggle _ _ _ _ _ Hfirst).
Qed.

(** ** Program keys *)

Lemma append_cons c s1 s2 : String c s1 +:+ s2 = String c (s1 +:+ s2).
Proof. reflexivity. Qed.












(** ** Bulk import *)

Lemma ids_of_users rows :
  users_wf rows → ids_of (map user_of rows) = Ok (stored_ids rows).
Proof.
  induction 1 as [|r rows Hr _ IH]; [reflexivity|].
  apply user_record_shape in Hr as (a & b & c & d & ->).
  cbn [map ids_of].
  change (strip_value (get_default (user_of [a; b; c; d]) "NationalID" ""))
    with (Ok (strip a)).
  cbn [mbind result_bind]. rewrite IH. reflexivity.
Qed.

(** One step of the loop, on the pair a row resolves to. *)
Lemma import_row_resolved acc row :
  import_row acc row
  = let p := resolved row in
    if usable p then
      if bool_decide (p.1 ∉ existing_ids acc) then
        {| existing_users := existing_users acc ++ [user_of (added_record p)];
           existing_ids := {[p.1]} ∪ existing_ids acc;
           imported_count := S (imported_count acc);
           skipped_count := skipped_count acc |}
      else
        {| existing_users := existing_users acc;
           existing_ids := existing_ids acc;
           imported_count := imported_count acc;
           skipped_count := S (skipped_count acc) |}
    else acc.
Proof. reflexivity. Qed.

Lemma size_new_ids_fresh (x : string) (L ids : gset string) :
  x ∉ ids →
  size (({[x]} ∪ L) ∖ ids) = S (size (L ∖ ({[x]} ∪ ids))).
Proof.
  intros Hx.
  replace (({[x]} ∪ L) ∖ ids) with ({[x]} ∪ (L ∖ ({[x]} ∪ ids)))
    by (apply set_eq; intros y; destruct (decide (y = x)); set_solver).
  rewrite size_union by set_solver. by rewrite size_singleton.
Qed.

Lemma size_new_ids_known (x : string) (L ids : gset string) :
  x ∈ ids → ({[x]} ∪ L) ∖ ids = L ∖ ids.
Proof. intros Hx. set_solver. Qed.

Lemma import_fold rows_in acc :
  let acc' := foldl import_row acc rows_in in
  let pairs := List.filter usable (map resolved rows_in) in
  let fresh := size (list_to_set (C := gset string) (map fst pairs)
                     ∖ existing_ids acc) in
  imported_count acc' = imported_count acc + fresh ∧
  imported_count acc' + skipped_count acc'
  = imported_count acc + skipped_count acc + length pairs ∧
  ∃ added,
    existing_users acc' = existing_users acc ++ map user_of added ∧
    length added = fresh ∧
    Forall (fun r => ∃ id name, r = [id; name; "false"; ""]) added.
Proof.
  revert acc. induction rows_in as [|row rows_in IH]; intros acc.
  - cbn [foldl map List.filter fst length]. cbn zeta.
    assert (size (list_to_set (C := gset string) [] ∖ existing_ids acc) = 0)
      as -> by (apply size_empty_iff; set_solver).
    split; [lia|]. split; [lia|]. exists []. by rewrite app_nil_r.
  - cbn [foldl map List.filter]. cbn zeta.
    rewrite import_row_resolved. cbn zeta.
    destruct (usable (resolved row)) eqn:Hus.
    + cbn [map fst length]. rewrite list_to_set_cons.
      case_bool_decide as Hin.
      * destruct (IH {| existing_users :=
                          existing_users acc
                          ++ [user_of (added_record (resolved row))];
                        existing_ids := {[(resolved row).1]} ∪ existing_ids acc;
                        imported_count := S (imported_count acc);
                        skipped_count := skipped_count acc |})
          as (Hi & Hs & added & Hu & Hl & Hshape).
        cbn [imported_count skipped_count existing_users existing_ids] in *.
        rewrite size_new_ids_fresh by done.
        split; [lia|]. split; [lia|].
        exists (added_record (resolved row) :: added).
        split; [by rewrite Hu, <- app_assoc|].
        split; [cbn [length]; by rewrite Hl|].
        constructor; [|done]. unfold added_record. eauto.
      * destruct (IH {| existing_users := existing_users acc;
                        existing_ids := existing_ids acc;
                        imported_count := imported_count acc;
                        skipped_count := S (skipped_count acc) |})
          as (Hi & Hs & added & Hu & Hl & Hshape).
        cbn [imported_count skipped_count existing_users existing_ids] in *.
        rewrite size_new_ids_known
          by (destruct (decide ((resolved row).1 ∈ existing_ids acc));
              [assumption | contradiction]).
        split; [lia|]. split; [lia|]. by exists added.
    + apply IH.
Qed.

Lemma new_or_known_length ids (pairs : list (string * string)) :
  length (List.filter (is_new ids) pairs)
  + length (List.filter (is_known ids) pairs) = length pairs.
Proof.
  induction pairs as [|p pairs IH]; [reflexivity|].
  cbn [List.filter]. unfold is_new at 1, is_known at 1.
  destruct (decide (p.1 ∈ ids)) as [Hin|Hin].
  - rewrite bool_decide_eq_false_2 by (intros H; by apply H).
    rewrite bool_decide_eq_true_2 by done. cbn [length]. lia.
  - rewrite bool_decide_eq_true_2 by done.
    rewrite bool_decide_eq_false_2 by done. cbn [length]. lia.
Qed.

Lemma new_ids_as_set ids (pairs : list (string * string)) :
  list_to_set (C := gset string) (map fst pairs) ∖ ids
  = list_to_set (map fst (List.filter (is_new ids) pairs)).
Proof.
  induction pairs as [|p pairs IH]; [set_solver|].
  cbn [map List.filter]. unfold is_new at 1.
  rewrite list_to_set_cons. case_bool_decide as Hin.
  - cbn [map]. rewrite list_to_set_cons, <- IH. set_solver.
  - rewrite <- IH.
    assert (p.1 ∈ ids)
      by (destruct (decide (p.1 ∈ ids)); [assumption | contradiction]).
    set_solver.
Qed.

Lemma size_list_to_set_le (l : list string) :
  (size (list_to_set (C := gset string) l) ≤ length l)%nat.
Proof.
  induction l as [|x l IH]; [by rewrite list_to_set_nil, size_empty|].
  rewrite list_to_set_cons, size_union_alt, size_singleton. cbn [length].
  assert (size (list_to_set (C := gset string) l ∖ {[x]})
          ≤ size (list_to_set (C := gset string) l))%nat
    by (apply subseteq_size; set_solver).
  lia.
Qed.

Lemma distinct_new_le rows t : (distinct_new rows t ≤ rows_new rows t)%nat.
Proof.
  unfold distinct_new, rows_new. rewrite new_ids_as_set.
  etrans; [apply size_list_to_set_le|]. by rewrite length_map.
Qed.

Lemma distinct_new_nodup rows t :
  NoDup (map fst (List.filter (is_new (stored_ids rows)) (usable_rows t))) →
  distinct_new rows t = rows_new rows t.
Proof.
  intros Hnd. unfold distinct_new, rows_new. rewrite new_ids_as_set.
  rewrite size_list_to_set by done. by rewrite length_map.
Qed.

Lemma usable_rows_split rows t :
  rows_new rows t + rows_colliding rows t = length (usable_rows t).
Proof. apply new_or_known_length. Qed.

Lemma relabel_map a1 a2 h : relabel a1 a2 h = map (relabel_column a1 a2) h.
Proof. reflexivity. Qed.

Section Renaming.
Variable f : string → string.

Lemma dict_zip_renamed h r (m m' : gmap string value) k :
  (∀ c, c ∈ h → f c = f k → c = k) →
  m' !! f k = m !! k →
  dict_zip (map f h) r m' !! f k = dict_zip h r m !! k.
Proof.
  revert r m m'. induction h as [|c h IH]; intros r m m' Hinj Hm; [done|].
  destruct r as [|v r]; [done|]. cbn [map dict_zip].
  apply IH; [intros c' Hc'; apply Hinj; by right|].
  destruct (decide (c = k)) as [->|Hne].
  - by rewrite !lookup_insert_eq.
  - rewrite !lookup_insert_ne; [done|done|].
    intros Hf. apply Hne, Hinj; [by left|done].
Qed.

Lemma fill_none_renamed keys (m m' : gmap string value) k :
  (∀ c, c ∈ keys → f c = f k → c = k) →
  m' !! f k = m !! k →
  fill_none (map f keys) m' !! f k = fill_none keys m !! k.
Proof.
  unfold fill_none. revert m m'.
  induction keys as [|c keys IH]; intros m m' Hinj Hm; [done|].
  cbn [map foldl]. apply IH; [intros c' Hc'; apply Hinj; by right|].
  destruct (decide (c = k)) as [->|Hne].
  - by rewrite !lookup_insert_eq.
  - rewrite !lookup_insert_ne; [done|done|].
    intros Hf. apply Hne, Hinj; [by left|done].
Qed.

Lemma get_row_dict_renamed h r k :
  (∀ c, c ∈ h → f c = f k → c = k) →
  get (row_dict (map f h) r) (f k) = get (row_dict h r) k.
Proof.
  intros Hinj. unfold get, row_dict. rewrite length_map.
  assert (Hz : dict_zip (map f h) r ∅ !! f k = dict_zip h r ∅ !! k)
    by (by apply dict_zip_renamed).
  destruct (length h <? length r)%nat; cbn [fields]; [by rewrite Hz|].
  destruct (length r <? length h)%nat; cbn [fields]; [|by rewrite Hz].
  rewrite List.skipn_map.
  rewrite (fill_none_renamed _ (dict_zip h r ∅)); [done| |done].
  intros c Hc. apply Hinj. by eapply subseteq_drop.
Qed.
End Renaming.

Lemma dict_zip_other h r (m : gmap string value) k :
  k ∉ h → dict_zip h r m !! k = m !! k.
Proof.
  revert r m. induction h as [|c h IH]; intros r m Hk; [done|].
  destruct r as [|v r]; [done|]. cbn [dict_zip].
  rewrite IH by set_solver. apply lookup_insert_ne. set_solver.
Qed.

Lemma fill_none_other keys (m : gmap string value) k :
  k ∉ keys → fill_none keys m !! k = m !! k.
Proof.
  unfold fill_none. revert m.
  induction keys as [|c keys IH]; intros m Hk; [done|].
  cbn [foldl]. rewrite IH by set_solver. apply lookup_insert_ne. set_solver.
Qed.

Lemma get_row_dict_other h r k : k ∉ h → get (row_dict h r) k = None.
Proof.
  intros Hk. unfold get, row_dict.
  assert (Hz : dict_zip h r ∅ !! k = None)
    by (by rewrite dict_zip_other).
  destruct (length h <? length r)%nat; cbn [fields]; [by rewrite Hz|].
  destruct (length r <? length h)%nat; cbn [fields]; [|by rewrite Hz].
  rewrite fill_none_other; [by rewrite Hz|].
  intros Hin. apply Hk. by eapply subseteq_drop.
Qed.

Lemma or_value_idem v w : or_value v (or_value v w) = or_value v w.
Proof. unfold or_value. by destruct (truthy v). Qed.

Lemma probe_none d G :
  (∀ a, a ∈ G → get d a = None) → probe d G = Some "".
Proof.
  induction G as [|a G IH]; intros Hget; [reflexivity|].
  cbn [probe foldr]. rewrite (Hget a) by (by left).
  cbn. apply IH. intros a' Ha'. apply Hget. by right.
Qed.

Lemma probe_single d G a1 v :
  a1 ∈ G →
  (∀ a, a ∈ G → get d a = if String.eqb a a1 then v else None) →
  probe d G = or_value v (Some "").
Proof.
  induction G as [|a G IH]; intros Hin Hget; [by apply elem_of_nil in Hin|].
  assert (Hrest : ∀ a', a' ∈ G →
            get d a' = if String.eqb a' a1 then v else None)
    by (intros a' Ha'; apply Hget; by right).
  change (probe d (a :: G)) with (or_value (get d a) (probe d G)).
  rewrite (Hget a) by (by left).
  destruct (String.eqb a a1) eqn:E.
  - destruct (decide (a1 ∈ G)) as [Hin'|Hout].
    + rewrite IH by done. apply or_value_idem.
    + rewrite probe_none; [done|].
      intros a' Ha'. rewrite Hrest by done.
      destruct (String.eqb a' a1) eqn:E'; [|done].
      apply String.eqb_eq in E' as ->. contradiction.
  - apply elem_of_cons in Hin as [->|Hin'].
    + by rewrite String.eqb_refl in E.
    + cbn. by apply IH.
Qed.

Section Relabel.
Variables (f : string → string) (G : list string) (K K' a1 a2 : string).
Hypothesis f_K : f K = a1.
Hypothesis f_K' : f K' = a2.
Hypothesis f_other : ∀ c, c ≠ K → c ≠ K' → f c = c.
Hypothesis a1_in : a1 ∈ G.
Hypothesis K_in : K ∈ G.
Hypothesis a2_out : a2 ∉ G.
Variable h : list string.
Hypothesis h_canonical : ∀ c, c ∈ h → c ∈ G → c = K.

Lemma get_renamed r a :
  a ∈ G →
  get (row_dict (map f h) r) a
  = if String.eqb a a1 then get (row_dict h r) K else None.
Proof.
  intros Ha. destruct (String.eqb a a1) eqn:E.
  - apply String.eqb_eq in E as ->. rewrite <- f_K.
    apply get_row_dict_renamed. intros c Hc Hf. rewrite f_K in Hf.
    destruct (decide (c = K)) as [|HK]; [done|].
    destruct (decide (c = K')) as [->|HK'].
    + rewrite f_K' in Hf. exfalso. apply a2_out. rewrite Hf. exact a1_in.
    + rewrite f_other in Hf by done. apply h_canonical; [done|].
      rewrite Hf. exact a1_in.
  - apply get_row_dict_other. intros (c & -> & Hc)%list_elem_of_fmap.
    destruct (decide (c = K)) as [->|HK].
    + rewrite f_K in E. by rewrite String.eqb_refl in E.
    + destruct (decide (c = K')) as [->|HK'].
      * rewrite f_K' in Ha. contradiction.
      * rewrite f_other in Ha by done. by apply HK, h_canonical.
Qed.

Lemma get_original r a :
  a ∈ G →
  get (row_dict h r) a
  = if String.eqb a K then get (row_dict h r) K else None.
Proof.
  intros Ha. destruct (String.eqb a K) eqn:E.
  - by apply String.eqb_eq in E as ->.
  - apply get_row_dict_other. intros Hin.
    rewrite (h_canonical a) in E by done. by rewrite String.eqb_refl in E.
Qed.

Lemma probe_relabel r :
  probe (row_dict (map f h) r) G = probe (row_dict h r) G.
Proof.
  rewrite (probe_single _ G a1 (get (row_dict h r) K))
    by (done || apply get_renamed).
  rewrite (probe_single _ G K (get (row_dict h r) K))
    by (done || apply get_original).
  reflexivity.
Qed.
End Relabel.

Lemma aliases_disjoint a : a ∈ ID_ALIASES → a ∈ NAME_ALIASES → False.
Proof.
  assert (H : Forall (fun a => a ∉ NAME_ALIASES) ID_ALIASES)
    by (apply (bool_decide_unpack _); by vm_compute).
  rewrite Forall_forall in H. intros Hid Hname. by apply (H a).
Qed.

Lemma canonical_header_inv h c :
  canonical_header h = true → c ∈ h →
  (c ∈ ID_ALIASES → c = "NationalID") ∧ (c ∈ NAME_ALIASES → c = "FullName").
Proof.
  unfold canonical_header. rewrite forallb_forall.
  intros Hall Hc%list_elem_of_In. specialize (Hall c Hc).
  apply andb_prop in Hall as [H1 H2]. split; intros Hin.
  - rewrite bool_decide_eq_true_2 in H1 by done. by apply String.eqb_eq.
  - rewrite bool_decide_eq_true_2 in H2 by done. by apply String.eqb_eq.
Qed.

Lemma relabel_column_other a1 a2 c :
  c ≠ "NationalID" → c ≠ "FullName" → relabel_column a1 a2 c = c.
Proof.
  intros H1%String.eqb_neq H2%String.eqb_neq. unfold relabel_column.
  by rewrite H1, H2.
Qed.

Lemma canonical_in_aliases :
  "NationalID" ∈ ID_ALIASES ∧ "FullName" ∈ NAME_ALIASES.
Proof. repeat split; apply (bool_decide_unpack _); by vm_compute. Qed.

Lemma resolved_relabel a1 a2 h r :
  a1 ∈ ID_ALIASES → a2 ∈ NAME_ALIASES → canonical_header h = true →
  resolved (row_dict (relabel a1 a2 h) r) = resolved (row_dict h r).
Proof.
  intros Ha1 Ha2 Hcan. unfold resolved. rewrite relabel_map.
  destruct canonical_in_aliases as (HN & HF).
  assert (Hout1 : a2 ∉ ID_ALIASES)
    by (intros Hin; exact (aliases_disjoint a2 Hin Ha2)).
  assert (Hout2 : a1 ∉ NAME_ALIASES)
    by (intros Hin; exact (aliases_disjoint a1 Ha1 Hin)).
  assert (Hother : ∀ c, c ≠ "FullName" → c ≠ "NationalID" →
                     relabel_column a1 a2 c = c)
    by (intros c H1 H2; by apply relabel_column_other).
  rewrite (probe_relabel (relabel_column a1 a2) ID_ALIASES
             "NationalID" "FullName" a1 a2 eq_refl eq_refl
             (relabel_column_other a1 a2) Ha1 HN Hout1 h
             (fun c Hc => proj1 (canonical_header_inv h c Hcan Hc))).
  rewrite (probe_relabel (relabel_column a1 a2) NAME_ALIASES
             "FullName" "NationalID" a2 a1 eq_refl eq_refl
             Hother Ha2 HF Hout2 h
             (fun c Hc => proj2 (canonical_header_inv h c Hcan Hc))).
  reflexivity.
Qed.

Lemma import_pairs acc rows_in rows_in' :
  map resolved rows_in = map resolved rows_in' →
  foldl import_row acc rows_in = foldl import_row acc rows_in'.
Proof.
  revert acc rows_in'.
  induction rows_in as [|row rows_in IH]; intros acc [|row' rows_in'];
    try discriminate; [done|].
  cbn [map foldl]. intros Heq.
  assert (Hrow : resolved row = resolved row') by congruence.
  assert (Hrest : map resolved rows_in = map resolved rows_in')
    by congruence.
  rewrite (import_row_resolved acc row), (import_row_resolved acc row').
  rewrite Hrow. by apply IH.
Qed.

Section ImportTheorems.
Variable bytes : Type.
Variable decode_utf8_sig : bytes → option string.
Variable decode_utf8 : bytes → option string.
Variable decode_latin1 : bytes → string.
Variable csv_reader : list string → table * option exn.

Local Abbreviation import :=
  (import_users_from_csv bytes decode_utf8_sig decode_utf8 decode_latin1
     csv_reader).
Local Abbreviation lines_of file_content :=
  (upload_lines bytes decode_utf8_sig decode_utf8 decode_latin1 file_content).

(** C9.  When the tokenizer raises on the uploaded file,
    [import_users_from_csv] returns the file system it received, whatever
    the state of the store: nothing is written.  On a store with the four
    member columns it answers [(False, 'import failed: ...')]. *)
Theorem import_error_keeps_file program_name file_content st t e :
  csv_reader (lines_of file_content) = (t, Some e) →
  (import program_name file_content st).2 = st ∧
  (is_Some (store_rows program_name st) →
   (import program_name file_content st).1 = Ok (false, ImportFailed e)).
Proof.
  intros Hparse. unfold import_users_from_csv. split.
  - destruct (read_users program_name st ≫= _) as [[users ids]|e']; [|done].
    by rewrite Hparse.
  - intros [rows Hs]. rewrite (read_users_store _ _ _ Hs).
    apply store_rows_inv in Hs as (_ & _ & Hwf).
    cbn [mbind result_bind]. rewrite ids_of_users by done.
    cbn [mbind result_bind mret result_ret]. by rewrite Hparse.
Qed.

(** C2, as amended.  When the upload parses, [import_users_from_csv]
    reports as imported the number of distinct new identities among the
    usable rows, and as skipped the usable rows whose identity is in the
    store plus the repetitions of a new identity; the store then holds the
    original records followed by one record per imported identity, each
    with [HasReceived = 'false'] and an empty [DateReceived].  When no
    new identity is repeated in the upload, the imported count is the
    number of new rows and the skipped count the number of colliding
    rows. *)
Theorem import_counts program_name file_content st rows t :
  store_rows program_name st = Some rows →
  csv_reader (lines_of file_content) = (t, None) →
  ∃ st' added,
    import program_name file_content st
    = (Ok (true,
           UsersImported
             (distinct_new rows t)
             (rows_colliding rows t + (rows_new rows t - distinct_new rows t))),
       st') ∧
    store_rows program_name st' = Some (rows ++ added) ∧
    length added = distinct_new rows t ∧
    Forall (fun r => ∃ id name, r = [id; name; "false"; ""]) added ∧
    (NoDup (map fst (List.filter (is_new (stored_ids rows)) (usable_rows t))) →
     distinct_new rows t = rows_new rows t ∧
     rows_colliding rows t + (rows_new rows t - distinct_new rows t)
     = rows_colliding rows t).
Proof.
  intros Hs Hparse.
  pose proof (store_rows_inv _ _ _ Hs) as (Hd & Hf & Hwf).
  destruct (import_fold (DictReader t)
              {| existing_users := map user_of rows;
                 existing_ids := stored_ids rows;
                 imported_count := 0; skipped_count := 0 |})
    as (Hi & Hsk & added & Hu & Hl & Hshape).
  cbn [imported_count skipped_count existing_users existing_ids] in *.
  fold (usable_rows t) in Hi, Hsk, Hl.
  fold (distinct_new rows t) in Hi, Hl.
  pose proof (distinct_new_le rows t) as Hle.
  pose proof (usable_rows_split rows t) as Hsplit.
  pose proof (store_rows_clean _ _ _ Hs) as Hclean.
  assert (Hwf' : users_wf (rows ++ added)).
  { apply Forall_app. split; [done|].
    eapply Forall_impl; [exact Hshape|]. by intros r (a & b & ->). }
  assert (Hread : as_read (rows ++ added) = rows ++ as_read added).
  { by rewrite as_read_app, as_read_fixed. }
  exists (with_users program_name (rows ++ as_read added) st), (as_read added).
  split; [|split].
  - unfold import_users_from_csv. rewrite (read_users_store _ _ _ Hs).
    cbn [mbind result_bind]. rewrite ids_of_users by done.
    cbn [mbind result_bind mret result_ret]. rewrite Hparse.
    rewrite Hu, <- map_app. rewrite write_users_as_read, Hread by done.
    do 3 f_equal. f_equal; lia.
  - rewrite <- Hread. apply store_rows_with_users;
      [done|by apply as_read_length|apply as_read_clean].
  - split; [unfold as_read; by rewrite length_map|]. split.
    { apply Forall_forall. intros r (r0 & -> & Hr0)%list_elem_of_fmap.
      rewrite Forall_forall in Hshape.
      destruct (Hshape r0 Hr0) as (a & b & ->). cbn [map]. eauto. }
    intros Hnd.
    rewrite (distinct_new_nodup rows t Hnd). split; [done|lia].
Qed.
(** C7.  An upload whose header uses the canonical columns [NationalID]
    and [FullName], and the upload with the same records whose header has
    these two columns renamed to any identity alias and any name alias
    (Arabic ones included), give the same answer and the same resulting
    file system, whatever the initial state. *)
Theorem import_header_alias program_name st english aliased
    (id_alias name_alias : string) (h : list string) (records : list record)
    (err : option exn) :
  id_alias ∈ ID_ALIASES →
  name_alias ∈ NAME_ALIASES →
  canonical_header h = true →
  csv_reader (lines_of english) = (h :: records, err) →
  csv_reader (lines_of aliased)
  = (relabel id_alias name_alias h :: records, err) →
  import program_name aliased st = import program_name english st.
Proof.
  intros Ha1 Ha2 Hcan Hen Hal. unfold import_users_from_csv.
  destruct (read_users program_name st ≫= _) as [[users ids]|e]; [|done].
  rewrite Hen, Hal.
  rewrite (import_pairs _ (DictReader (relabel id_alias name_alias h :: records))
             (DictReader (h :: records))); [done|].
  cbn [DictReader]. rewrite !map_map. apply map_ext.
  intros r. by apply resolved_relabel.
Qed.
End ImportTheorems.

(** ** Receipts *)


Section ReceiptTheorems.
Variable ARABIC_FONT : string.
Variable reshape_display : string → option string.
Variable b64decode : string → option string.
Variable flatten_png : string → option string.

Local Abbreviation generate :=
  (generate_pdf ARABIC_FONT reshape_display b64decode flatten_png).
Local Abbreviation region_of signature_data :=
  (signature_ops reshape_display b64decode flatten_png signature_data).


End ReceiptTheorems.

(** * The properties on the sample data *)

(** The store of the sample holds Sara Ali; adding her ID again, with
    blanks around it, is refused. *)
Lemma add_existing_id_rejected_witness :
  store_rows "books" sample_fs
  = Some [["100200300"; "Sara Ali"; "false"; ""]] ∧
  id_present [["100200300"; "Sara Ali"; "false"; ""]] " 100200300 " = true ∧
  add_user_to_program "books" " 100200300 " "Sara A." sample_fs
  = (Ok (false, NationalIdExists), sample_fs).
Proof.
  split; [vm_compute; reflexivity|]. split; [reflexivity|].
  apply (add_existing_id_rejected "books" " 100200300 " "Sara A." sample_fs
           [["100200300"; "Sara Ali"; "false"; ""]]);
    vm_compute; reflexivity.
Defined.



(** Sara Ali is marked twice, one second apart. *)
Lemma mark_received_stamps_witness :
  store_rows "books" sample_fs
  = Some [["100200300"; "Sara Ali"; "false"; ""]] ∧
  valid_datetime sample_time = true ∧
  valid_datetime sample_time_later = true ∧
  earlier sample_time sample_time_later = true ∧
  ∃ st1 st2 user1 user2,
    update_user_received "books" "100200300" sample_time sample_fs
    = (Ok (), st1) ∧
    find_user "books" "100200300" st1 = Ok (Some user1) ∧
    get user1 "HasReceived" = Some "true" ∧
    get user1 "DateReceived" = Some "2024-03-09 14:05:59" ∧
    is_timestamp "2024-03-09 14:05:59" = true ∧
    update_user_received "books" "100200300" sample_time_later st1
    = (Ok (), st2) ∧
    find_user "books" "100200300" st2 = Ok (Some user2) ∧
    get user2 "HasReceived" = Some "true" ∧
    get user2 "DateReceived" = Some "2024-03-09 14:06:00" ∧
    is_timestamp "2024-03-09 14:06:00" = true ∧
    ("2024-03-09 14:05:59" <? "2024-03-09 14:06:00")%string = true.
Proof.
  split; [vm_compute; reflexivity|].
  do 3 (split; [reflexivity|]).
  exact (mark_received_stamps "books" "100200300" sample_time
           sample_time_later sample_fs
           [["100200300"; "Sara Ali"; "false"; ""]]
           eq_refl eq_refl eq_refl).
Defined.

(** C4, counterexample: Sara Ali is marked twice within one second.  The
    second call stores the stamp the first one stored: the date has not
    been overwritten with a later timestamp. *)
Lemma mark_twice_same_second :
  let st1 :=
    (update_user_received "books" "100200300" sample_time sample_fs).2 in
  let st2 := (update_user_received "books" "100200300" sample_time st1).2 in
  let date_received st :=
    match find_user "books" "100200300" st with
    | Ok (Some user) => get user "DateReceived"
    | _ => None
    end in
  (update_user_received "books" "100200300" sample_time sample_fs).1 = Ok () ∧
  date_received st1 = Some "2024-03-09 14:05:59" ∧
  (update_user_received "books" "100200300" sample_time st1).1 = Ok () ∧
  date_received st2 = Some "2024-03-09 14:05:59" ∧
  ("2024-03-09 14:05:59" <? "2024-03-09 14:05:59")%string = false.
Proof.
  intros st1 st2 date_received.
  split; [vm_compute; reflexivity|]. split; [vm_compute; reflexivity|].
  split; [vm_compute; reflexivity|]. split; vm_compute; reflexivity.
Qed.

(** The visible program of the sample is hidden, then shown again. *)
Lemma toggle_twice_restores_witness :
  registry_rows sample_fs = Some [["books"; "الكتب"; "true"]] ∧
  ∃ st1 st2 rows1 rows2,
    toggle_program "books" sample_fs
    = (Ok (RedirectManagePrograms ProgramStatusUpdated), st1) ∧
    registry_rows st1 = Some rows1 ∧
    visibility rows1 "books" = Some false ∧
    toggle_program "books" st1
    = (Ok (RedirectManagePrograms ProgramStatusUpdated), st2) ∧
    registry_rows st2 = Some rows2 ∧
    visibility rows2 "books" = Some true ∧
    map (take 2) rows2 = [["books"; "الكتب"]] ∧
    map record_visible rows2 = [Ok true].
Proof.
  split; [vm_compute; reflexivity|].
  exact (toggle_twice_restores "books" sample_fs
           [["books"; "الكتب"; "true"]] eq_refl).
Defined.

(** A registry without the [ShowInList] column, one whose only program
    stops after the Arabic name, and one whose only program has an empty
    flag. *)
Lemma absent_and_empty_flag_witness :
  flagless_rows flagless_fs = Some [["books"; "الكتب"]] ∧
  first_with_key [["books"; "الكتب"]] "books" = Some ["books"; "الكتب"] ∧
  get_visible_programs flagless_fs = (Ok [], flagless_fs) ∧
  (∃ st',
     toggle_program "books" flagless_fs
     = (Ok (RedirectManagePrograms ProgramStatusUpdated), st') ∧
     registry_rows st' = Some [["books"; "الكتب"; "false"]]) ∧
  PROGRAMS_DIR ∈ dirs short_record_fs ∧
  files short_record_fs !! SYSTEM_CSV
  = Some (CsvFile [PROGRAM_FIELDS; ["books"; "الكتب"]]) ∧
  get_visible_programs short_record_fs
  = (Raise AttributeError, short_record_fs) ∧
  toggle_program "books" short_record_fs
  = (Raise AttributeError, short_record_fs) ∧
  registry_rows empty_flag_fs = Some [["books"; "الكتب"; ""]] ∧
  first_with_key [["books"; "الكتب"; ""]] "books"
  = Some ["books"; "الكتب"; ""] ∧
  ∃ visible st',
    get_visible_programs empty_flag_fs = (Ok visible, empty_flag_fs) ∧
    (program_of ["books"; "الكتب"; ""] ∉ visible) ∧
    toggle_program "books" empty_flag_fs
    = (Ok (RedirectManagePrograms ProgramStatusUpdated), st') ∧
    registry_rows st' = Some [["books"; "الكتب"; "true"]].
Proof.
  assert (H1 : flagless_rows flagless_fs = Some [["books"; "الكتب"]])
    by (vm_compute; reflexivity).
  assert (H2 : registry_rows empty_flag_fs = Some [["books"; "الكتب"; ""]])
    by (vm_compute; reflexivity).
  assert (H3 : PROGRAMS_DIR ∈ dirs short_record_fs)
    by (apply (bool_decide_unpack _); vm_compute; exact I).
  assert (H4 : files short_record_fs !! SYSTEM_CSV
               = Some (CsvFile [PROGRAM_FIELDS; ["books"; "الكتب"]]))
    by (vm_compute; reflexivity).
  split; [exact H1|]. split; [reflexivity|].
  destruct (absent_and_empty_flag "books" flagless_fs) as (Hmissing & _ & _).
  destruct (Hmissing _ H1) as (Hvisible & st' & Htoggle & Hrows & _).
  split; [exact Hvisible|]. split; [by exists st'|].
  split; [exact H3|]. split; [exact H4|].
  destruct (absent_and_empty_flag "books" short_record_fs) as (_ & Hshort & _).
  destruct (Hshort [] "الكتب" [] H3 H4 (List.Forall_nil _) eq_refl)
    as [Hlist Htog].
  split; [exact Hlist|]. split; [exact Htog|].
  split; [exact H2|]. split; [reflexivity|].
  destruct (absent_and_empty_flag "books" empty_flag_fs) as (_ & _ & Hempty).
  destruct (Hempty _ "books" "الكتب" H2 eq_refl)
    as (visible & st'' & Hv & Hout & Ht & Hr & _).
  by exists visible, st''.
Defined.

(** An upload with old Macintosh line ends: the tokenizer raises. *)
Lemma import_error_keeps_file_witness :
  let upload := "NationalID,FullName" +:+ String CR "1,A" in
  plain_csv_reader
    (upload_lines string utf8_plain utf8_plain latin1_plain upload)
  = ([], Some CsvError) ∧
  (sample_import "books" upload sample_fs).2 = sample_fs ∧
  (sample_import "books" upload sample_fs).1
  = Ok (false, ImportFailed CsvError).
Proof.
  intros upload. split; [reflexivity|].
  destruct (import_error_keeps_file string utf8_plain utf8_plain latin1_plain
              plain_csv_reader "books" upload sample_fs [] CsvError)
    as [Hstate Hanswer]; [reflexivity|].
  split; [exact Hstate|]. apply Hanswer. vm_compute. eauto.
Defined.

(** An upload with one member of the store, two new members and a row
    without identity. *)
Lemma import_counts_witness :
  let t := [["NationalID"; "FullName"]; ["100200300"; "Sara Ali"];
            ["200300400"; "Omar Said"]; ["300400500"; "Huda Nasser"];
            [""; "Nobody"]] in
  store_rows "books" sample_fs
  = Some [["100200300"; "Sara Ali"; "false"; ""]] ∧
  plain_csv_reader
    (upload_lines string utf8_plain utf8_plain latin1_plain
       new_and_known_upload) = (t, None) ∧
  ∃ st' added,
    sample_import "books" new_and_known_upload sample_fs
    = (Ok (true, UsersImported 2 1), st') ∧
    store_rows "books" st'
    = Some ([["100200300"; "Sara Ali"; "false"; ""]] ++ added) ∧
    length added = 2%nat ∧
    Forall (fun r => ∃ id name, r = [id; name; "false"; ""]) added.
Proof.
  intros t. split; [vm_compute; reflexivity|]. split; [vm_compute; reflexivity|].
  destruct (import_counts string utf8_plain utf8_plain latin1_plain
              plain_csv_reader "books" new_and_known_upload sample_fs
              [["100200300"; "Sara Ali"; "false"; ""]] t)
    as (st' & added & Hr & Hs & Hl & Hshape & _);
    [vm_compute; reflexivity | vm_compute; reflexivity |].
  exists st', added. repeat split; assumption.
Defined.

(** The same record under the English and under the Arabic header. *)
Lemma import_header_alias_witness :
  "رقم الهوية" ∈ ID_ALIASES ∧ "الاسم" ∈ NAME_ALIASES ∧
  canonical_header ["NationalID"; "FullName"] = true ∧
  plain_csv_reader
    (upload_lines string utf8_plain utf8_plain latin1_plain english_upload)
  = (["NationalID"; "FullName"] :: [["200300400"; "Omar Said"]], None) ∧
  plain_csv_reader
    (upload_lines string utf8_plain utf8_plain latin1_plain arabic_upload)
  = (relabel "رقم الهوية" "الاسم" ["NationalID"; "FullName"]
       :: [["200300400"; "Omar Said"]], None) ∧
  sample_import "books" arabic_upload sample_fs
  = sample_import "books" english_upload sample_fs.
Proof.
  assert (H1 : "رقم الهوية" ∈ ID_ALIASES)
    by (apply (bool_decide_unpack _); vm_compute; exact I).
  assert (H2 : "الاسم" ∈ NAME_ALIASES)
    by (apply (bool_decide_unpack _); vm_compute; exact I).
  split; [exact H1|]. split; [exact H2|]. split; [reflexivity|].
  split; [vm_compute; reflexivity|]. split; [vm_compute; reflexivity|].
  apply (import_header_alias string utf8_plain utf8_plain latin1_plain
           plain_csv_reader "books" sample_fs english_upload arabic_upload
           "رقم الهوية" "الاسم" ["NationalID"; "FullName"]
           [["200300400"; "Omar Said"]] None H1 H2);
    vm_compute; reflexivity.
Defined.



(** C2, counterexample: an upload with two usable rows that carry the same
    identity, new to the store.  The specification counts two new rows and
    no colliding row; the code reports one imported and one skipped, and
    the store grows by one record. *)
Lemma import_repeated_identity :
  let rows := [["100200300"; "Sara Ali"; "false"; ""]] in
  let t := [["NationalID"; "FullName"]; ["200300400"; "Omar Said"];
            ["200300400"; "Omar S."]] in
  store_rows "books" sample_fs = Some rows ∧
  plain_csv_reader
    (upload_lines string utf8_plain utf8_plain latin1_plain
       repeated_id_upload) = (t, None) ∧
  rows_new rows t = 2%nat ∧
  rows_colliding rows t = 0%nat ∧
  (sample_import "books" repeated_id_upload sample_fs).1
  = Ok (true, UsersImported 1 1) ∧
  (sample_import "books" repeated_id_upload sample_fs).1
  ≠ Ok (true, UsersImported (rows_new rows t) (rows_colliding rows t)) ∧
  store_rows "books" (sample_import "books" repeated_id_upload sample_fs).2
  = Some (rows ++ [["200300400"; "Omar Said"; "false"; ""]]).
Proof.
  intros rows t.
  split; [vm_compute; reflexivity|]. split; [vm_compute; reflexivity|].
  split; [vm_compute; reflexivity|]. split; [vm_compute; reflexivity|].
  split; [vm_compute; reflexivity|].
  split; [|vm_compute; reflexivity].
  vm_compute. discriminate.
Qed.

(** C10, counterexample: a registry row whose [ShowInList] field is
    empty.  [get_visible_programs] leaves the program out, and
    [toggle_program] treats the flag as not visible too: it writes
    ['true'], not ['false']. *)
Lemma toggle_empty_flag_writes_true :
  registry_rows empty_flag_fs = Some [["books"; "الكتب"; ""]] ∧
  (get_visible_programs empty_flag_fs).1 = Ok [] ∧
  (toggle_program "books" empty_flag_fs).1
  = Ok (RedirectManagePrograms ProgramStatusUpdated) ∧
  registry_rows (toggle_program "books" empty_flag_fs).2
  = Some [["books"; "الكتب"; "true"]] ∧
  registry_rows (toggle_program "books" empty_flag_fs).2
  ≠ Some [["books"; "الكتب"; "false"]].
Proof.
  split; [vm_compute; reflexivity|]. split; [vm_compute; reflexivity|].
  split; [vm_compute; reflexivity|]. split; [vm_compute; reflexivity|].
  vm_compute. discriminate.
Qed.


(** * Further properties *)

(** ** Paths *)

Lemma append_assoc s1 s2 s3 : (s1 +:+ s2) +:+ s3 = s1 +:+ s2 +:+ s3.
Proof.
  induction s1 as [|c s1 IH]; [reflexivity|]. by rewrite !append_cons, IH.
Qed.

Lemma last_char_append s1 s2 :
  s2 ≠ "" → last_char (s1 +:+ s2) = last_char s2.
Proof.
  intros Hne. induction s1 as [|c s1 IH]; [reflexivity|].
  rewrite append_cons. cbn [last_char]. rewrite IH.
  destruct (s1 +:+ s2) eqn:E; [|reflexivity].
  destruct s1; [by cbn in E|discriminate].
Qed.

Lemma contains_char_append c s1 s2 :
  contains_char c (s1 +:+ s2) = contains_char c s1 || contains_char c s2.
Proof.
  induction s1 as [|c1 s1 IH]; [reflexivity|].
  rewrite append_cons. cbn [contains_char]. rewrite IH. by rewrite orb_assoc.
Qed.

Lemma path_join_inj d a b : path_join d a = path_join d b → a = b.
Proof.
  unfold path_join. intros H.
  apply (inj (String.append d)) in H. by apply (inj (String.append "/")) in H.
Qed.

Lemma path_join_nested d a b :
  path_join (path_join d a) b = path_join d (a +:+ "/" +:+ b).
Proof. unfold path_join. by rewrite !append_assoc. Qed.

(** A member file is not the registry: below [PROGRAMS_DIR] its path has
    a separator. *)
Lemma csv_path_not_registry program_name :
  get_csv_path program_name ≠ SYSTEM_CSV.
Proof.
  unfold get_csv_path, program_dir, SYSTEM_CSV. rewrite path_join_nested.
  intros H%path_join_inj.
  apply (f_equal (contains_char "/")) in H.
  rewrite !contains_char_append in H. cbn in H.
  by rewrite orb_true_r in H.
Qed.

Lemma length_append s1 s2 :
  String.length (s1 +:+ s2) = (String.length s1 + String.length s2)%nat.
Proof.
  induction s1 as [|c s1 IH]; [reflexivity|].
  rewrite append_cons. cbn [String.length]. by rewrite IH.
Qed.

Lemma program_dir_not_root program_name :
  program_dir program_name ≠ PROGRAMS_DIR.
Proof.
  unfold program_dir, path_join. intros H.
  apply (f_equal String.length) in H.
  rewrite !length_append in H. cbn in H. lia.
Qed.

Lemma registry_not_root : SYSTEM_CSV ≠ PROGRAMS_DIR.
Proof. discriminate. Qed.

(** ** Provisioning the registry *)

Lemma path_exists_makedirs_other path dir st :
  path ≠ dir → path_exists path (makedirs dir st) = path_exists path st.
Proof.
  intros Hne. unfold path_exists, makedirs. cbn [dirs files]. f_equal.
  apply bool_decide_ext. set_solver.
Qed.

Lemma path_exists_makedirs dir st : path_exists dir (makedirs dir st) = true.
Proof.
  unfold path_exists, makedirs. cbn [dirs].
  rewrite bool_decide_eq_true_2 by set_solver. reflexivity.
Qed.

(** X1.  [ensure_system_csv] is idempotent: a second call, on the state the
    first one left, gives the same answer and leaves that state as it is,
    whatever the file system was before. *)
Theorem ensure_system_csv_idempotent st :
  ensure_system_csv (ensure_system_csv st).2 = ensure_system_csv st.
Proof.
  unfold ensure_system_csv.
  set (st1 := if path_exists PROGRAMS_DIR st then st
              else makedirs PROGRAMS_DIR st).
  assert (Hroot : path_exists PROGRAMS_DIR st1 = true).
  { unfold st1. destruct (path_exists PROGRAMS_DIR st) eqn:E; [done|].
    apply path_exists_makedirs. }
  destruct (path_exists SYSTEM_CSV st1) eqn:Hreg.
  - cbn [snd]. by rewrite Hroot, Hreg.
  - unfold write_csv. case_bool_decide as Hdir.
    + cbn [writerows snd].
      set (st2 := {| dirs := dirs st1; files := _ |}).
      assert (path_exists PROGRAMS_DIR st2 = true) as ->.
      { unfold path_exists. cbn [dirs st2].
        by rewrite (bool_decide_eq_true_2 _ Hdir). }
      assert (path_exists SYSTEM_CSV st2 = true) as ->; [|done].
      unfold path_exists, st2. cbn [files].
      rewrite (bool_decide_eq_true_2 (is_Some _)); [apply orb_true_r|].
      unfold SYSTEM_CSV. rewrite lookup_insert_eq. eauto.
    + cbn [snd]. rewrite Hroot, Hreg. by rewrite bool_decide_eq_false_2.
Qed.

(** X2.  On a file system without the registry file, and where no file
    sits in the place of the programs directory, the first call of
    [get_all_programs] returns the empty list and leaves a registry with the
    three columns and no program; it adds the programs directory and
    changes no other file. *)
Theorem get_all_programs_first_run st :
  path_exists SYSTEM_CSV st = false →
  files st !! PROGRAMS_DIR = None →
  ∃ st',
    get_all_programs st = (Ok [], st') ∧
    registry_rows st' = Some [] ∧
    dirs st' = {[PROGRAMS_DIR]} ∪ dirs st ∧
    ∀ path, path ≠ SYSTEM_CSV → files st' !! path = files st !! path.
Proof.
  intros Hreg Hfile. unfold get_all_programs, ensure_system_csv.
  set (st1 := if path_exists PROGRAMS_DIR st then st
              else makedirs PROGRAMS_DIR st).
  assert (Hdirs : dirs st1 = {[PROGRAMS_DIR]} ∪ dirs st).
  { unfold st1. destruct (path_exists PROGRAMS_DIR st) eqn:E; [|reflexivity].
    unfold path_exists in E. rewrite Hfile in E.
    rewrite (bool_decide_eq_false_2 (is_Some None)) in E
      by (intros [? ?]; discriminate).
    rewrite orb_false_r in E. apply bool_decide_eq_true in E. set_solver. }
  assert (Hfiles : files st1 = files st).
  { unfold st1. by destruct (path_exists PROGRAMS_DIR st). }
  assert (path_exists SYSTEM_CSV st1 = false) as ->.
  { unfold st1. destruct (path_exists PROGRAMS_DIR st); [done|].
    rewrite path_exists_makedirs_other by apply registry_not_root. done. }
  unfold write_csv. rewrite bool_decide_eq_true_2 by (rewrite Hdirs; set_solver).
  cbn [writerows]. eexists. split; [|split; [|split]].
  - unfold read_csv. cbn [files]. unfold SYSTEM_CSV.
    rewrite lookup_insert_eq. reflexivity.
  - unfold registry_rows. cbn [files dirs]. unfold SYSTEM_CSV.
    rewrite lookup_insert_eq.
    rewrite bool_decide_eq_true_2 by (rewrite Hdirs; set_solver).
    reflexivity.
  - exact Hdirs.
  - intros path Hne. cbn [files]. rewrite lookup_insert_ne by done.
    by rewrite Hfiles.
Qed.

(** ** Reading the registry *)

Lemma io_bind_ok {A B} (m : io A) (k : A → io B) st a st1 :
  m st = (Ok a, st1) → io_bind m k st = k a st1.
Proof. unfold io_bind. by intros ->. Qed.

Lemma io_bind_raise {A B} (m : io A) (k : A → io B) st e st1 :
  m st = (Raise e, st1) → io_bind m k st = (Raise e, st1).
Proof. unfold io_bind. by intros ->. Qed.

(** X3.  On a registry with the three columns [get_visible_programs]
    returns, in the order of the file, exactly the programs whose
    [ShowInList] field is ['true'] once lowered, and writes nothing. *)
Theorem get_visible_programs_registry st rows :
  registry_rows st = Some rows →
  get_visible_programs st
  = (Ok (map program_of (List.filter flag_shown rows)), st).
Proof.
  intros Hs. unfold get_visible_programs.
  rewrite (get_all_programs_registry _ _ Hs).
  apply registry_rows_inv in Hs as (_ & _ & Hwf).
  cbn [mbind result_bind]. by rewrite visible_of_programs.
Qed.

Lemma program_info_of_find rows english_name :
  programs_wf rows →
  program_info_of (map program_of rows) english_name
  = Ok (program_of <$> find_record rows english_name).
Proof.
  induction 1 as [|r rows Hr _ IH]; [reflexivity|].
  apply program_record_shape in Hr as (a & b & c & ->).
  cbn [map program_info_of find_record List.find key_of hd].
  change (strip_value (get_default (program_of [a; b; c]) "EnglishName" ""))
    with (Ok (strip a)).
  cbn [mbind result_bind].
  destruct (String.eqb (strip a) (strip english_name)); [reflexivity|].
  exact IH.
Qed.

Lemma get_program_info_registry english_name st rows :
  registry_rows st = Some rows →
  get_program_info english_name st
  = (Ok (program_of <$> find_record rows english_name), st).
Proof.
  intros Hs. unfold get_program_info.
  rewrite (get_all_programs_registry _ _ Hs).
  apply registry_rows_inv in Hs as (_ & _ & Hwf).
  cbn [mbind result_bind]. by rewrite program_info_of_find.
Qed.

Lemma program_of_truthy a b c : dict_truthy (program_of [a; b; c]) = true.
Proof. reflexivity. Qed.

Lemma find_record_present rows name :
  id_present rows name = true → is_Some (find_record rows name).
Proof.
  induction rows as [|r rows IH]; [discriminate|].
  cbn [id_present existsb find_record List.find].
  destruct (String.eqb _ _); [eauto|]. exact IH.
Qed.

Lemma find_record_wf rows name r :
  programs_wf rows → find_record rows name = Some r → length r = 3%nat.
Proof.
  intros Hwf Hf. apply List.find_some in Hf as [Hin _].
  rewrite Forall_forall in Hwf. apply Hwf. by apply list_elem_of_In.
Qed.

(** ** Provisioning a program *)

(** X4.  [create_program_folder] is idempotent, and it never overwrites:
    when the member file of the program already exists, every file is left
    as it was. *)
Theorem create_program_folder_idempotent english_name st :
  create_program_folder english_name (create_program_folder english_name st).2
  = create_program_folder english_name st ∧
  (is_Some (files st !! get_csv_path english_name) →
   files (create_program_folder english_name st).2 = files st).
Proof.
  unfold create_program_folder.
  set (dir := program_dir english_name).
  set (st1 := if path_exists dir st then st
              else makedirs dir (makedirs PROGRAMS_DIR st)).
  assert (Hdir : path_exists dir st1 = true).
  { unfold st1. destruct (path_exists dir st) eqn:E; [done|].
    apply path_exists_makedirs. }
  assert (Hfiles : files st1 = files st).
  { unfold st1. by destruct (path_exists dir st). }
  split.
  - destruct (path_exists (get_csv_path english_name) st1) eqn:Hcsv.
    + cbn [snd]. by rewrite Hdir, Hcsv.
    + unfold write_csv. case_bool_decide as Hin.
      * cbn [writerows snd].
        set (st2 := {| dirs := dirs st1; files := _ |}).
        assert (path_exists dir st2 = true) as ->.
        { unfold path_exists. cbn [dirs st2].
          by rewrite (bool_decide_eq_true_2 _ Hin). }
        assert (path_exists (get_csv_path english_name) st2 = true) as ->;
          [|done].
        unfold path_exists, st2. cbn [files].
        rewrite (bool_decide_eq_true_2 (is_Some _)); [apply orb_true_r|].
        unfold get_csv_path. fold dir. rewrite lookup_insert_eq. eauto.
      * cbn [snd]. rewrite Hdir, Hcsv. by rewrite bool_decide_eq_false_2.
  - intros Hsome.
    assert (path_exists (get_csv_path english_name) st1 = true) as ->; [|done].
    unfold path_exists. rewrite Hfiles.
    rewrite (bool_decide_eq_true_2 (is_Some _)) by done. apply orb_true_r.
Qed.





(** ** Adding a program *)

Section AddProgram.
Context {bytes : Type}.
Variable req : request bytes.

Let english_name := lower (strip (form_get req "english_name" "")).
Let arabic_name := strip (form_get req "arabic_name" "").


(** X6.  A POST to [add_program] whose key or Arabic name is blank, whose
    key is not valid, or whose key (trimmed and lowered) is already in the
    registry, answers with an error flash and the redirect back to the
    form, and leaves the file system as it was. *)
Theorem add_program_refuses st rows :
  registry_rows st = Some rows →
  method req = POST →
  is_empty english_name || is_empty arabic_name
  || negb (validate_english_name english_name)
  || id_present rows english_name = true →
  ∃ text,
    add_program req st
    = (Ok (flash_and text "error" (RedirectTo "add_program" [])), st).
Proof.
  intros Hs Hpost Hbad. unfold add_program. rewrite Hpost.
  fold english_name arabic_name.
  destruct (is_empty english_name || is_empty arabic_name); [by eexists|].
  destruct (validate_english_name english_name); [|by eexists].
  cbn [orb negb] in Hbad |- *.
  rewrite (io_bind_ok _ _ _ _ _ (get_program_info_registry _ _ _ Hs)).
  apply registry_rows_inv in Hs as (_ & _ & Hwf).
  destruct (find_record_present _ _ Hbad) as [r Hr]. rewrite Hr.
  pose proof (find_record_wf _ _ _ Hwf Hr) as Hlen.
  apply program_record_shape in Hlen as (a & b & c & ->).
  cbn [fmap option_fmap option_map lookup_failed].
  rewrite program_of_truthy. by eexists.
Qed.

End AddProgram.

(** ** Counting members *)

Lemma received_count_users rows :
  users_wf rows →
  received_count (map user_of rows)
  = Ok (length (List.filter flag_received rows)).
Proof.
  induction 1 as [|r rows Hr _ IH]; [reflexivity|].
  apply user_record_shape in Hr as (a & b & c & d & ->).
  cbn [map received_count List.filter].
  change (has_received (user_of [a; b; c; d]))
    with (Ok (String.eqb (lower c) "true")).
  change (flag_received [a; b; c; d]) with (String.eqb (lower c) "true").
  cbn [mbind result_bind]. rewrite IH. cbn [mbind result_bind mret result_ret].
  by destruct (String.eqb (lower c) "true").
Qed.

Lemma get_program_users_count_store program_name st rows :
  store_rows program_name st = Some rows →
  get_program_users_count program_name st
  = Ok (length rows, length (List.filter flag_received rows)).
Proof.
  intros Hs. unfold get_program_users_count.
  rewrite (read_users_store _ _ _ Hs).
  apply store_rows_inv in Hs as (_ & _ & Hwf).
  cbn [mbind result_bind]. rewrite received_count_users by done.
  cbn [mbind result_bind mret result_ret]. by rewrite length_map.
Qed.

Lemma filter_length_le {A} (f : A → bool) (l : list A) :
  (length (List.filter f l) ≤ length l)%nat.
Proof.
  induction l as [|x l IH]; [done|]. cbn. destruct (f x); cbn; lia.
Qed.

(** X8.  On a member store with the four columns
    [get_program_users_count] returns the number of members and the number
    of those whose [HasReceived] field is ['true'] once lowered; the second
    never exceeds the first. *)
Theorem users_count_bounds program_name st rows :
  store_rows program_name st = Some rows →
  ∃ received,
    get_program_users_count program_name st = Ok (length rows, received) ∧
    (received ≤ length rows)%nat ∧
    received = length (List.filter flag_received rows).
Proof.
  intros Hs. eexists. split; [by apply get_program_users_count_store|].
  split; [apply filter_length_le|reflexivity].
Qed.


Lemma mark_rows_length rows national_id ts :
  length (mark_rows rows national_id ts) = length rows.
Proof.
  induction rows as [|r rows IH]; [reflexivity|].
  cbn [mark_rows]. destruct (String.eqb _ _); cbn [length]; [done|].
  by rewrite IH.
Qed.


(** ** Marking leaves the other members alone *)

Lemma mark_rows_keys rows national_id ts :
  users_wf rows →
  map (take 2) (mark_rows rows national_id ts) = map (take 2) rows.
Proof.
  induction 1 as [|r rows Hr _ IH]; [reflexivity|].
  cbn [mark_rows]. destruct (String.eqb _ _); cbn [map].
  - apply user_record_shape in Hr as (a & b & c & d & ->). reflexivity.
  - by rewrite IH.
Qed.

Lemma find_record_mark_other rows national_id ts other :
  users_wf rows →
  strip other ≠ strip national_id →
  find_record (mark_rows rows national_id ts) other
  = find_record rows other.
Proof.
  intros Hwf Hne. induction Hwf as [|r rows Hr _ IH]; [reflexivity|].
  cbn [mark_rows].
  destruct (String.eqb (strip (key_of r)) (strip national_id)) eqn:E.
  - apply user_record_shape in Hr as (a & b & c & d & ->).
    cbn [mark_record find_record List.find key_of hd] in *.
    apply String.eqb_eq in E.
    assert (String.eqb (strip a) (strip other) = false) as ->; [|done].
    apply String.eqb_neq. congruence.
  - cbn [find_record List.find]. fold (find_record rows other).
    fold (find_record (mark_rows rows national_id ts) other).
    by rewrite IH.
Qed.

(** X10.  [update_user_received] touches one member only: the store keeps
    its number of records and the identity and name of each, every member
    with another identity is found exactly as before, and no directory and
    no file other than the member file of the program changes. *)
Theorem update_user_received_frame program_name national_id now st rows :
  store_rows program_name st = Some rows →
  let st1 := (update_user_received program_name national_id now st).2 in
  ∃ rows1,
    store_rows program_name st1 = Some rows1 ∧
    length rows1 = length rows ∧
    map (take 2) rows1 = map (take 2) rows ∧
    (∀ other, strip other ≠ strip national_id →
       find_user program_name other st1 = find_user program_name other st) ∧
    dirs st1 = dirs st ∧
    (∀ path, path ≠ get_csv_path program_name →
       files st1 !! path = files st !! path).
Proof.
  intros Hs st1.
  pose proof (store_rows_inv _ _ _ Hs) as (Hd & Hf & Hwf).
  set (rows1 := mark_rows rows national_id (strftime now)).
  assert (Hst1 : st1 = with_users program_name rows1 st).
  { unfold st1. by rewrite (update_user_received_store _ _ _ _ _ Hs). }
  assert (Hs1 : store_rows program_name st1 = Some rows1).
  { rewrite Hst1. by apply update_user_received_rows. }
  exists rows1. split; [done|]. split; [apply mark_rows_length|].
  split; [by apply mark_rows_keys|]. split; [|split].
  - intros other Hne.
    rewrite (find_user_store _ _ _ _ Hs1), (find_user_store _ _ _ _ Hs).
    unfold rows1. by rewrite find_record_mark_other.
  - by rewrite Hst1.
  - intros path Hne. rewrite Hst1. cbn [with_users files].
    by rewrite lookup_insert_ne.
Qed.

(** ** A program without member file *)


(** ** Identities stay distinct *)

Lemma id_present_trimmed_keys rows national_id :
  id_present rows national_id = false ↔ strip national_id ∉ trimmed_keys rows.
Proof.
  unfold trimmed_keys. induction rows as [|r rows IH].
  - split; [intros _ H; by apply elem_of_nil in H|done].
  - cbn [id_present existsb map]. rewrite elem_of_cons.
    destruct (String.eqb (strip (key_of r)) (strip national_id)) eqn:E.
    + apply String.eqb_eq in E. split; [discriminate|].
      intros H. exfalso. apply H. by left.
    + apply String.eqb_neq in E. cbn [orb]. rewrite IH. split.
      * intros H [Heq|Hin]; [by apply E|by apply H].
      * intros H Hin. apply H. by right.
Qed.


(** ** What an import appends *)

Lemma import_fold_users rows_in acc :
  let acc' := foldl import_row acc rows_in in
  let pairs := List.filter usable (map resolved rows_in) in
  let fresh := fresh_pairs (existing_ids acc) pairs in
  existing_users acc'
  = existing_users acc ++ map (fun p => user_of (added_record p)) fresh ∧
  imported_count acc' = (imported_count acc + length fresh)%nat ∧
  (imported_count acc' + skipped_count acc'
   = imported_count acc + skipped_count acc + length pairs)%nat.
Proof.
  revert acc. induction rows_in as [|row rows_in IH]; intros acc.
  - cbn. rewrite app_nil_r. repeat split; lia.
  - cbn [foldl map List.filter]. cbn zeta.
    rewrite import_row_resolved. cbn zeta.
    destruct (usable (resolved row)) eqn:Hus; [|apply IH].
    cbn [fresh_pairs length]. case_bool_decide as Hin.
    + destruct (IH {| existing_users :=
                        existing_users acc
                        ++ [user_of (added_record (resolved row))];
                      existing_ids := {[(resolved row).1]} ∪ existing_ids acc;
                      imported_count := S (imported_count acc);
                      skipped_count := skipped_count acc |})
        as (Hu & Hi & Hs).
      cbn [imported_count skipped_count existing_users existing_ids] in *.
      split; [by rewrite Hu, <- app_assoc|]. cbn [length]. split; lia.
    + destruct (IH {| existing_users := existing_users acc;
                      existing_ids := existing_ids acc;
                      imported_count := imported_count acc;
                      skipped_count := S (skipped_count acc) |})
        as (Hu & Hi & Hs).
      cbn [imported_count skipped_count existing_users existing_ids] in *.
      split; [done|]. split; lia.
Qed.

Lemma fresh_pairs_distinct ids pairs :
  NoDup (map fst (fresh_pairs ids pairs)) ∧
  ∀ x, x ∈ map fst (fresh_pairs ids pairs) → x ∉ ids.
Proof.
  revert ids. induction pairs as [|p pairs IH]; intros ids.
  - split; [constructor|]. intros x Hx. by apply elem_of_nil in Hx.
  - cbn [fresh_pairs]. case_bool_decide as Hin; [|apply IH].
    destruct (IH ({[p.1]} ∪ ids)) as [Hnd Hout]. cbn [map]. split.
    + constructor; [|exact Hnd]. intros Hp. apply (Hout _ Hp). set_solver.
    + intros x [->|Hx]%elem_of_cons; [exact Hin|].
      specialize (Hout x Hx). set_solver.
Qed.

Lemma fresh_pairs_ids ids pairs :
  ids ∪ list_to_set (map fst (fresh_pairs ids pairs))
  = ids ∪ list_to_set (map fst pairs).
Proof.
  revert ids. induction pairs as [|p pairs IH]; intros ids; [done|].
  cbn [fresh_pairs map]. case_bool_decide as Hin.
  - cbn [map]. rewrite !list_to_set_cons.
    specialize (IH ({[p.1]} ∪ ids)). set_solver.
  - rewrite list_to_set_cons, IH.
    assert (p.1 ∈ ids)
      by (destruct (decide (p.1 ∈ ids)); [assumption | contradiction]).
    set_solver.
Qed.

Lemma fresh_pairs_known ids pairs :
  (∀ p, p ∈ pairs → p.1 ∈ ids) → fresh_pairs ids pairs = [].
Proof.
  induction pairs as [|p pairs IH]; intros Hall; [reflexivity|].
  cbn [fresh_pairs]. rewrite bool_decide_eq_false_2.
  - apply IH. intros q Hq. apply Hall. by right.
  - intros Hout. apply Hout, Hall. by left.
Qed.

Lemma fresh_pairs_sub ids pairs p :
  p ∈ fresh_pairs ids pairs → p ∈ pairs.
Proof.
  revert ids. induction pairs as [|q pairs IH]; intros ids; [done|].
  cbn [fresh_pairs]. case_bool_decide.
  - intros [->|Hp]%elem_of_cons; [by left|]. right. by eapply IH.
  - intros Hp. right. by eapply IH.
Qed.

Lemma usable_rows_trimmed t p :
  p ∈ usable_rows t → strip p.1 = p.1.
Proof.
  unfold usable_rows. intros Hp%list_elem_of_In.
  apply List.filter_In in Hp as [Hp _].
  apply List.in_map_iff in Hp as (row & <- & _).
  cbn [resolved fst]. apply strip_idempotent.
Qed.

Lemma trimmed_keys_added pairs :
  (∀ p, p ∈ pairs → strip p.1 = p.1) →
  trimmed_keys (map added_record pairs) = map fst pairs.
Proof.
  unfold trimmed_keys. induction pairs as [|p pairs IH]; intros Hall;
    [reflexivity|].
  cbn [map key_of added_record hd]. rewrite Hall by (by left).
  f_equal. apply IH. intros q Hq. apply Hall. by right.
Qed.

Lemma added_records_wf pairs : users_wf (map added_record pairs).
Proof. induction pairs; by constructor. Qed.

Lemma stored_ids_trimmed_keys rows :
  stored_ids rows = list_to_set (trimmed_keys rows).
Proof. reflexivity. Qed.

Lemma trimmed_keys_app rows1 rows2 :
  trimmed_keys (rows1 ++ rows2) = trimmed_keys rows1 ++ trimmed_keys rows2.
Proof. unfold trimmed_keys. apply map_app. Qed.

Lemma find_record_app_found rows more national_id r :
  find_record rows national_id = Some r →
  find_record (rows ++ more) national_id = Some r.
Proof.
  induction rows as [|r0 rows IH]; [discriminate|].
  cbn [app find_record List.find]. destruct (String.eqb _ _); [done|].
  exact IH.
Qed.

Section ImportInvariants.
Variable bytes : Type.
Variable decode_utf8_sig : bytes → option string.
Variable decode_utf8 : bytes → option string.
Variable decode_latin1 : bytes → string.
Variable csv_reader : list string → table * option exn.

Local Abbreviation import :=
  (import_users_from_csv bytes decode_utf8_sig decode_utf8 decode_latin1
     csv_reader).
Local Abbreviation lines_of file_content :=
  (upload_lines bytes decode_utf8_sig decode_utf8 decode_latin1 file_content).

Lemma import_store program_name file_content st rows t :
  store_rows program_name st = Some rows →
  csv_reader (lines_of file_content) = (t, None) →
  let rows1 := rows ++ as_read (imported_records rows t) in
  import program_name file_content st
  = (Ok (true,
         UsersImported
           (length (imported_records rows t))
           (length (usable_rows t) - length (imported_records rows t))),
     with_users program_name rows1 st) ∧
  store_rows program_name (with_users program_name rows1 st) = Some rows1.
Proof.
  intros Hs Hparse rows1.
  pose proof (store_rows_inv _ _ _ Hs) as (Hd & Hf & Hwf).
  pose proof (store_rows_clean _ _ _ Hs) as Hclean.
  destruct (import_fold_users (DictReader t)
              {| existing_users := map user_of rows;
                 existing_ids := stored_ids rows;
                 imported_count := 0; skipped_count := 0 |})
    as (Hu & Hi & Hsk).
  cbn [imported_count skipped_count existing_users existing_ids] in *.
  fold (usable_rows t) in Hu, Hi, Hsk.
  assert (Hraw : users_wf (rows ++ imported_records rows t)).
  { apply Forall_app. split; [done|apply added_records_wf]. }
  assert (Hread : as_read (rows ++ imported_records rows t) = rows1).
  { by rewrite as_read_app, as_read_fixed. }
  split.
  - unfold import_users_from_csv. rewrite (read_users_store _ _ _ Hs).
    cbn [mbind result_bind]. rewrite ids_of_users by done.
    cbn [mbind result_bind mret result_ret]. rewrite Hparse.
    rewrite Hu. rewrite <- (map_map added_record user_of), <- map_app.
    fold (imported_records rows t).
    rewrite write_users_as_read, Hread by done.
    assert (Hlen : length (imported_records rows t)
                  = length (fresh_pairs (stored_ids rows) (usable_rows t)))
      by (unfold imported_records; by rewrite length_map).
    do 3 f_equal. f_equal; lia.
  - rewrite <- Hread. apply store_rows_with_users;
      [done|by apply as_read_length|apply as_read_clean].
Qed.

Lemma import_failed program_name file_content st rows t e :
  store_rows program_name st = Some rows →
  csv_reader (lines_of file_content) = (t, Some e) →
  import program_name file_content st = (Ok (false, ImportFailed e), st).
Proof.
  intros Hs Hparse.
  pose proof (store_rows_inv _ _ _ Hs) as (Hd & Hf & Hwf).
  unfold import_users_from_csv. rewrite (read_users_store _ _ _ Hs).
  cbn [mbind result_bind]. rewrite ids_of_users by done.
  cbn [mbind result_bind mret result_ret]. by rewrite Hparse.
Qed.

Lemma imported_records_keys rows t :
  trimmed_keys (imported_records rows t)
  = map fst (fresh_pairs (stored_ids rows) (usable_rows t)).
Proof.
  unfold imported_records. apply trimmed_keys_added.
  intros p Hp%fresh_pairs_sub. by eapply usable_rows_trimmed.
Qed.

(** The identities of the imported records, read back, when they hold no
    carriage return. *)
Lemma as_read_keys (rows : list record) :
  Forall (fun r => has_cr (key_of r) = false) rows →
  trimmed_keys (as_read rows) = trimmed_keys rows.
Proof.
  unfold trimmed_keys, as_read. rewrite map_map.
  induction 1 as [|r rows Hr _ IH]; [reflexivity|].
  cbn [map]. f_equal; [|exact IH].
  destruct r as [|k r]; [reflexivity|]. cbn [map key_of hd] in *.
  by rewrite universal_newlines_clean.
Qed.

Lemma imported_records_clean_keys rows t :
  upload_ids_clean t →
  Forall (fun r => has_cr (key_of r) = false) (imported_records rows t).
Proof.
  intros Hclean. apply Forall_forall.
  intros r (p & -> & Hp%fresh_pairs_sub)%list_elem_of_fmap.
  unfold upload_ids_clean in Hclean. rewrite Forall_forall in Hclean.
  by apply Hclean.
Qed.

Lemma imported_keys_as_read rows t :
  upload_ids_clean t →
  trimmed_keys (as_read (imported_records rows t))
  = map fst (fresh_pairs (stored_ids rows) (usable_rows t)).
Proof.
  intros Hclean. rewrite as_read_keys by (by apply imported_records_clean_keys).
  apply imported_records_keys.
Qed.

(** X13.  [import_users_from_csv], given an upload whose identities hold
    no carriage return, keeps the trimmed identities of a member store
    pairwise distinct, whatever else the upload holds, repeated identities
    included, and whether or not the tokenizer raises.  (A carriage
    return is read back as a line feed, so an identity that differs from
    a stored one by that character only is imported and then reads back
    equal to it.) *)
Theorem import_keeps_ids_distinct program_name file_content st rows :
  store_rows program_name st = Some rows →
  NoDup (trimmed_keys rows) →
  upload_ids_clean (csv_reader (lines_of file_content)).1 →
  ∃ rows',
    store_rows program_name (import program_name file_content st).2
    = Some rows' ∧
    NoDup (trimmed_keys rows').
Proof.
  intros Hs Hnd Hclean.
  destruct (csv_reader (lines_of file_content)) as [t [e|]] eqn:Hparse.
  - exists rows. split; [|done].
    by rewrite (import_failed _ _ _ _ _ _ Hs Hparse).
  - cbn [fst] in Hclean.
    destruct (import_store _ _ _ _ _ Hs Hparse) as [-> Hs1].
    eexists. split; [exact Hs1|].
    rewrite trimmed_keys_app, imported_keys_as_read by done.
    destruct (fresh_pairs_distinct (stored_ids rows) (usable_rows t))
      as [Hnd' Hout].
    apply NoDup_app. split; [done|]. split; [|done].
    intros x Hx Hx'. apply (Hout x Hx').
    rewrite stored_ids_trimmed_keys. by apply elem_of_list_to_set.
Qed.

(** X14.  Importing the same upload a second time changes nothing, when
    its identities hold no carriage return: the second
    [import_users_from_csv] answers [(True, ...)] with no member imported
    and every usable row skipped, and returns the file system the first
    import left. *)
Theorem import_twice program_name file_content st rows t :
  store_rows program_name st = Some rows →
  csv_reader (lines_of file_content) = (t, None) →
  upload_ids_clean t →
  let st1 := (import program_name file_content st).2 in
  import program_name file_content st1
  = (Ok (true, UsersImported 0 (length (usable_rows t))), st1).
Proof.
  intros Hs Hparse Hclean st1.
  destruct (import_store _ _ _ _ _ Hs Hparse) as [Hrun Hs1].
  set (rows1 := rows ++ as_read (imported_records rows t)) in *.
  assert (Hst1 : st1 = with_users program_name rows1 st).
  { unfold st1. by rewrite Hrun. }
  rewrite <- Hst1 in Hs1.
  assert (Hnone : imported_records rows1 t = []).
  { unfold imported_records at 1. rewrite fresh_pairs_known; [done|].
    intros p Hp. unfold rows1.
    rewrite stored_ids_trimmed_keys, trimmed_keys_app,
      imported_keys_as_read by done.
    rewrite list_to_set_app_L, <- stored_ids_trimmed_keys, fresh_pairs_ids.
    apply elem_of_union_r, elem_of_list_to_set, list_elem_of_fmap. eauto. }
  destruct (import_store _ _ _ _ _ Hs1 Hparse) as [-> _].
  rewrite Hnone. cbn [as_read map]. rewrite app_nil_r.
  cbn [length]. rewrite Nat.sub_0_r. f_equal.
  rewrite Hst1. apply with_users_same. cbn [with_users files].
  apply lookup_insert_eq.
Qed.

(** X15.  After [import_users_from_csv] of an upload that parses, every
    member that [find_user] found before is still found, unchanged, and
    every usable row of the upload whose identity holds no carriage
    return has a member: [find_user] at the identity of the row finds a
    member with that identity. *)
Theorem import_then_find program_name file_content st rows t :
  store_rows program_name st = Some rows →
  csv_reader (lines_of file_content) = (t, None) →
  let st1 := (import program_name file_content st).2 in
  (∀ national_id user,
     find_user program_name national_id st = Ok (Some user) →
     find_user program_name national_id st1 = Ok (Some user)) ∧
  (∀ p, p ∈ usable_rows t → has_cr p.1 = false →
     ∃ user,
       find_user program_name p.1 st1 = Ok (Some user) ∧
       (strip <$> get user "NationalID") = Some p.1).
Proof.
  intros Hs Hparse st1.
  pose proof (store_rows_inv _ _ _ Hs) as (Hd & Hf & Hwf).
  destruct (import_store _ _ _ _ _ Hs Hparse) as [Hrun Hs1].
  set (rows1 := rows ++ as_read (imported_records rows t)) in *.
  assert (Hst1 : st1 = with_users program_name rows1 st).
  { unfold st1. by rewrite Hrun. }
  rewrite <- Hst1 in Hs1.
  pose proof (store_rows_inv _ _ _ Hs1) as (_ & _ & Hwf1).
  split.
  - intros national_id user.
    rewrite (find_user_store _ _ _ _ Hs), (find_user_store _ _ _ _ Hs1).
    destruct (find_record rows national_id) as [r|] eqn:Hr; [|discriminate].
    intros Hu. unfold rows1.
    by rewrite (find_record_app_found _ _ _ _ Hr).
  - intros p Hp Hid. rewrite (find_user_store _ _ _ _ Hs1).
    assert (Hin : id_present rows1 p.1 = true).
    { destruct (id_present rows1 p.1) eqn:E; [done|]. exfalso.
      apply id_present_trimmed_keys in E. apply E.
      rewrite (usable_rows_trimmed t p Hp).
      unfold rows1. rewrite trimmed_keys_app. apply elem_of_app.
      destruct (decide (p.1 ∈ stored_ids rows)) as [Hold|Hnew].
      { left. rewrite stored_ids_trimmed_keys in Hold.
        by apply elem_of_list_to_set in Hold. }
      right.
      assert (Hfresh : p.1 ∈ map fst (fresh_pairs (stored_ids rows)
                                        (usable_rows t))).
      { apply (elem_of_list_to_set (C := gset string)).
        assert (p.1 ∈ stored_ids rows
                  ∪ list_to_set (map fst (fresh_pairs (stored_ids rows)
                                            (usable_rows t)))) as Hu.
        { rewrite fresh_pairs_ids.
          apply elem_of_union_r, elem_of_list_to_set, list_elem_of_fmap.
          eauto. }
        apply elem_of_union in Hu as [Hu|Hu]; [done|exact Hu]. }
      apply list_elem_of_fmap in Hfresh as (q & Hq1 & Hq).
      unfold trimmed_keys, imported_records, as_read.
      rewrite !map_map. apply list_elem_of_fmap. exists q. split; [|exact Hq].
      cbn [added_record map key_of hd]. rewrite <- Hq1.
      rewrite universal_newlines_clean by done.
      symmetry. apply (usable_rows_trimmed t p Hp). }
    destruct (find_record_present _ _ Hin) as [r Hr]. rewrite Hr.
    exists (user_of r). split; [reflexivity|].
    pose proof Hr as Hfound. apply List.find_some in Hfound as [Hmem Heq].
    apply String.eqb_eq in Heq.
    rewrite (usable_rows_trimmed t p Hp) in Heq.
    assert (Hlen : length r = 4%nat).
    { rewrite Forall_forall in Hwf1. apply Hwf1. by apply list_elem_of_In. }
    apply user_record_shape in Hlen as (a & b & c & d & ->).
    cbn [key_of hd] in Heq. rewrite <- Heq. reflexivity.
Qed.
End ImportInvariants.

(** ** Receipts and the other files *)

Lemma endswith_split suffix s :
  endswith suffix s = true → ∃ pre, s = pre +:+ suffix.
Proof.
  induction s as [|c s IH].
  - cbn [endswith]. rewrite orb_false_r. intros ->%String.eqb_eq. by exists "".
  - cbn [endswith]. intros [->%String.eqb_eq|H]%orb_prop; [by exists ""|].
    destruct (IH H) as [pre ->]. by exists (String c pre).
Qed.

Lemma endswith_append pre suffix : endswith suffix (pre +:+ suffix) = true.
Proof.
  induction pre as [|c pre IH].
  - change ("" +:+ suffix) with suffix. destruct suffix; cbn [endswith];
      by rewrite String.eqb_refl.
  - rewrite append_cons. cbn [endswith]. rewrite IH. apply orb_true_r.
Qed.

Lemma last_char_pdf dir name :
  endswith ".pdf" name = true →
  last_char (path_join dir name) = Some "f"%char.
Proof.
  intros [pre ->]%endswith_split. unfold path_join.
  rewrite last_char_append by (by destruct pre).
  rewrite last_char_append by (by destruct pre).
  by rewrite last_char_append.
Qed.

Lemma last_char_csv_path program_name :
  last_char (get_csv_path program_name) = Some "v"%char.
Proof.
  unfold get_csv_path, users_csv_name, path_join.
  rewrite last_char_append by (by destruct program_name).
  rewrite last_char_append by (by destruct program_name).
  by rewrite last_char_append.
Qed.

Lemma pdf_path_not_data dir name :
  endswith ".pdf" name = true →
  path_join dir name ≠ SYSTEM_CSV ∧
  ∀ program_name, path_join dir name ≠ get_csv_path program_name.
Proof.
  intros Hpdf%(last_char_pdf dir). split.
  - intros Heq. rewrite Heq in Hpdf. discriminate.
  - intros program_name Heq.
    rewrite Heq, last_char_csv_path in Hpdf. discriminate.
Qed.

Section ReceiptFrame.
Variable ARABIC_FONT : string.
Variable reshape_display : string → option string.
Variable b64decode : string → option string.
Variable flatten_png : string → option string.

Local Abbreviation generate :=
  (generate_pdf ARABIC_FONT reshape_display b64decode flatten_png).

Lemma generate_pdf_state program_name national_id full_name signature_data
    now1 now2 now3 st rows :
  registry_rows st = Some rows →
  program_dir program_name ∈ dirs st →
  let pdf_path :=
    path_join (program_dir program_name) (national_id +:+ ".pdf") in
  generate program_name national_id full_name signature_data now1 now2 now3 st
  = (Ok pdf_path,
     {| dirs := dirs st;
        files :=
          <[pdf_path :=
              PdfFile (receipt_ops ARABIC_FONT reshape_display b64decode
                         flatten_png (printed_name rows program_name)
                         national_id full_name signature_data
                         now1 now2 now3)]> (files st) |}).
Proof.
  intros Hs Hd pdf_path. unfold generate_pdf.
  rewrite (get_program_info_registry _ _ _ Hs).
  apply registry_rows_inv in Hs as (_ & _ & Hwf).
  unfold canvas_save. rewrite bool_decide_eq_true_2 by done.
  unfold printed_name.
  destruct (find_record rows program_name) as [r|] eqn:Hr; [|reflexivity].
  pose proof (find_record_wf _ _ _ Hwf Hr) as Hlen.
  apply program_record_shape in Hlen as (a & b & c & ->). reflexivity.
Qed.

Lemma generate_pdf_keeps program_name national_id full_name signature_data
    now1 now2 now3 st rows :
  registry_rows st = Some rows →
  program_dir program_name ∈ dirs st →
  let pdf_path :=
    path_join (program_dir program_name) (national_id +:+ ".pdf") in
  let st' := (generate program_name national_id full_name signature_data
                now1 now2 now3 st).2 in
  registry_rows st' = Some rows ∧
  (∀ other, store_rows other st' = store_rows other st) ∧
  files st' !! pdf_path
  = Some (PdfFile (receipt_ops ARABIC_FONT reshape_display b64decode
                     flatten_png (printed_name rows program_name) national_id
                     full_name signature_data now1 now2 now3)).
Proof.
  intros Hs Hd pdf_path st'.
  unfold st'. rewrite (generate_pdf_state _ _ _ _ _ _ _ _ _ Hs Hd).
  cbn [snd]. fold pdf_path.
  destruct (pdf_path_not_data (program_dir program_name)
              (national_id +:+ ".pdf") (endswith_append _ _))
    as [Hreg Hcsv]. fold pdf_path in Hreg, Hcsv.
  split; [|split].
  - unfold registry_rows in *. cbn [files dirs].
    by rewrite lookup_insert_ne.
  - intros other. unfold store_rows. cbn [files dirs].
    by rewrite lookup_insert_ne.
  - cbn [files]. apply lookup_insert_eq.
Qed.


End ReceiptFrame.

(** ** Downloads *)

(** X18.  Whenever [download_pdf] sends a file, the requested name ends
    in [.pdf] and holds neither a slash nor a backslash, the file sent is
    the one stored at [programs/<english_name>/<filename>], and that path
    is neither the registry nor the member file of any program: the
    download cannot disclose the CSV data. *)
Theorem download_pdf_guard english_name filename st r st' path content :
  download_pdf english_name filename st = (Ok r, st') →
  body r = SendFile path content →
  endswith ".pdf" filename = true ∧
  contains_char "/" filename = false ∧
  contains_char BACKSLASH filename = false ∧
  path = path_join (program_dir english_name) filename ∧
  files st' !! path = Some content ∧
  path ≠ SYSTEM_CSV ∧
  ∀ program_name, path ≠ get_csv_path program_name.
Proof.
  unfold download_pdf, io_bind.
  destruct (get_program_info english_name st) as [[info|e] st1];
    [|discriminate].
  destruct (lookup_failed info).
  { intros [= <- <-]. discriminate. }
  destruct (endswith ".pdf" filename) eqn:Hpdf; cbn [negb orb];
    [|intros [= <- <-]; discriminate].
  destruct (contains_char "/" filename) eqn:Hslash; cbn [orb];
    [intros [= <- <-]; discriminate|].
  destruct (contains_char BACKSLASH filename) eqn:Hback; cbn [orb];
    [intros [= <- <-]; discriminate|].
  change (path_join PROGRAMS_DIR english_name) with (program_dir english_name).
  destruct (path_exists _ st1); cbn [negb];
    [|intros [= <- <-]; discriminate].
  destruct (files st1 !! _) as [f|] eqn:Hf; [|discriminate].
  intros [= <- <-]. cbn [body no_flash]. intros [= <- <-].
  do 4 (split; [reflexivity|]). split; [exact Hf|].
  by apply pdf_path_not_data.
Qed.

(** ** The pages of a member *)

Lemma get_program_info_state english_name st :
  (get_program_info english_name st).2 = (ensure_system_csv st).2.
Proof.
  unfold get_program_info, get_all_programs.
  by destruct (ensure_system_csv st) as [[[]|e] st1].
Qed.

Lemma io_bind_state {A B} (m : io A) (k : A → io B) st :
  (∀ a st1, (k a st1).2 = st1) →
  (io_bind m k st).2 = (m st).2.
Proof.
  intros Hk. unfold io_bind. destruct (m st) as [[a|e] st1]; [apply Hk|done].
Qed.

Lemma registry_with_users program_name rows st :
  registry_rows (with_users program_name rows st) = registry_rows st.
Proof.
  unfold registry_rows, with_users. cbn [files dirs].
  rewrite lookup_insert_ne; [done|]. apply csv_path_not_registry.
Qed.

Lemma user_of_truthy a b c d : dict_truthy (user_of [a; b; c; d]) = true.
Proof. reflexivity. Qed.

Lemma find_user_record_wf rows national_id r :
  users_wf rows → find_record rows national_id = Some r → length r = 4%nat.
Proof.
  intros Hwf Hf. apply List.find_some in Hf as [Hin _].
  rewrite Forall_forall in Hwf. apply Hwf. by apply list_elem_of_In.
Qed.

Lemma verify_post {bytes} program_name (req : request bytes) st
    programs rows :
  registry_rows st = Some programs →
  id_present programs program_name = true →
  store_rows program_name st = Some rows →
  method req = POST →
  let national_id := strip (form_get req "national_id" "") in
  is_empty national_id = false →
  verify program_name req st
  = (Ok (no_flash
           match find_record rows national_id with
           | None =>
               MessagePage
                 ("المستخدم غير موجود. الرجاء إضافة رقم الهوية يدوياً في ملف "
                  +:+ program_name +:+ "-users.csv") "error"
           | Some r =>
               if flag_received r then
                 MessagePage
                   ("المستخدم " +:+ nth 1 r ""
                    +:+ " قد استلم المواد مسبقاً بتاريخ " +:+ nth 3 r ""
                    +:+ ".") "warning"
               else RedirectTo "acknowledgment" [program_name; national_id]
           end), st).
Proof.
  intros Hreg Hprog Hs Hpost national_id Hid. unfold verify.
  rewrite (io_bind_ok _ _ _ _ _ (get_program_info_registry _ _ _ Hreg)).
  pose proof (registry_rows_inv _ _ Hreg) as (_ & _ & Hpwf).
  destruct (find_record_present _ _ Hprog) as [p Hp]. rewrite Hp.
  pose proof (find_record_wf _ _ _ Hpwf Hp) as Hlen.
  apply program_record_shape in Hlen as (pa & pb & pc & ->).
  cbn [fmap option_fmap option_map lookup_failed].
  rewrite program_of_truthy, Hpost. cbn [negb].
  fold national_id. rewrite Hid.
  unfold io_bind at 1, io_read.
  rewrite (find_user_store _ _ _ _ Hs).
  pose proof (store_rows_inv _ _ _ Hs) as (_ & _ & Hwf).
  destruct (find_record rows national_id) as [r|] eqn:Hr;
    cbn [fmap option_fmap option_map]; [|reflexivity].
  pose proof (find_user_record_wf _ _ _ Hwf Hr) as Hlen.
  apply user_record_shape in Hlen as (a & b & c & d & ->).
  rewrite user_of_truthy. cbn [negb].
  unfold io_bind, io_read.
  change (has_received (user_of [a; b; c; d]))
    with (Ok (String.eqb (lower c) "true")).
  change (flag_received [a; b; c; d]) with (String.eqb (lower c) "true").
  by destruct (String.eqb (lower c) "true").
Qed.

(** X19.  The three answers of a POST to [verify] with a non-blank
    identity, for a registered program with a member store: the error page
    when nobody has the (trimmed) identity; the warning page, with the name
    and the date of the member, when the [HasReceived] field of the member
    is ['true'] once lowered; the redirect to the acknowledgment of the
    trimmed identity otherwise.  The file system is unchanged in each
    case. *)
Theorem verify_answers {bytes} program_name (req : request bytes) st
    programs rows :
  registry_rows st = Some programs →
  id_present programs program_name = true →
  store_rows program_name st = Some rows →
  method req = POST →
  let national_id := strip (form_get req "national_id" "") in
  is_empty national_id = false →
  verify program_name req st
  = (Ok (no_flash
           match find_record rows national_id with
           | None =>
               MessagePage
                 ("المستخدم غير موجود. الرجاء إضافة رقم الهوية يدوياً في ملف "
                  +:+ program_name +:+ "-users.csv") "error"
           | Some r =>
               if flag_received r then
                 MessagePage
                   ("المستخدم " +:+ nth 1 r ""
                    +:+ " قد استلم المواد مسبقاً بتاريخ " +:+ nth 3 r ""
                    +:+ ".") "warning"
               else RedirectTo "acknowledgment" [program_name; national_id]
           end), st).
Proof. apply verify_post. Qed.

(** X20.  [verify] and [download_pdf] write nothing of their own: for
    every request and every file system, exceptional outcomes included, the
    file system they leave is the one [ensure_system_csv] leaves. *)
Theorem lookups_write_nothing {bytes} program_name (req : request bytes)
    filename st :
  (verify program_name req st).2 = (ensure_system_csv st).2 ∧
  (download_pdf program_name filename st).2 = (ensure_system_csv st).2.
Proof.
  split.
  - unfold verify. rewrite io_bind_state.
    { apply get_program_info_state. }
    intros info st1. destruct (lookup_failed info); [done|].
    destruct (method req); [done|].
    destruct (is_empty _); [done|].
    rewrite io_bind_state; [done|].
    intros [user|] st2; [|done].
    destruct (negb (dict_truthy user)); [done|].
    rewrite io_bind_state; [done|].
    by intros [] st3.
  - unfold download_pdf. rewrite io_bind_state.
    { apply get_program_info_state. }
    intros info st1. destruct (lookup_failed info); [done|].
    destruct (_ || _); [done|].
    destruct (negb (path_exists _ st1)); [done|].
    by destruct (files st1 !! _).
Qed.

Section Acknowledgment.
Context {bytes : Type}.
Variable ARABIC_FONT : string.
Variable reshape_display : string → option string.
Variable b64decode : string → option string.
Variable flatten_png : string → option string.

Local Abbreviation acknowledge :=
  (acknowledgment bytes ARABIC_FONT reshape_display b64decode flatten_png).

Lemma acknowledgment_post program_name national_id (req : request bytes)
    now0 now1 now2 now3 st programs rows :
  registry_rows st = Some programs →
  store_rows program_name st = Some rows →
  id_present rows national_id = true →
  method req = POST →
  is_empty (form_get req "signature" "") = false →
  ∃ a b c d st',
    find_record rows national_id = Some [a; b; c; d] ∧
    acknowledge program_name national_id req now0 now1 now2 now3 st
    = (Ok (no_flash (MessagePage
                   ("شكراً لك، " +:+ b
                    +:+ "! تم تسجيل الاستلام وإنشاء الإيصال بنجاح.")
                   "success")), st') ∧
    store_rows program_name st'
    = Some (mark_rows rows national_id (strftime now0)) ∧
    find_record (mark_rows rows national_id (strftime now0)) national_id
    = Some [a; b; "true"; strftime now0] ∧
    files st' !! path_join (program_dir program_name) (national_id +:+ ".pdf")
    = Some (PdfFile
              (receipt_ops ARABIC_FONT reshape_display b64decode flatten_png
                 (printed_name programs program_name) national_id b
                 (form_get req "signature" "") now1 now2 now3)) ∧
    registry_rows st' = Some programs.
Proof.
  intros Hreg Hs Hid Hpost Hsig.
  pose proof (store_rows_inv _ _ _ Hs) as (Hd & Hf & Hwf).
  destruct (find_record_mark rows national_id (strftime now0) Hwf Hid)
    as (a & b & c & d & Hr & Hr').
  set (rows1 := mark_rows rows national_id (strftime now0)) in *.
  set (st1 := with_users program_name rows1 st).
  assert (Hreg1 : registry_rows st1 = Some programs).
  { unfold st1. by rewrite registry_with_users. }
  assert (Hd1 : program_dir program_name ∈ dirs st1) by done.
  assert (Hs1 : store_rows program_name st1 = Some rows1).
  { by apply update_user_received_rows. }
  pose proof (generate_pdf_state ARABIC_FONT reshape_display b64decode
                flatten_png program_name national_id b
                (form_get req "signature" "") now1 now2 now3 st1 programs
                Hreg1 Hd1) as Hgen. cbv zeta in Hgen.
  pose proof (generate_pdf_keeps ARABIC_FONT reshape_display b64decode
                flatten_png program_name national_id b
                (form_get req "signature" "") now1 now2 now3 st1 programs
                Hreg1 Hd1) as Hframe. cbv zeta in Hframe.
  rewrite Hgen in Hframe. cbn [snd] in Hframe.
  destruct Hframe as (Hreg2 & Hstore2 & Hfile2).
  eexists a, b, c, d, _. split; [exact Hr|].
  split; [|split; [|split; [exact Hr'|split; [exact Hfile2|exact Hreg2]]]].
  - unfold acknowledgment.
    rewrite (io_bind_ok _ _ _ _ _ (get_program_info_registry _ _ _ Hreg)).
    unfold io_bind at 1, io_read.
    rewrite (find_user_store _ _ _ _ Hs), Hr.
    cbn [fmap option_fmap option_map].
    rewrite user_of_truthy, Hpost, Hsig. cbn [negb].
    rewrite (io_bind_ok _ _ _ _ _
               (update_user_received_store _ _ now0 _ _ Hs)).
    fold rows1. fold st1.
    change (str_of_value (get_default (user_of [a; b; c; d]) "FullName" ""))
      with b.
    rewrite (io_bind_ok _ _ _ _ _ Hgen).
    reflexivity.
  - rewrite Hstore2. exact Hs1.
Qed.


(** X22.  After a signed acknowledgment the member is stopped: a POST to
    [verify] with the same identity answers with the warning page that
    carries the stored name and the time stamp written by the
    acknowledgment, and changes nothing. *)
Theorem acknowledged_then_verify program_name national_id
    (req req' : request bytes) now0 now1 now2 now3 st programs rows :
  registry_rows st = Some programs →
  id_present programs program_name = true →
  store_rows program_name st = Some rows →
  id_present rows national_id = true →
  contains_char "/" national_id = false →
  contains_char BACKSLASH national_id = false →
  method req = POST →
  is_empty (form_get req "signature" "") = false →
  method req' = POST →
  form_get req' "national_id" "" = national_id →
  is_empty (strip national_id) = false →
  let st' := (acknowledge program_name national_id req now0 now1 now2 now3
                st).2 in
  ∃ a b c d,
    find_record rows national_id = Some [a; b; c; d] ∧
    verify program_name req' st'
    = (Ok (no_flash (MessagePage
                   ("المستخدم " +:+ b
                    +:+ " قد استلم المواد مسبقاً بتاريخ " +:+ strftime now0
                    +:+ ".") "warning")), st').
Proof.
  intros Hreg Hprog Hs Hid _ _ Hpost Hsig Hpost' Hform Hne st'.
  destruct (acknowledgment_post program_name national_id req now0 now1
              now2 now3 st programs rows Hreg Hs Hid Hpost Hsig)
    as (a & b & c & d & st2 & Hr & Hack & Hs2 & Hr2 & _ & Hreg2).
  assert (st' = st2) as -> by (unfold st'; by rewrite Hack).
  exists a, b, c, d. split; [exact Hr|].
  rewrite (verify_post program_name req' st2 programs _ Hreg2 Hprog Hs2
             Hpost'); rewrite Hform; [|exact Hne].
  assert (find_record (mark_rows rows national_id (strftime now0))
            (strip national_id)
          = Some [a; b; "true"; strftime now0]) as ->.
  { rewrite <- Hr2. unfold find_record. by rewrite strip_idempotent. }
  reflexivity.
Qed.

(** X23.  A GET of [acknowledgment], or a POST with an empty signature,
    marks nobody and saves no receipt: for every file system the state it
    leaves is the one [ensure_system_csv] leaves. *)
Theorem acknowledgment_unsigned program_name national_id (req : request bytes)
    now0 now1 now2 now3 st :
  method req = GET ∨ form_get req "signature" "" = "" →
  (acknowledge program_name national_id req now0 now1 now2 now3 st).2
  = (ensure_system_csv st).2.
Proof.
  intros Hreq. unfold acknowledgment. rewrite io_bind_state.
  { apply get_program_info_state. }
  intros info st1. rewrite io_bind_state; [done|].
  intros [user|] st2; [|done].
  destruct (negb (dict_truthy user)); [done|].
  destruct Hreq as [->| ->]; [done|].
  by destruct (method req).
Qed.
End Acknowledgment.

(** ** The management page of a program *)














Section Management.
Context {bytes : Type}.
Variable decode_utf8_sig : bytes → option string.
Variable decode_utf8 : bytes → option string.
Variable decode_latin1 : bytes → string.
Variable csv_reader : list string → table * option exn.

Local Abbreviation edit :=
  (edit_program bytes decode_utf8_sig decode_utf8 decode_latin1 csv_reader).
Local Abbreviation import :=
  (import_users_from_csv bytes decode_utf8_sig decode_utf8 decode_latin1
     csv_reader).
Local Abbreviation lines_of file_content :=
  (upload_lines bytes decode_utf8_sig decode_utf8 decode_latin1 file_content).



(** X25.  What a POST to [edit_program] refuses: an unregistered program,
    a blank Arabic name, a blank identity or name of a new member, a
    missing upload and an upload whose file name does not end in [.csv].
    Each answers with one error flash and a redirect (to the page of the
    program, or to the management page when the program is not registered)
    and leaves the file system as it was. *)
Theorem edit_program_refuses english_name (req : request bytes) st programs :
  registry_rows st = Some programs →
  method req = POST →
  let action := form_get req "action" "update_name" in
  (id_present programs english_name = false)
  ∨ (action = "update_name"
     ∧ strip (form_get req "arabic_name" "") = "")
  ∨ (action = "add_user"
     ∧ (strip (form_get req "national_id" "") = ""
        ∨ strip (form_get req "full_name" "") = ""))
  ∨ (action = "import_csv"
     ∧ match uploads req !! "csv_file" with
       | None => True
       | Some (filename, _) => endswith ".csv" filename = false
       end) →
  ∃ r,
    edit english_name req st = (Ok r, st) ∧
    map snd (flashed r) = ["error"] ∧
    body r = RedirectTo
               (if id_present programs english_name
                then "edit_program" else "manage_programs")
               (if id_present programs english_name
                then [english_name] else []).
Proof.
  intros Hreg Hpost action Hcase.
  pose proof (registry_rows_inv _ _ Hreg) as (Hd & Hf & Hwf).
  unfold edit_program.
  rewrite (io_bind_ok _ _ _ _ _ (get_program_info_registry _ _ _ Hreg)).
  destruct (id_present programs english_name) eqn:Hprog.
  2:{ rewrite (find_record_absent _ _ Hprog). by eexists. }
  destruct (find_record_present _ _ Hprog) as [p Hp]. rewrite Hp.
  pose proof (find_record_wf _ _ _ Hwf Hp) as Hlen.
  apply program_record_shape in Hlen as (pa & pb & pc & ->).
  cbn [fmap option_fmap option_map].
  rewrite program_of_truthy, Hpost. cbn [negb]. fold action.
  destruct Hcase as [?|[[-> Hname]|[[-> Hform]|[-> Hup]]]]; [done|..].
  - change (String.eqb "update_name" "update_name") with true. cbv iota.
    rewrite Hname. by eexists.
  - change (String.eqb "add_user" "update_name") with false.
    change (String.eqb "add_user" "add_user") with true. cbv iota.
    assert (is_empty (strip (form_get req "national_id" ""))
            || is_empty (strip (form_get req "full_name" "")) = true) as ->.
    { destruct Hform as [-> | ->]; [done|]. apply orb_true_r. }
    by eexists.
  - change (String.eqb "import_csv" "update_name") with false.
    change (String.eqb "import_csv" "add_user") with false.
    change (String.eqb "import_csv" "import_csv") with true. cbv iota.
    destruct (uploads req !! "csv_file") as [[filename content]|];
      [|by eexists].
    rewrite Hup. cbn [negb]. destruct (is_empty filename); by eexists.
Qed.

End Management.

(** * The further properties on the sample data *)

(** The first listing on an empty file system creates the registry. *)
Lemma get_all_programs_first_run_witness :
  path_exists SYSTEM_CSV fresh_fs = false ∧
  files fresh_fs !! PROGRAMS_DIR = None ∧
  ∃ st',
    get_all_programs fresh_fs = (Ok [], st') ∧
    registry_rows st' = Some [] ∧
    dirs st' = {[PROGRAMS_DIR]} ∪ dirs fresh_fs ∧
    ∀ path, path ≠ SYSTEM_CSV → files st' !! path = files fresh_fs !! path.
Proof.
  split; [reflexivity|]. split; [reflexivity|].
  exact (get_all_programs_first_run fresh_fs eq_refl eq_refl).
Defined.

(** The only program of the sample is visible. *)
Lemma get_visible_programs_registry_witness :
  registry_rows sample_fs = Some [["books"; "الكتب"; "true"]] ∧
  get_visible_programs sample_fs
  = (Ok [program_of ["books"; "الكتب"; "true"]], sample_fs).
Proof.
  split; [vm_compute; reflexivity|].
  exact (get_visible_programs_registry sample_fs
           [["books"; "الكتب"; "true"]] eq_refl).
Defined.

(** Provisioning the program of the sample again keeps its member file. *)
Lemma create_program_folder_idempotent_witness :
  is_Some (files sample_fs !! get_csv_path "books") ∧
  create_program_folder "books" (create_program_folder "books" sample_fs).2
  = create_program_folder "books" sample_fs ∧
  files (create_program_folder "books" sample_fs).2 = files sample_fs.
Proof.
  assert (H : is_Some (files sample_fs !! get_csv_path "books"))
    by (vm_compute; eauto).
  split; [exact H|].
  destruct (create_program_folder_idempotent "books" sample_fs) as [H1 H2].
  split; [exact H1|exact (H2 H)].
Defined.


(** The key of the sample program, in capitals, is refused. *)
Lemma add_program_refuses_witness :
  let req := post_form [("english_name", "BOOKS"); ("arabic_name", "كتب")] in
  registry_rows sample_fs = Some [["books"; "الكتب"; "true"]] ∧
  id_present [["books"; "الكتب"; "true"]] "books" = true ∧
  ∃ text,
    add_program req sample_fs
    = (Ok (flash_and text "error" (RedirectTo "add_program" [])), sample_fs).
Proof.
  intros req. split; [vm_compute; reflexivity|]. split; [reflexivity|].
  exact (add_program_refuses req sample_fs [["books"; "الكتب"; "true"]]
           eq_refl eq_refl eq_refl).
Defined.


(** The sample store has one member, who has not received. *)
Lemma users_count_bounds_witness :
  store_rows "books" sample_fs
  = Some [["100200300"; "Sara Ali"; "false"; ""]] ∧
  ∃ received,
    get_program_users_count "books" sample_fs = Ok (1%nat, received) ∧
    (received ≤ 1)%nat ∧
    received = 0%nat.
Proof.
  split; [vm_compute; reflexivity|].
  exact (users_count_bounds "books" sample_fs
           [["100200300"; "Sara Ali"; "false"; ""]] eq_refl).
Defined.


(** Marking Sara Ali keeps the identity and name of every member. *)
Lemma update_user_received_frame_witness :
  store_rows "books" sample_fs
  = Some [["100200300"; "Sara Ali"; "false"; ""]] ∧
  let st1 := (update_user_received "books" "100200300" sample_time
                sample_fs).2 in
  ∃ rows1,
    store_rows "books" st1 = Some rows1 ∧
    length rows1 = 1%nat ∧
    map (take 2) rows1 = [["100200300"; "Sara Ali"]] ∧
    (∀ other, strip other ≠ "100200300" →
       find_user "books" other st1 = find_user "books" other sample_fs) ∧
    dirs st1 = dirs sample_fs ∧
    (∀ path, path ≠ get_csv_path "books" →
       files st1 !! path = files sample_fs !! path).
Proof.
  split; [vm_compute; reflexivity|].
  exact (update_user_received_frame "books" "100200300" sample_time sample_fs
           [["100200300"; "Sara Ali"; "false"; ""]] eq_refl).
Defined.



(** An upload that repeats a new identity. *)
Lemma import_keeps_ids_distinct_witness :
  store_rows "books" sample_fs
  = Some [["100200300"; "Sara Ali"; "false"; ""]] ∧
  NoDup (trimmed_keys [["100200300"; "Sara Ali"; "false"; ""]]) ∧
  upload_ids_clean
    (plain_csv_reader
       (upload_lines string utf8_plain utf8_plain latin1_plain
          repeated_id_upload)).1 ∧
  ∃ rows',
    store_rows "books" (sample_import "books" repeated_id_upload sample_fs).2
    = Some rows' ∧
    NoDup (trimmed_keys rows').
Proof.
  assert (Hnd : NoDup (trimmed_keys [["100200300"; "Sara Ali"; "false"; ""]]))
    by apply NoDup_singleton.
  assert (Hclean : upload_ids_clean
            (plain_csv_reader
               (upload_lines string utf8_plain utf8_plain latin1_plain
                  repeated_id_upload)).1)
    by (unfold upload_ids_clean; vm_compute; repeat constructor).
  split; [vm_compute; reflexivity|]. split; [exact Hnd|].
  split; [exact Hclean|].
  exact (import_keeps_ids_distinct string utf8_plain utf8_plain latin1_plain
           plain_csv_reader "books" repeated_id_upload sample_fs
           [["100200300"; "Sara Ali"; "false"; ""]] eq_refl Hnd Hclean).
Defined.

(** The upload of the sample, imported twice. *)
Lemma import_twice_witness :
  let t := [["NationalID"; "FullName"]; ["100200300"; "Sara Ali"];
            ["200300400"; "Omar Said"]; ["300400500"; "Huda Nasser"];
            [""; "Nobody"]] in
  store_rows "books" sample_fs
  = Some [["100200300"; "Sara Ali"; "false"; ""]] ∧
  plain_csv_reader
    (upload_lines string utf8_plain utf8_plain latin1_plain
       new_and_known_upload) = (t, None) ∧
  upload_ids_clean t ∧
  let st1 := (sample_import "books" new_and_known_upload sample_fs).2 in
  sample_import "books" new_and_known_upload st1
  = (Ok (true, UsersImported 0 3), st1).
Proof.
  intros t.
  assert (Hclean : upload_ids_clean t)
    by (unfold upload_ids_clean; vm_compute; repeat constructor).
  split; [vm_compute; reflexivity|]. split; [reflexivity|].
  split; [exact Hclean|].
  exact (import_twice string utf8_plain utf8_plain latin1_plain
           plain_csv_reader "books" new_and_known_upload sample_fs
           [["100200300"; "Sara Ali"; "false"; ""]] t eq_refl eq_refl Hclean).
Defined.

(** After the upload of the sample Sara Ali is still found, and so is
    every usable row. *)
Lemma import_then_find_witness :
  let t := [["NationalID"; "FullName"]; ["100200300"; "Sara Ali"];
            ["200300400"; "Omar Said"]; ["300400500"; "Huda Nasser"];
            [""; "Nobody"]] in
  store_rows "books" sample_fs
  = Some [["100200300"; "Sara Ali"; "false"; ""]] ∧
  plain_csv_reader
    (upload_lines string utf8_plain utf8_plain latin1_plain
       new_and_known_upload) = (t, None) ∧
  let st1 := (sample_import "books" new_and_known_upload sample_fs).2 in
  (∀ national_id user,
     find_user "books" national_id sample_fs = Ok (Some user) →
     find_user "books" national_id st1 = Ok (Some user)) ∧
  (∀ p, p ∈ [("100200300", "Sara Ali"); ("200300400", "Omar Said");
             ("300400500", "Huda Nasser")] →
     ∃ user,
       find_user "books" p.1 st1 = Ok (Some user) ∧
       (strip <$> get user "NationalID") = Some p.1).
Proof.
  intros t. split; [vm_compute; reflexivity|]. split; [reflexivity|].
  destruct (import_then_find string utf8_plain utf8_plain latin1_plain
              plain_csv_reader "books" new_and_known_upload sample_fs
              [["100200300"; "Sara Ali"; "false"; ""]] t eq_refl eq_refl)
    as [Hold Hnew].
  split; [exact Hold|]. intros p Hp. apply (Hnew p Hp).
  repeat (apply elem_of_cons in Hp as [->|Hp]; [reflexivity|]).
  by apply elem_of_nil in Hp.
Defined.



(** The download of the receipt of Sara Ali passes the guard. *)
Lemma download_pdf_guard_witness :
  let st := (sample_generate_pdf "books" "100200300" "Sara Ali" "signed"
               sample_time sample_time sample_time sample_fs).2 in
  let doc := PdfFile
               (receipt_ops "Helvetica" (fun _ => None) (fun _ => None)
                  (fun _ => None) "الكتب" "100200300" "Sara Ali" "signed"
                  sample_time sample_time sample_time) in
  download_pdf "books" "100200300.pdf" st
  = (Ok (no_flash (SendFile "programs/books/100200300.pdf" doc)), st) ∧
  endswith ".pdf" "100200300.pdf" = true ∧
  contains_char "/" "100200300.pdf" = false ∧
  contains_char BACKSLASH "100200300.pdf" = false ∧
  "programs/books/100200300.pdf"
  = path_join (program_dir "books") "100200300.pdf" ∧
  files st !! "programs/books/100200300.pdf" = Some doc ∧
  "programs/books/100200300.pdf" ≠ SYSTEM_CSV ∧
  ∀ program_name,
    "programs/books/100200300.pdf" ≠ get_csv_path program_name.
Proof.
  intros st doc.
  assert (Hrun : download_pdf "books" "100200300.pdf" st
                 = (Ok (no_flash
                          (SendFile "programs/books/100200300.pdf" doc)), st))
    by (vm_compute; reflexivity).
  split; [exact Hrun|].
  exact (download_pdf_guard "books" "100200300.pdf" st _ st
           "programs/books/100200300.pdf" doc Hrun eq_refl).
Defined.

(** Sara Ali, who has not received, is sent on to the acknowledgment. *)
Lemma verify_answers_witness :
  let req := post_form [("national_id", " 100200300 ")] in
  registry_rows sample_fs = Some [["books"; "الكتب"; "true"]] ∧
  id_present [["books"; "الكتب"; "true"]] "books" = true ∧
  store_rows "books" sample_fs
  = Some [["100200300"; "Sara Ali"; "false"; ""]] ∧
  verify "books" req sample_fs
  = (Ok (no_flash (RedirectTo "acknowledgment" ["books"; "100200300"])),
     sample_fs).
Proof.
  intros req. split; [vm_compute; reflexivity|]. split; [reflexivity|].
  split; [vm_compute; reflexivity|].
  exact (verify_answers "books" req sample_fs [["books"; "الكتب"; "true"]]
           [["100200300"; "Sara Ali"; "false"; ""]]
           eq_refl eq_refl eq_refl eq_refl eq_refl).
Defined.


(** After signing, Sara Ali is stopped at the verification. *)
Lemma acknowledged_then_verify_witness :
  let req := post_form [("signature", "signed")] in
  let req' := post_form [("national_id", "100200300")] in
  registry_rows sample_fs = Some [["books"; "الكتب"; "true"]] ∧
  store_rows "books" sample_fs
  = Some [["100200300"; "Sara Ali"; "false"; ""]] ∧
  let st' := (sample_acknowledgment "books" "100200300" req sample_time
                sample_time sample_time sample_time sample_fs).2 in
  ∃ a b c d,
    find_record [["100200300"; "Sara Ali"; "false"; ""]] "100200300"
    = Some [a; b; c; d] ∧
    verify "books" req' st'
    = (Ok (no_flash
             (MessagePage
                ("المستخدم " +:+ b
                 +:+ " قد استلم المواد مسبقاً بتاريخ "
                 +:+ "2024-03-09 14:05:59" +:+ ".") "warning")), st').
Proof.
  intros req req'. split; [vm_compute; reflexivity|].
  split; [vm_compute; reflexivity|].
  exact (acknowledged_then_verify "Helvetica" (fun _ => None) (fun _ => None)
           (fun _ => None) "books" "100200300" req req' sample_time
           sample_time sample_time sample_time sample_fs
           [["books"; "الكتب"; "true"]]
           [["100200300"; "Sara Ali"; "false"; ""]]
           eq_refl eq_refl eq_refl eq_refl eq_refl eq_refl eq_refl eq_refl
           eq_refl eq_refl eq_refl).
Defined.

(** Opening the acknowledgment page writes nothing. *)
Lemma acknowledgment_unsigned_witness :
  method get_page = GET ∧
  (sample_acknowledgment "books" "100200300" get_page sample_time sample_time
     sample_time sample_time sample_fs).2
  = (ensure_system_csv sample_fs).2.
Proof.
  split; [reflexivity|].
  exact (acknowledgment_unsigned "Helvetica" (fun _ => None) (fun _ => None)
           (fun _ => None) "books" "100200300" get_page sample_time
           sample_time sample_time sample_time sample_fs (or_introl eq_refl)).
Defined.


(** A member without identity is refused by the form. *)
Lemma edit_program_refuses_witness :
  let req := post_form [("action", "add_user"); ("national_id", "  ");
                        ("full_name", "Omar Said")] in
  registry_rows sample_fs = Some [["books"; "الكتب"; "true"]] ∧
  strip "  " = "" ∧
  ∃ r,
    sample_edit_program "books" req sample_fs = (Ok r, sample_fs) ∧
    map snd (flashed r) = ["error"] ∧
    body r = RedirectTo "edit_program" ["books"].
Proof.
  intros req. split; [vm_compute; reflexivity|]. split; [reflexivity|].
  exact (edit_program_refuses utf8_plain utf8_plain latin1_plain
           plain_csv_reader "books" req sample_fs
           [["books"; "الكتب"; "true"]] eq_refl eq_refl
           (or_intror (or_intror (or_introl
              (conj eq_refl (or_introl eq_refl)))))).
Defined.

